(** * LifeWatch Italy transformation service: the dataset normalisation stages

    A shallow embedding of [dataset_transformation_functions.py] and of the
    pieces of CPython and pandas it calls, followed by the properties of the
    normalisation pipeline: date repair, coordinate handling, identifier
    generation, value cleaning, the two wide-to-long reshapes and the final
    null normalisation.

    Conventions of the embedding.
    - A string is a sequence of code points below 256.
    - A Python block that may raise evaluates to an [outcome]; a
      [try]/[except] statement is the function [try_except].
    - A float is a binary64 value, kept as the decimal that [repr]
      prints for it. A number cell stands for an int64 or a float64 by
      its value.
    - A data frame is the ordered list of its column labels together with
      its rows; a row maps labels to cells. *)

From Stdlib Require Import String Ascii List ZArith NArith Bool Lia.
From Stdlib Require Import DecimalString.
Import ListNotations.

Local Open Scope list_scope.
Local Open Scope string_scope.

(* ================================================================== *)
(** ** Python runtime *)
(* ================================================================== *)

Module Py.

(** The built-in exceptions that the modelled code can meet. *)
Inductive exn : Type :=
| FileNotFoundError
| JSONDecodeError
| ValueError
| KeyError
| IndexError
| TypeError
| AttributeError
| OverflowError.

(** The classes named by the [except] clauses of the source. *)
Inductive exn_class : Type :=
| ClsFileNotFoundError
| ClsJSONDecodeError
| ClsValueError
| ClsTypeError
| ClsKeyError
| ClsException.

(** [isinstance e cls]; [json.JSONDecodeError] derives from [ValueError]. *)
Definition isinstance (e : exn) (cls : exn_class) : bool :=
  match cls, e with
  | ClsException, _ => true
  | ClsFileNotFoundError, FileNotFoundError => true
  | ClsJSONDecodeError, JSONDecodeError => true
  | ClsValueError, ValueError => true
  | ClsValueError, JSONDecodeError => true
  | ClsTypeError, TypeError => true
  | ClsKeyError, KeyError => true
  | _, _ => false
  end.

Inductive outcome (A : Type) : Type :=
| Return (a : A)
| Raise (e : exn).

Arguments Return {A} a.
Arguments Raise {A} e.

Definition bind {A B : Type} (m : outcome A) (k : A -> outcome B) : outcome B :=
  match m with
  | Return a => k a
  | Raise e => Raise e
  end.

(** The first clause whose class matches the exception. *)
Fixpoint find_handler {H : Type} (hs : list (exn_class * H)) (e : exn) : option H :=
  match hs with
  | [] => None
  | (cls, h) :: hs' => if isinstance e cls then Some h else find_handler hs' e
  end.

(** [try: body  except C1: h1  except C2: h2 ...]: an exception no clause
    matches leaves the statement. *)
Definition try_except {A : Type} (body : outcome A)
    (hs : list (exn_class * (exn -> outcome A))) : outcome A :=
  match body with
  | Return a => Return a
  | Raise e =>
      match find_handler hs e with
      | Some h => h e
      | None => Raise e
      end
  end.

(** *** Strings *)

(** [c in s] for a one-character [c]. *)
Fixpoint contains (c : ascii) (s : string) : bool :=
  match s with
  | EmptyString => false
  | String a s' => Ascii.eqb a c || contains c s'
  end.

(** [s.split(c)] for a one-character separator. *)
Fixpoint split (c : ascii) (s : string) : list string :=
  match s with
  | EmptyString => [EmptyString]
  | String a s' =>
      if Ascii.eqb a c then EmptyString :: split c s'
      else match split c s' with
           | [] => [String a EmptyString]
           | p :: ps => String a p :: ps
           end
  end.

(** [s.replace(a, b)] for one-character [a] and [b]. *)
Fixpoint replace (a b : ascii) (s : string) : string :=
  match s with
  | EmptyString => EmptyString
  | String x s' => String (if Ascii.eqb x a then b else x) (replace a b s')
  end.

(** White space as [str.isspace] sees it, among the code points below
    256: the ASCII controls 9 to 13 and 28 to 31, the space, NEL and the
    no-break space. *)
Definition is_space (a : ascii) : bool :=
  let n := nat_of_ascii a in
  ((9 <=? n) && (n <=? 13) || (28 <=? n) && (n <=? 32)
   || (n =? 133) || (n =? 160))%nat.

Definition is_digit (a : ascii) : bool :=
  let n := nat_of_ascii a in ((48 <=? n) && (n <=? 57))%nat.

Definition digit_value (a : ascii) : Z := Z.of_nat (nat_of_ascii a - 48).

Fixpoint lstrip (s : string) : string :=
  match s with
  | EmptyString => EmptyString
  | String a s' => if is_space a then lstrip s' else s
  end.

Fixpoint rstrip (s : string) : string :=
  match s with
  | EmptyString => EmptyString
  | String a s' =>
      match rstrip s' with
      | EmptyString => if is_space a then EmptyString else String a EmptyString
      | t => String a t
      end
  end.

Definition strip (s : string) : string := rstrip (lstrip s).

(** [str.lower] on a code point below 256. *)
Definition lower_char (a : ascii) : ascii :=
  let n := nat_of_ascii a in
  if ((65 <=? n) && (n <=? 90)
      || (192 <=? n) && (n <=? 222) && negb (n =? 215))%nat
  then ascii_of_nat (n + 32) else a.

Fixpoint lower (s : string) : string :=
  match s with
  | EmptyString => EmptyString
  | String a s' => String (lower_char a) (lower s')
  end.

(** [str(z)] for an integer. *)
Definition str_int (z : Z) : string := NilZero.string_of_int (Z.to_int z).

(** The format specification [{z:02d}]: zero padded to width two. *)
Definition format_02d (z : Z) : string :=
  if (0 <=? z)%Z && (z <? 10)%Z then "0" ++ str_int z else str_int z.

(** *** Numeric literals *)

(** The white space that [int] and [float] skip around a literal: the
    one of C, and the two code points above 127 that CPython first turns
    into a space. *)
Definition is_literal_space (a : ascii) : bool :=
  let n := nat_of_ascii a in
  ((9 <=? n) && (n <=? 13) || (n =? 32) || (n =? 133) || (n =? 160))%nat.

Fixpoint lstrip_literal (s : string) : string :=
  match s with
  | EmptyString => EmptyString
  | String a s' => if is_literal_space a then lstrip_literal s' else s
  end.

Fixpoint rstrip_literal (s : string) : string :=
  match s with
  | EmptyString => EmptyString
  | String a s' =>
      match rstrip_literal s' with
      | EmptyString =>
          if is_literal_space a then EmptyString else String a EmptyString
      | t => String a t
      end
  end.

Definition strip_literal (s : string) : string :=
  rstrip_literal (lstrip_literal s).

(** *** [int(s)] *)

(** Digits, a single underscore allowed between two digits. [seen] tells
    whether the previous character was a digit. *)
Fixpoint int_digits (acc : Z) (seen : bool) (s : string) : option Z :=
  match s with
  | EmptyString => if seen then Some acc else None
  | String a s' =>
      if is_digit a then int_digits (10 * acc + digit_value a)%Z true s'
      else if Ascii.eqb a "_"%char
           then (if seen then int_digits acc false s' else None)
           else None
  end.

Fixpoint count_digits (s : string) : nat :=
  match s with
  | EmptyString => O
  | String a s' => if is_digit a then S (count_digits s') else count_digits s'
  end.

(** [sys.get_int_max_str_digits()], the default of CPython. *)
Definition int_max_str_digits : nat := 4300.

(** [int(s)]: surrounding white space, an optional sign, decimal digits;
    a literal of more than [int_max_str_digits] digits is refused. *)
Definition int_of_str (s : string) : outcome Z :=
  let t := strip_literal s in
  let body :=
    match t with
    | String "-"%char u => option_map Z.opp (int_digits 0 false u)
    | String "+"%char u => int_digits 0 false u
    | u => int_digits 0 false u
    end in
  match body with
  | Some z =>
      if (int_max_str_digits <? count_digits t)%nat then Raise ValueError
      else Return z
  | None => Raise ValueError
  end.

(** *** Floats

    A float is a binary64 value. A finite one is kept as the shortest
    decimal that rounds to it, which is the decimal that [repr] prints:
    [FDec neg m e] stands for the binary64 value nearest to
    [(-1)^neg * m * 10^e]. *)
Inductive pyfloat : Type :=
| FNaN
| FInf (neg : bool)
| FDec (neg : bool) (m : N) (e : Z).

Definition pyfloat_eqb (x y : pyfloat) : bool :=
  match x, y with
  | FNaN, FNaN => true
  | FInf a, FInf b => Bool.eqb a b
  | FDec a m e, FDec b n f => Bool.eqb a b && N.eqb m n && Z.eqb e f
  | _, _ => false
  end.

Definition is_nan (x : pyfloat) : bool :=
  match x with FNaN => true | _ => false end.

(** [-abs(x)]. *)
Definition neg_abs (x : pyfloat) : pyfloat :=
  match x with
  | FNaN => FNaN
  | FInf _ => FInf true
  | FDec _ m e => FDec true m e
  end.

Definition str_N (n : N) : string := NilZero.string_of_uint (N.to_uint n).

(** Whether [10^l <= num / den]. *)
Definition power_of_ten_below (num den l : Z) : bool :=
  if (0 <=? l)%Z then (den * 10 ^ l <=? num)%Z
  else (den <=? num * 10 ^ (- l))%Z.

Fixpoint raise_log10 (fuel : nat) (num den l : Z) : Z :=
  match fuel with
  | O => l
  | S fuel' =>
      if power_of_ten_below num den (l + 1) then
        raise_log10 fuel' num den (l + 1)%Z
      else l
  end.

(** The integer part of the decimal logarithm of [num / den], found
    from a lower estimate that the binary logarithms give. *)
Definition log10_floor (num den : Z) : Z :=
  let b := (Z.log2 num - Z.log2 den)%Z in
  raise_log10 6 num den ((b - 1) * 30103 / 100000 - 1)%Z.

(** The number of decimal digits of a positive integer. *)
Definition decimal_length (n : Z) : Z := (log10_floor n 1 + 1)%Z.

(** [num / den] as [q * 2^k] with [q] below [2^53], rounded to the
    nearest such value, ties to the even [q]; [k] is not taken below
    -1074, where binary64 becomes subnormal. [None] past the largest
    finite value. *)
Definition round_ratio (num den : Z) : option (Z * Z) :=
  let b := (Z.log2 num - Z.log2 den)%Z in
  let scaled k :=
    if (k <=? 0)%Z then (num * 2 ^ (- k), den)%Z else (num, den * 2 ^ k)%Z in
  let k :=
    let '(n, d) := scaled (b - 52)%Z in
    if (n / d <? 2 ^ 52)%Z then (b - 53)%Z else (b - 52)%Z in
  let k := Z.max k (-1074) in
  let '(n, d) := scaled k in
  let q := (n / d)%Z in
  let r := (n mod d)%Z in
  let q := if (d <? 2 * r)%Z || ((d =? 2 * r)%Z && Z.odd q)
           then (q + 1)%Z else q in
  let '(q, k) := if (q =? 2 ^ 53)%Z then (2 ^ 52, k + 1)%Z else (q, k) in
  if (971 <? k)%Z then None else Some (q, k).

(** The binary64 value nearest to [m * 10^e]. A literal far outside the
    range is settled from its magnitude alone. *)
Definition nearest_binary64 (m : N) (e : Z) : option (Z * Z) :=
  if N.eqb m 0 then Some (0, 0)%Z
  else
    let d := decimal_length (Z.of_N m) in
    if (310 <? e + d)%Z then None
    else if (e + d <? -330)%Z then Some (0, 0)%Z
    else if (0 <=? e)%Z then round_ratio (Z.of_N m * 10 ^ e) 1
    else round_ratio (Z.of_N m) (10 ^ (- e)).

(** Trailing zeros of the mantissa move into the exponent. *)
Fixpoint normalize (fuel : nat) (m : N) (e : Z) : N * Z :=
  match fuel with
  | O => (m, e)
  | S fuel' =>
      if N.eqb m 0 then (0%N, 0%Z)
      else if N.eqb (m mod 10) 0 then normalize fuel' (m / 10)%N (e + 1)%Z
      else (m, e)
  end.

Definition same_binary64 (a b : option (Z * Z)) : bool :=
  match a, b with
  | Some (q, k), Some (q', k') => (q =? q')%Z && (k =? k')%Z
  | _, _ => false
  end.

(** The decimals of [n] digits next to [q * 2^k] that round to it, the
    nearer one first when both do. *)
Definition decimal_of_length (q k : Z) (n : Z) : option (N * Z) :=
  let '(vn, vd) := if (0 <=? k)%Z then (q * 2 ^ k, 1)%Z
                   else (q, 2 ^ (- k))%Z in
  let l := log10_floor vn vd in
  let p := (l - n + 1)%Z in
  let '(xn, xd) := if (0 <=? p)%Z then (vn, vd * 10 ^ p)%Z
                   else (vn * 10 ^ (- p), vd)%Z in
  let lo := (xn / xd)%Z in
  let r := (xn mod xd)%Z in
  let hi := (lo + 1)%Z in
  let ok c := same_binary64 (nearest_binary64 (Z.to_N c) p) (Some (q, k)) in
  let first_hi := (xd <? 2 * r)%Z || ((xd =? 2 * r)%Z && Z.odd lo) in
  let '(c1, c2) := if first_hi then (hi, lo) else (lo, hi) in
  if ok c1 then Some (Z.to_N c1, p)
  else if ok c2 then Some (Z.to_N c2, p)
  else None.

Fixpoint shortest_from (fuel : nat) (q k n : Z) : N * Z :=
  match fuel with
  | O => (Z.to_N q, k)
  | S fuel' =>
      match decimal_of_length q k n with
      | Some (m, e) => normalize 20 m e
      | None => shortest_from fuel' q k (n + 1)%Z
      end
  end.

(** The shortest decimal that rounds to [q * 2^k]; seventeen digits
    always do. *)
Definition shortest_decimal (q k : Z) : N * Z := shortest_from 17 q k 1.

(** The float that a decimal literal denotes. *)
Definition float_of_decimal (neg : bool) (m : N) (e : Z) : pyfloat :=
  match nearest_binary64 m e with
  | None => FInf neg
  | Some (q, k) =>
      if (q =? 0)%Z then FDec neg 0 0
      else let '(m', e') := shortest_decimal q k in FDec neg m' e'
  end.

(** The leading digits of [s] and what follows them. *)
Fixpoint span_digits (s : string) : string * string :=
  match s with
  | String a s' =>
      if is_digit a then let '(d, r) := span_digits s' in (String a d, r)
      else (EmptyString, s)
  | EmptyString => (EmptyString, EmptyString)
  end.

Fixpoint nat_of_digits (acc : N) (s : string) : N :=
  match s with
  | EmptyString => acc
  | String a s' => nat_of_digits (10 * acc + Z.to_N (digit_value a))%N s'
  end.

(** In a literal an underscore may stand between two digits; the parser
    checks this over the whole text and removes them. [prev] is the
    character before. *)
Fixpoint drop_underscores (prev : ascii) (s : string) : option string :=
  match s with
  | EmptyString => if Ascii.eqb prev "_"%char then None else Some EmptyString
  | String a s' =>
      if Ascii.eqb a "_"%char then
        if is_digit prev then drop_underscores a s' else None
      else if Ascii.eqb prev "_"%char && negb (is_digit a) then None
      else option_map (String a) (drop_underscores a s')
  end.

(** The optional exponent part: [e], an optional sign, digits. *)
Definition exponent_of (s : string) : option Z :=
  match s with
  | EmptyString => Some 0%Z
  | String c t =>
      if Ascii.eqb c "e"%char || Ascii.eqb c "E"%char then
        let '(neg, u) :=
          match t with
          | String "-"%char u => (true, u)
          | String "+"%char u => (false, u)
          | u => (false, u)
          end in
        match span_digits u with
        | (String d ds, EmptyString) =>
            let x := Z.of_N (nat_of_digits 0 (String d ds)) in
            Some (if neg then (- x)%Z else x)
        | _ => None
        end
      else None
  end.

(** An unsigned literal: digits, an optional fraction, an optional
    exponent. *)
Definition decimal_of (neg : bool) (s : string) : option pyfloat :=
  let '(ip, r) := span_digits s in
  let '(fp, r') :=
    match r with
    | String "."%char t => span_digits t
    | _ => (EmptyString, r)
    end in
  match ip ++ fp with
  | EmptyString => None
  | ds =>
      match exponent_of r' with
      | Some x =>
          Some (float_of_decimal neg (nat_of_digits 0 ds)
                  (x - Z.of_nat (String.length fp))%Z)
      | None => None
      end
  end.

(** [float(s)]. *)
Definition float_of_str (s : string) : outcome pyfloat :=
  match drop_underscores "000"%char (strip_literal s) with
  | None => Raise ValueError
  | Some u =>
      let '(neg, t) :=
        match u with
        | String "-"%char t => (true, t)
        | String "+"%char t => (false, t)
        | t => (false, t)
        end in
      let l := lower t in
      if String.eqb l "nan" then Return FNaN
      else if String.eqb l "inf" || String.eqb l "infinity"
      then Return (FInf neg)
      else match decimal_of neg t with
           | Some x => Return x
           | None => Raise ValueError
           end
  end.

(** [int(x)] of a float truncates toward zero; [None] stands for the
    exception it raises on NaN ([ValueError]) and on an infinity
    ([OverflowError]). *)
Definition int_of_float (x : pyfloat) : option Z :=
  match x with
  | FNaN | FInf _ => None
  | FDec neg m e =>
      match nearest_binary64 m e with
      | None => None
      | Some (q, k) =>
          let a := if (0 <=? k)%Z then (q * 2 ^ k)%Z else (q / 2 ^ (- k))%Z in
          Some (if neg then (- a)%Z else a)
      end
  end.

Fixpoint zeros (n : nat) : string :=
  match n with O => EmptyString | S n' => String "0"%char (zeros n') end.

Definition repr_digits (ds : string) (e : Z) : string :=
  let n := Z.of_nat (String.length ds) in
  let decpt := (n + e)%Z in
  if (-4 <? decpt)%Z && (decpt <=? 16)%Z then
    if (decpt <=? 0)%Z then "0." ++ zeros (Z.to_nat (- decpt)) ++ ds
    else if (n <=? decpt)%Z then ds ++ zeros (Z.to_nat (decpt - n)) ++ ".0"
    else substring 0 (Z.to_nat decpt) ds ++ "."
         ++ substring (Z.to_nat decpt) (String.length ds - Z.to_nat decpt) ds
  else
    let x := (decpt - 1)%Z in
    substring 0 1 ds
    ++ (if (1 <? n)%Z then "." ++ substring 1 (String.length ds - 1) ds
        else EmptyString)
    ++ "e" ++ (if (x <? 0)%Z then "-" else "+") ++ format_02d (Z.abs x).

Definition str_float (x : pyfloat) : string :=
  match x with
  | FNaN => "nan"
  | FInf false => "inf"
  | FInf true => "-inf"
  | FDec neg m e => (if neg then "-" else EmptyString) ++ repr_digits (str_N m) e
  end.

(** *** Sequences *)

(** [xs[i]]. *)
Definition index {A : Type} (xs : list A) (i : nat) : outcome A :=
  match nth_error xs i with
  | Some x => Return x
  | None => Raise IndexError
  end.

(** [a, b, c = xs]. *)
Definition unpack3 {A : Type} (xs : list A) : outcome (A * A * A) :=
  match xs with
  | [a; b; c] => Return (a, b, c)
  | _ => Raise ValueError
  end.

End Py.

Import Py.

Declare Scope py_scope.
Delimit Scope py_scope with py.
Notation "x <- m ;; k" := (bind m (fun x => k))
  (at level 61, m at next level, right associativity) : py_scope.
Notation "' pat <- m ;; k" := (bind m (fun x => match x with pat => k end))
  (at level 61, pat pattern, m at next level, right associativity) : py_scope.
Local Open Scope py_scope.

(* ================================================================== *)
(** ** DateNormalizer: [fix_event_date] *)
(* ================================================================== *)

Module Dates.

(** The block after the branches: [int(year)], the century rule and the
    final f-string. *)
Definition fix_year (year : Z) : string :=
  if (year <? 40)%Z then "20" ++ format_02d year
  else if (year <? 100)%Z then "19" ++ format_02d year
  else str_int year.

Definition finish (year month day : string) : outcome string :=
  y <- int_of_str year ;;
  Return (fix_year y ++ "-" ++ month ++ "-" ++ day).

(** The body of the [try] statement of [fix_event_date]. *)
Definition fix_event_date_body (date : string) : outcome string :=
  if contains "/"%char date then
    let parts := split "/"%char date in
    p2 <- index parts 2 ;;
    if (String.length p2 =? 4)%nat then
      p1 <- index parts 1 ;;
      p0 <- index parts 0 ;;
      finish p2 p1 p0
    else
      '(day, month, year) <- unpack3 parts ;;
      finish year month day
  else if contains "-"%char date then
    let parts := split "-"%char date in
    p0 <- index parts 0 ;;
    if (String.length p0 =? 4)%nat then Return date
    else
      '(year, month, day) <- unpack3 parts ;;
      finish year month day
  else Return date.

(** [fix_event_date]: the single clause [except Exception] returns the
    sentinel. *)
Definition fix_event_date (date : string) : outcome string :=
  try_except (fix_event_date_body date)
    [(ClsException, fun _ => Return "InvalidDate")].

End Dates.

Import Dates.

(* ================================================================== *)
(** ** pandas: cells and data frames *)
(* ================================================================== *)

Module Pandas.

(** A scalar of a frame. pandas knows three nulls: [None], the float NaN
    ([CNum FNaN]) and [pd.NA]. *)
Inductive Cell : Type :=
| CNone
| CNA
| CNum (x : pyfloat)
| CStr (s : string).

Definition NaN : Cell := CNum FNaN.

(** [pd.isna(x)]; [pd.notnull] and [pd.notna] are its negation. *)
Definition isna (c : Cell) : bool :=
  match c with
  | CNone | CNA | CNum FNaN => true
  | _ => false
  end.

Definition notna (c : Cell) : bool := negb (isna c).

(** [x == s] against a string literal, read as a truth value. *)
Definition eq_str (c : Cell) (s : string) : bool :=
  match c with
  | CStr t => String.eqb t s
  | _ => false
  end.

(** [str(x)], which is also what an f-string field prints. *)
Definition str_cell (c : Cell) : string :=
  match c with
  | CNone => "None"
  | CNA => "<NA>"
  | CNum x => str_float x
  | CStr s => s
  end.

Definition Row : Type := list (string * Cell).

Record DataFrame : Type := mkDataFrame {
  columns : list string;
  rows : list Row
}.

(** [len(df)]. *)
Definition len (df : DataFrame) : nat := List.length (rows df).

Definition mem (c : string) (cs : list string) : bool :=
  existsb (String.eqb c) cs.

(** [c in df.columns]. *)
Definition has_column (df : DataFrame) (c : string) : bool :=
  mem c (columns df).

Fixpoint lookup (r : Row) (c : string) : option Cell :=
  match r with
  | [] => None
  | (k, v) :: r' => if String.eqb k c then Some v else lookup r' c
  end.

(** The cell of a row under a label; a row that lacks the label reads as
    missing, as a reindexed frame does. *)
Definition cell (r : Row) (c : string) : Cell :=
  match lookup r c with
  | Some v => v
  | None => NaN
  end.

(** [row[c]] inside a row-wise [apply]. *)
Definition row_get (df : DataFrame) (r : Row) (c : string) : outcome Cell :=
  if has_column df c then Return (cell r c) else Raise KeyError.

Fixpoint set_cell (r : Row) (c : string) (v : Cell) : Row :=
  match r with
  | [] => [(c, v)]
  | (k, w) :: r' =>
      if String.eqb k c then (k, v) :: r' else (k, w) :: set_cell r' c v
  end.

(** [df[c]]. *)
Definition column (df : DataFrame) (c : string) : outcome (list Cell) :=
  if has_column df c then Return (map (fun r => cell r c) (rows df))
  else Raise KeyError.

Definition add_label (cs : list string) (c : string) : list string :=
  if mem c cs then cs else (cs ++ [c])%list.

(** [df[c] = f(row)] for every row: an existing column is overwritten in
    place, a new one is appended. *)
Definition assign (df : DataFrame) (c : string) (f : Row -> Cell) : DataFrame :=
  {| columns := add_label (columns df) c;
     rows := map (fun r => set_cell r c (f r)) (rows df) |}.

(** [df[c] = values], one value per row. *)
Definition assign_values (df : DataFrame) (c : string) (vs : list Cell)
  : DataFrame :=
  {| columns := add_label (columns df) c;
     rows := map (fun rv => set_cell (fst rv) c (snd rv)) (combine (rows df) vs) |}.

(** [df[c] = scalar]. *)
Definition assign_scalar (df : DataFrame) (c : string) (v : Cell) : DataFrame :=
  assign df c (fun _ => v).

Definition drop_labels (cs : list string) (r : Row) : Row :=
  filter (fun kv => negb (mem (fst kv) cs)) r.

(** [df.drop(columns=cs, errors='ignore')]. *)
Definition drop_ignore (df : DataFrame) (cs : list string) : DataFrame :=
  {| columns := filter (fun c => negb (mem c cs)) (columns df);
     rows := map (drop_labels cs) (rows df) |}.

(** [df.drop(columns=cs)]: a label that is not a column raises. *)
Definition drop (df : DataFrame) (cs : list string) : outcome DataFrame :=
  if forallb (has_column df) cs then Return (drop_ignore df cs)
  else Raise KeyError.

Fixpoint rename_label (m : list (string * string)) (c : string) : string :=
  match m with
  | [] => c
  | (old, new) :: m' => if String.eqb old c then new else rename_label m' c
  end.

(** [df.rename(columns=m)]. *)
Definition rename (df : DataFrame) (m : list (string * string)) : DataFrame :=
  {| columns := map (rename_label m) (columns df);
     rows := map (map (fun kv => (rename_label m (fst kv), snd kv))) (rows df) |}.

(** [df[mask]] and [df.dropna(subset=...)]: the rows that satisfy [keep]. *)
Definition select (df : DataFrame) (keep : Row -> bool) : DataFrame :=
  {| columns := columns df; rows := filter keep (rows df) |}.

(** [df.map(f)], element by element. *)
Definition map_cells (df : DataFrame) (f : Cell -> Cell) : DataFrame :=
  {| columns := columns df;
     rows := map (map (fun kv => (fst kv, f (snd kv)))) (rows df) |}.

(** The row of a frame restricted to the labels [cs], in that order. *)
Definition project (r : Row) (cs : list string) : Row :=
  map (fun c => (c, cell r c)) cs.

(** [pd.melt(df, id_vars, value_vars, var_name, value_name)]: the value
    columns are stacked one after the other, the identifier columns are
    repeated for each. pandas refuses a [value_name] that is already a
    column; a [var_name] that is also an identifier column would give a
    frame with a repeated label, which the label-based steps that follow
    the melts of this program reject, so it is refused here as well. *)
Definition melt (df : DataFrame) (id_vars value_vars : list string)
    (var_name value_name : string) : outcome DataFrame :=
  if has_column df value_name || mem var_name id_vars then Raise ValueError
  else Return
    {| columns := (id_vars ++ [var_name; value_name])%list;
       rows := flat_map
         (fun v => map (fun r => (project r id_vars
                                  ++ [(var_name, CStr v); (value_name, cell r v)])%list)
                       (rows df))
         value_vars |}.

(** Equality of join keys: strings and numbers by value, nulls with
    nulls. *)
Definition key_eqb (a b : Cell) : bool :=
  match a, b with
  | CStr s, CStr t => String.eqb s t
  | CNum x, CNum y => pyfloat_eqb x y
  | _, _ => isna a && isna b
  end.

(** [left.merge(right, on=key, how='left')] with the default suffixes:
    a label other than the key that both frames carry becomes [c_x] on
    the left and [c_y] on the right. A left row without a partner keeps
    one output row with missing right cells. *)
Definition merge_left (left right : DataFrame) (key : string)
  : outcome DataFrame :=
  let shared c :=
    negb (String.eqb c key) && has_column left c && has_column right c in
  let lname c := if shared c then c ++ "_x" else c in
  let rname c := if shared c then c ++ "_y" else c in
  let rcols := filter (fun c => negb (String.eqb c key)) (columns right) in
  let lrow r := map (fun c => (lname c, cell r c)) (columns left) in
  let rrow q := map (fun c => (rname c, cell q c)) rcols in
  let blank := map (fun c => (rname c, NaN)) rcols in
  if has_column left key && has_column right key then
    Return
      {| columns := (map lname (columns left) ++ map rname rcols)%list;
         rows := flat_map
           (fun r =>
              match filter (fun q => key_eqb (cell r key) (cell q key))
                           (rows right) with
              | [] => [(lrow r ++ blank)%list]
              | qs => map (fun q => (lrow r ++ rrow q)%list) qs
              end)
           (rows left) |}
  else Raise KeyError.

(** [pd.concat([a, b], ignore_index=True)]: the union of the labels, the
    rows of [a] followed by those of [b], absent cells missing. *)
Definition concat (a b : DataFrame) : DataFrame :=
  let cs := (columns a
             ++ filter (fun c => negb (has_column a c)) (columns b))%list in
  {| columns := cs;
     rows := map (fun r => project r cs) (rows a ++ rows b) |}.

(** [pd.to_numeric(..., errors='coerce')] on one element: a number
    stays, a null becomes NaN, and a text becomes what the parser of
    pandas reads from it, NaN when it reads nothing. That parser is
    pandas' own; [read] stands for it. *)
Definition to_numeric_with (read : string -> pyfloat) (c : Cell) : pyfloat :=
  match c with
  | CNum x => x
  | CStr s => read s
  | CNone | CNA => FNaN
  end.

(** The parser of pandas on the texts of the sample tables: the special
    names as they are spelt, and otherwise a decimal literal with its
    value; it takes no underscore, and a literal past the largest float
    is an error, hence NaN. *)
Definition numeric_literal (s : string) : pyfloat :=
  let l := lower s in
  if String.eqb l "nan" then FNaN
  else if existsb (String.eqb l) ["inf"; "+inf"; "infinity"; "+infinity"]
  then FInf false
  else if existsb (String.eqb l) ["-inf"; "-infinity"] then FInf true
  else if contains "_"%char s then FNaN
  else match float_of_str s with
       | Return (FDec neg m e) => FDec neg m e
       | _ => FNaN
       end.

Definition to_numeric (c : Cell) : pyfloat :=
  to_numeric_with numeric_literal c.

(** [Series.str.lower()] on one element of an object column: what is not
    a string becomes NaN. *)
Definition str_lower (c : Cell) : Cell :=
  match c with
  | CStr s => CStr (lower s)
  | _ => NaN
  end.

(** Whether a column holds only floats, so that pandas stores it as
    float64 and its [.str] accessor raises. *)
Definition float_column (vs : list Cell) : bool :=
  match vs with
  | [] => false
  | _ => forallb (fun c => match c with CNum _ => true | _ => false end) vs
  end.

End Pandas.

Import Pandas.

(* ================================================================== *)
(** ** The stages of [dataset_transformation_functions.py] *)
(* ================================================================== *)

Module Transform.

(** [uuid.uuid4()]: the source of random identifiers, read in order. *)
Record Rng : Type := mkRng {
  uuid4 : nat -> string;   (* [str] of the n-th identifier drawn *)
  drawn : nat
}.

(** [[str(uuid.uuid4())[:18] for _ in range(n)]]. *)
Definition draw_ids (g : Rng) (n : nat) : list Cell * Rng :=
  (map (fun i => CStr (substring 0 18 (uuid4 g (drawn g + i)))) (seq 0 n),
   {| uuid4 := uuid4 g; drawn := drawn g + n |}).

(** A JSON file on disk as [os.path.exists] and [json.load] find it. *)
Inductive JsonFile (A : Type) : Type :=
| Missing
| Malformed
| Loaded (content : A).

Arguments Missing {A}.
Arguments Malformed {A}.
Arguments Loaded {A} content.

(** One description of a trait, with its four fields. *)
Record TraitEntry : Type := mkTraitEntry {
  label : Cell;
  definition : Cell;
  unit : Cell;
  type : Cell
}.

(** [trait_dict.json]: column name to a list of descriptions. *)
Definition TraitDict : Type := list (string * list TraitEntry).

(** *** CoordinateNormalizer *)

Definition no_coordinate : Cell := CNA.
Definition no_lat : string := "NaN, ".
Definition no_long : string := ", NaN".

(** The lambda applied to a coordinate column:
    [float(str(x).replace(',', '.')) if pd.notnull(x) else None]. *)
Definition coerce_coordinate (x : Cell) : outcome (option pyfloat) :=
  if notna x then
    f <- float_of_str (replace ","%char "."%char (str_cell x)) ;;
    Return (Some f)
  else Return None.

Fixpoint mapM {A B : Type} (f : A -> outcome B) (xs : list A)
  : outcome (list B) :=
  match xs with
  | [] => Return []
  | x :: xs' => y <- f x ;; ys <- mapM f xs' ;; Return (y :: ys)
  end.

(** The column that [Series.apply] builds from floats and [None]: next
    to a float a [None] is stored as NaN; a column of [None] alone keeps
    its [None]. *)
Definition infer_objects (vs : list (option pyfloat)) : list Cell :=
  if existsb (fun v => match v with Some _ => true | None => false end) vs
  then map (fun v => match v with Some x => CNum x | None => NaN end) vs
  else map (fun _ => CNone) vs.

Definition coerce_column (df : DataFrame) (c : string) : outcome DataFrame :=
  vs <- column df c ;;
  fs <- mapM coerce_coordinate vs ;;
  Return (assign_values df c (infer_objects fs)).

Definition create_point (lat lon : Cell) : Cell :=
  if eq_str lat "" && eq_str lon "" then no_coordinate
  else if eq_str lat "" then CStr (no_lat ++ str_cell lon)
  else if eq_str lon "" then CStr (str_cell lat ++ no_long)
  else CStr (str_cell lat ++ ", " ++ str_cell lon).

(** The [depth] block; nothing in it raises. *)
Definition negate_depth (df : DataFrame) : DataFrame :=
  if has_column df "depth" then
    assign df "depth" (fun r => CNum (neg_abs (to_numeric (cell r "depth"))))
  else df.

(** The row function of [process_coordinates] on one row. *)
Definition row_point (d : DataFrame) (row : Row) : outcome Cell :=
  lat <- row_get d row "decimalLatitude" ;;
  lon <- row_get d row "decimalLongitude" ;;
  Return (create_point lat lon).

(** [df.apply(..., axis=1)] as it is assigned to [point]. On a frame
    without rows [df.apply] runs the row function once on a row of NaN to
    learn the shape of its result: when that trial raises, here for want
    of a latitude column, the frame itself comes back and assigning it
    to the column raises [ValueError], unless the frame has a single
    column. *)
Definition row_points (d : DataFrame) : outcome (list Cell) :=
  match rows d with
  | [] =>
      if has_column d "decimalLatitude" || (List.length (columns d) =? 1)%nat
      then Return []
      else Raise ValueError
  | _ :: _ => mapM (row_point d) (rows d)
  end.

(** [process_coordinates]. *)
Definition process_coordinates (df : DataFrame) : outcome DataFrame :=
  df1 <- (if has_column df "decimalLatitude"
          then coerce_column df "decimalLatitude" else Return df) ;;
  df2 <- (if has_column df1 "decimalLongitude" then
            d <- coerce_column df1 "decimalLongitude" ;;
            points <- row_points d ;;
            Return (assign_values d "point" points)
          else if has_column df1 "locality" then
            Return (assign df1 "point" (fun r => cell r "locality"))
          else Return (assign_scalar df1 "point" no_coordinate)) ;;
  Return (negate_depth df2).

(** *** IdGenerator *)

Definition generate_ids (df : DataFrame) (column_name : string) (g : Rng)
  : outcome (DataFrame * Rng) :=
  if has_column df column_name then Raise ValueError
  else
    let '(ids, g') := draw_ids g (len df) in
    Return (assign_values df column_name ids, g').

(** The three clauses of both generators return the frame they were
    given. *)
Definition id_handlers (df : DataFrame) (g : Rng)
  : list (exn_class * (exn -> outcome (DataFrame * Rng))) :=
  [(ClsTypeError, fun _ => Return (df, g));
   (ClsValueError, fun _ => Return (df, g));
   (ClsException, fun _ => Return (df, g))].

(** The [try] block of [feature_of_interest_id_generator]; the argument
    is a frame, so the [isinstance] test passes. *)
Definition feature_of_interest_id_generator_body
    (df : DataFrame) (column_name : string) (g : Rng)
  : outcome (DataFrame * Rng) :=
  generate_ids df column_name g.

Definition feature_of_interest_id_generator_named
    (df : DataFrame) (column_name : string) (g : Rng)
  : outcome (DataFrame * Rng) :=
  try_except (feature_of_interest_id_generator_body df column_name g)
             (id_handlers df g).

(** The call with the default [column_name]. *)
Definition feature_of_interest_id_generator (df : DataFrame) (g : Rng)
  : outcome (DataFrame * Rng) :=
  feature_of_interest_id_generator_named df "featureOfInterestId" g.

(** [observation_id_generator], default [column_name]; it works on a
    copy, which a value already is. *)
Definition observation_id_generator (df : DataFrame) (g : Rng)
  : outcome (DataFrame * Rng) :=
  try_except (generate_ids df "observationId" g) (id_handlers df g).

(** *** ValueCleaner *)

Definition invalid_strings : list string :=
  ["NaN"; "NAN"; "none"; "empty"; "Null"; ""].

(** Membership in [invalid_values]; its [None] stands for every null. *)
Definition is_invalid (c : Cell) : bool :=
  isna c || existsb (eq_str c) invalid_strings.

(** [Series.replace(invalid_values, pd.NA)] on one element. *)
Definition replace_invalid (c : Cell) : Cell :=
  if is_invalid c then CNA else c.

(** The [try] block of [clean_and_infer_measurement_values], given the
    parser of [pd.to_numeric]. *)
Definition clean_and_infer_measurement_values_body_with
    (read : string -> pyfloat) (df : DataFrame) (keep_strings : bool)
  : outcome DataFrame :=
  _ <- column df "measurementValue" ;;
  let df := assign df "measurementValue"
              (fun r => replace_invalid (cell r "measurementValue")) in
  let numeric_series r := to_numeric_with read (cell r "measurementValue") in
  if negb keep_strings then
    let cleaned_df := select df (fun r => notna (CNum (numeric_series r))) in
    Return (assign cleaned_df "measurementValue"
              (fun r => CNum (numeric_series r)))
  else
    let df := assign df "numericValue" (fun r => CNum (numeric_series r)) in
    let df := assign df "measurementValue_cleaned"
                (fun row => if notna (cell row "numericValue")
                            then cell row "numericValue"
                            else cell row "measurementValue") in
    let cleaned_df :=
      select df (fun r => notna (cell r "measurementValue_cleaned")) in
    let cleaned_df := assign cleaned_df "measurementValue"
                        (fun r => cell r "measurementValue_cleaned") in
    drop cleaned_df ["numericValue"; "measurementValue_cleaned"].

Definition clean_and_infer_measurement_values_with
    (read : string -> pyfloat) (df : DataFrame) (keep_strings : bool)
  : outcome DataFrame :=
  try_except (clean_and_infer_measurement_values_body_with read df keep_strings)
             [(ClsException, fun _ => Return df)].

Definition clean_and_infer_measurement_values_body
    (df : DataFrame) (keep_strings : bool) : outcome DataFrame :=
  clean_and_infer_measurement_values_body_with numeric_literal df keep_strings.

Definition clean_and_infer_measurement_values
    (df : DataFrame) (keep_strings : bool) : outcome DataFrame :=
  clean_and_infer_measurement_values_with numeric_literal df keep_strings.

(** *** MeasurementMelter *)

Definition in_dict {V : Type} (d : list (string * V)) (k : string) : bool :=
  existsb (fun kv => String.eqb (fst kv) k) d.

(** The loop that builds [trait_list]: [values[0]] of every entry. *)
Definition trait_rows (trait_dict : TraitDict) : outcome (list Row) :=
  mapM (fun kv =>
          v <- index (snd kv) 0 ;;
          Return [("propertyName", CStr (fst kv));
                  ("propertyLabel", label v);
                  ("propertyDefinition", definition v);
                  ("measurementUnit", unit v);
                  ("propertyUrl", type v)])
       trait_dict.

(** [pd.DataFrame(trait_list)]. *)
Definition trait_frame (trait_list : list Row) : DataFrame :=
  {| columns := match trait_list with
                | [] => []
                | r :: _ => map fst r
                end;
     rows := trait_list |}.

Definition measurement_columns (trait_dict : TraitDict) (df : DataFrame)
  : list string :=
  filter (in_dict trait_dict) (columns df).

Definition non_measurement_columns (trait_dict : TraitDict) (df : DataFrame)
  : list string :=
  filter (fun c => negb (in_dict trait_dict c)) (columns df).

(** Steps 3 to 5 when there is a measurement column; the local [df] is
    not rebound before the final [return]. *)
Definition melt_measurements_with (read : string -> pyfloat)
    (trait_dict : TraitDict) (df : DataFrame) (g : Rng)
  : outcome (DataFrame * Rng) :=
  melted_df <- melt df (non_measurement_columns trait_dict df)
                 (measurement_columns trait_dict df)
                 "propertyName" "measurementValue" ;;
  trait_list <- trait_rows trait_dict ;;
  merged_df <- merge_left melted_df (trait_frame trait_list) "propertyName" ;;
  clean_df <- clean_and_infer_measurement_values_with read merged_df true ;;
  observation_id_generator clean_df g.

(** The [try] block of [measurement_attribute_preparation]. Its handlers
    return the local [df], so the block yields, next to its outcome, the
    frame bound to [df] and the state of the identifier source when it is
    left. *)
Definition measurement_attribute_preparation_body_with
    (read : string -> pyfloat)
    (file : JsonFile TraitDict) (df : DataFrame) (g : Rng)
  : DataFrame * Rng * outcome DataFrame :=
  match file with
  | Missing => (df, g, Raise FileNotFoundError)
  | Malformed => (df, g, Raise JSONDecodeError)
  | Loaded trait_dict =>
      match measurement_columns trait_dict df with
      | [] =>
          if mem "measurementValue" (non_measurement_columns trait_dict df) then
            match observation_id_generator df g with
            | Raise e => (df, g, Raise e)
            | Return (df, g) =>
                let df := rename df [("measurementType", "propertyName");
                                     ("measurementTypeID", "propertyUrl")] in
                match column df "propertyName" with
                | Raise e => (df, g, Raise e)
                | Return names =>
                    let df := assign_values df "propertyLabel" names in
                    let df := assign_scalar df "propertyDefinition" CNA in
                    (df, g, Return df)
                end
            end
          else
            match observation_id_generator df g with
            | Raise e => (df, g, Raise e)
            | Return (df, g) =>
                let df := assign_scalar df "propertyName" CNA in
                let df := assign_scalar df "measurementValue" CNA in
                let df := assign_scalar df "propertyLabel" CNA in
                let df := assign_scalar df "propertyDefinition" CNA in
                let df := assign_scalar df "measurementUnit" CNA in
                let df := assign_scalar df "propertyUrl" CNA in
                (df, g, Return df)
            end
      | _ :: _ =>
          match melt_measurements_with read trait_dict df g with
          | Raise e => (df, g, Raise e)
          | Return (out, g') => (out, g', Return out)
          end
      end
  end.

Definition measurement_attribute_preparation_with
    (read : string -> pyfloat)
    (file : JsonFile TraitDict) (df : DataFrame) (g : Rng)
  : outcome (DataFrame * Rng) :=
  let '(local_df, g', r) :=
    measurement_attribute_preparation_body_with read file df g in
  try_except (out <- r ;; Return (out, g'))
    [(ClsFileNotFoundError, fun _ => Return (local_df, g'));
     (ClsJSONDecodeError, fun _ => Return (local_df, g'));
     (ClsException, fun _ => Return (local_df, g'))].


Definition measurement_attribute_preparation_body
    (file : JsonFile TraitDict) (df : DataFrame) (g : Rng)
  : DataFrame * Rng * outcome DataFrame :=
  measurement_attribute_preparation_body_with numeric_literal file df g.

Definition measurement_attribute_preparation
    (file : JsonFile TraitDict) (df : DataFrame) (g : Rng)
  : outcome (DataFrame * Rng) :=
  measurement_attribute_preparation_with numeric_literal file df g.

(** *** TaxonomyMelter *)

Definition taxonomy_columns (taxonomy_list : list string) (df : DataFrame)
  : list string :=
  filter (fun value => mem value taxonomy_list) (columns df).

Definition non_taxonomy_columns (taxonomy_list : list string) (df : DataFrame)
  : list string :=
  filter (fun value => negb (mem value taxonomy_list)) (columns df).

(** The [try] block of [taxonomy_attribution_preparation]. *)
Definition taxonomy_attribution_preparation_body
    (file : JsonFile (list string)) (df : DataFrame) : outcome DataFrame :=
  match file with
  | Missing => Raise FileNotFoundError
  | Malformed => Raise JSONDecodeError
  | Loaded taxonomy_list =>
      if has_column df "taxonRank" then
        ranks <- column df "taxonRank" ;;
        lowered <- (if float_column ranks then Raise AttributeError
                    else Return (map str_lower ranks)) ;;
        let df := assign_values df "taxonRank" lowered in
        if has_column df "acceptedNameUsage" then
          let df := assign df "taxon" (fun r => cell r "acceptedNameUsage") in
          match taxonomy_columns taxonomy_list df with
          | [] => Return df
          | _ :: _ =>
              melted_df <- melt df (non_taxonomy_columns taxonomy_list df)
                             (taxonomy_columns taxonomy_list df)
                             "temp_taxonRank" "temp_taxon" ;;
              melted_df <- drop melted_df ["taxon"; "taxonRank"] ;;
              let melted_df := rename melted_df
                                 [("temp_taxonRank", "taxonRank");
                                  ("temp_taxon", "taxon")] in
              df' <- drop df (taxonomy_columns taxonomy_list df) ;;
              Return (concat df' melted_df)
          end
        else Raise ValueError
      else
        match taxonomy_columns taxonomy_list df with
        | [] =>
            let df := assign_scalar df "taxonRank" CNA in
            Return (assign_scalar df "taxon" CNA)
        | _ :: _ =>
            melt df (non_taxonomy_columns taxonomy_list df)
              (taxonomy_columns taxonomy_list df) "taxonRank" "taxon"
        end
  end.

(** [taxonomy_attribution_preparation]: each clause logs and falls off
    the end of the function, which then returns [None]. *)
Definition taxonomy_attribution_preparation
    (file : JsonFile (list string)) (df : DataFrame)
  : outcome (option DataFrame) :=
  try_except (out <- taxonomy_attribution_preparation_body file df ;;
              Return (Some out))
    [(ClsFileNotFoundError, fun _ => Return None);
     (ClsJSONDecodeError, fun _ => Return None);
     (ClsException, fun _ => Return None)].

(** *** NullNormalizer *)

(** The lambda of [normalize_empty_values]. *)
Definition normalize_cell (x : Cell) : Cell :=
  if isna x || eq_str x "" then CNA else x.

(** [normalize_empty_values]; the pipeline hands it [None] when an
    earlier stage returned nothing, and [None] has no [map]. *)
Definition normalize_empty_values (df : option DataFrame)
  : outcome (option DataFrame) :=
  try_except
    (match df with
     | Some d => Return (Some (map_cells d normalize_cell))
     | None => Raise AttributeError
     end)
    [(ClsException, fun _ => Return df)].

End Transform.

Import Transform.

(* ================================================================== *)
(** ** DateNormalizer: the [date] column *)
(* ================================================================== *)

Module DateColumn.

(** [float(y)] of a scalar. *)
Definition float_of_cell (c : Cell) : outcome pyfloat :=
  match c with
  | CNum x => Return x
  | CStr s => float_of_str s
  | CNone | CNA => Raise TypeError
  end.

(** The format specification [{z:04d}]: zero padded to width four, the
    sign counted in the width. *)
Definition format_04d (z : Z) : string :=
  let d := str_int (Z.abs z) in
  if (z <? 0)%Z then "-" ++ zeros (3 - String.length d) ++ d
  else zeros (4 - String.length d) ++ d.

(** The inner function [normalize_year]; its bare [except] answers
    [None] to every exception. *)
Definition normalize_year (y : Cell) : Cell :=
  if isna y then CNone
  else
    match float_of_cell y with
    | Raise _ => CNone
    | Return x =>
        match int_of_float x with
        | None => CNone
        | Some y =>
            if (0 <=? y)%Z && (y <? 40)%Z then CStr ("20" ++ format_02d y)
            else if (40 <=? y)%Z && (y <? 100)%Z then CStr ("19" ++ format_02d y)
            else CStr (format_04d y)
        end
    end.

(** [str.zfill(w)]. *)
Definition zfill (w : nat) (s : string) : string :=
  match s with
  | String c t =>
      if Ascii.eqb c "-"%char || Ascii.eqb c "+"%char
      then String c (zeros (w - String.length s) ++ t)
      else zeros (w - String.length s) ++ s
  | EmptyString => zeros w
  end.

(** Whether an integer is an int64. *)
Definition fits_int64 (n : Z) : bool :=
  (- 2 ^ 63 <=? n)%Z && (n <? 2 ^ 63)%Z.

(** [Series.astype(int)] on one element that is not null. A float is
    truncated, and past the int64 range the cast of numpy gives the
    least int64 (on x86-64); a text is read by [int], and a value past
    the range does not fit the array. *)
Definition astype_int (c : Cell) : outcome Z :=
  match c with
  | CNum x => match int_of_float x with
              | Some n => Return (if fits_int64 n then n else (- 2 ^ 63)%Z)
              | None => Raise ValueError
              end
  | CStr s =>
      n <- int_of_str s ;;
      if fits_int64 n then Return n else Raise OverflowError
  | CNone | CNA => Raise TypeError
  end.

(** [.fillna(1).astype(int).astype(str).str.zfill(2)] on one element. *)
Definition two_digits (c : Cell) : outcome Cell :=
  n <- astype_int (if isna c then CNum (FDec false 1 0) else c) ;;
  Return (CStr (zfill 2 (str_int n))).

(** One turn of the loop over [month] and [day]. *)
Definition fill_component (df : DataFrame) (col : string) : outcome DataFrame :=
  let base :=
    if has_column df col then map (fun r => cell r col) (rows df)
    else map (fun _ => CNum (FDec false 1 0)) (rows df) in
  let df := assign_values df col base in
  vs <- mapM two_digits base ;;
  Return (assign_values df col vs).

(** [replace_missing_month_day_year]. *)
Definition replace_missing_month_day_year (df : DataFrame) : outcome DataFrame :=
  df <- fill_component df "month" ;;
  df <- fill_component df "day" ;;
  Return (assign_values df "year"
            (if has_column df "year"
             then map (fun r => normalize_year (cell r "year")) (rows df)
             else map (fun _ => CNone) (rows df))).

(** [+] on two elements of object columns that hold text or nulls, the
    only operands [create_date_column] meets: next to a null the result
    is NaN. *)
Definition text_add (a b : Cell) : Cell :=
  match a, b with
  | CStr s, CStr t => CStr (s ++ t)
  | _, _ => NaN
  end.

(** [create_date_column]. *)
Definition create_date_column (df : DataFrame) : outcome DataFrame :=
  if has_column df "eventDate" then
    dates <- mapM (fun c => d <- fix_event_date (str_cell c) ;; Return (CStr d))
               (map (fun r => cell r "eventDate") (rows df)) ;;
    let df := assign_values df "eventDate" dates in
    Return (rename df [("eventDate", "date")])
  else
    df <- replace_missing_month_day_year df ;;
    let df := assign_scalar df "date" (CStr "") in
    let df := assign df "date"
                (fun r => text_add (cell r "date") (cell r "year")) in
    let df := assign df "date"
                (fun r => text_add (cell r "date")
                            (text_add (CStr "-") (cell r "month"))) in
    let df := assign df "date"
                (fun r => text_add (cell r "date")
                            (text_add (CStr "-") (cell r "day"))) in
    Return (drop_ignore df ["year"; "month"; "day"]).

End DateColumn.

Import DateColumn.

(* ================================================================== *)
(** ** The pipeline: [data_preparation] and the workflow *)
(* ================================================================== *)

Module Workflow.

(** What can leave the [try] block of [data_preparation] besides the
    built-in exceptions of [exn]. *)
Inductive prep_exn : Type :=
| FileExistsError
| ParserError
| Builtin (e : exn).

(** The files the pipeline reads. [read_csv] stands for opening the
    file, choosing the delimiter from its first line and
    [pd.read_csv]. *)
Record Disk : Type := mkDisk {
  listdir : outcome (list string);              (* [os.listdir("./Input_dir")] *)
  read_csv : string -> DataFrame + prep_exn;
  trait_dict_json : JsonFile TraitDict;
  taxonomy_list_json : JsonFile (list string)
}.

(** [name.endswith(suffix)]. *)
Definition endswith (name suffix : string) : bool :=
  let n := String.length name in
  let k := String.length suffix in
  (k <=? n)%nat && String.eqb (substring (n - k) k name) suffix.

(** The delimiter chosen from the first line of the file. *)
Definition detect_delimiter (first_line : string) : ascii :=
  if contains ";"%char first_line then ";"%char
  else if contains (ascii_of_nat 9) first_line then ascii_of_nat 9
  else if contains "|"%char first_line then "|"%char
  else ","%char.

(** [frame[c].iloc[0]]. *)
Definition iloc0 (frame : DataFrame) (c : string) : outcome Cell :=
  vs <- column frame c ;;
  index vs 0.

(** [Series.str.strip()] on one element of an object column. *)
Definition strip_cell (c : Cell) : Cell :=
  match c with
  | CStr s => CStr (strip s)
  | _ => NaN
  end.

(** Step 2: the columns of dtype [object] are stripped, one after the
    other. *)
Definition strip_columns (df : DataFrame) : DataFrame :=
  fold_left
    (fun d col =>
       if float_column (map (fun r => cell r col) (rows d)) then d
       else assign d col (fun r => strip_cell (cell r col)))
    (columns df) df.

Definition lift {A : Type} (m : outcome A) : A + prep_exn :=
  match m with
  | Return a => inl a
  | Raise e => inr (Builtin e)
  end.

Definition and_then {A B : Type} (m : A + prep_exn) (k : A -> B + prep_exn)
  : B + prep_exn :=
  match m with
  | inl a => k a
  | inr e => inr e
  end.

(** The [try] block of [data_preparation]. *)
Definition data_preparation_body (disk : Disk) (attribute_df : DataFrame)
    (g : Rng) : (DataFrame * Rng) + prep_exn :=
  and_then (lift (listdir disk)) (fun names =>
  let csv_files := filter (fun file => endswith file ".csv") names in
  match csv_files with
  | [] => inr (Builtin FileNotFoundError)
  | _ :: _ :: _ => inr FileExistsError
  | [file] =>
      and_then (read_csv disk ("./Input_dir/" ++ file)) (fun df =>
      and_then (lift (iloc0 attribute_df "datasetId")) (fun dataset_id =>
      let df := assign_scalar df "datasetId" dataset_id in
      and_then (lift (iloc0 attribute_df "datasetLabel")) (fun dataset_label =>
      let df := assign_scalar df "datasetLabel" dataset_label in
      let df := strip_columns df in
      and_then (lift (create_date_column df)) (fun df =>
      and_then (lift (process_coordinates df)) (fun df =>
      lift (feature_of_interest_id_generator df g))))))
  end).

(** [data_preparation]: its five clauses, the last of them
    [except Exception], log and fall off the end, so an error makes the
    function return [None]. *)
Definition data_preparation (disk : Disk) (attribute_df : DataFrame) (g : Rng)
  : option DataFrame * Rng :=
  match data_preparation_body disk attribute_df g with
  | inl (df, g') => (Some df, g')
  | inr _ => (None, g)
  end.

(** [measurement_attribute_preparation] as the workflow calls it. On
    [None] the file error, or else the [AttributeError] of
    [df.columns], is caught by a clause that returns [df]. *)
Definition measurement_stage (file : JsonFile TraitDict)
    (df : option DataFrame) (g : Rng) : outcome (option DataFrame * Rng) :=
  match df with
  | Some d =>
      '(out, g') <- measurement_attribute_preparation file d g ;;
      Return (Some out, g')
  | None => Return (None, g)
  end.

(** [taxonomy_attribution_preparation] as the workflow calls it; on
    [None] every path ends in a clause that returns nothing. *)
Definition taxonomy_stage (file : JsonFile (list string))
    (df : option DataFrame) : outcome (option DataFrame) :=
  match df with
  | Some d => taxonomy_attribution_preparation file d
  | None => Return None
  end.

(** [run_dataset_transformation_mapping_workflow]: the table it returns,
    which is also the one it hands to [save_dataframe_to_csv]; an
    exception of a stage would be logged by its clauses. *)
Definition run_dataset_transformation_mapping_workflow
    (disk : Disk) (attribute_df : DataFrame) (g : Rng) : option DataFrame :=
  let '(df, g) := data_preparation disk attribute_df g in
  let result :=
    '(df, _) <- measurement_stage (trait_dict_json disk) df g ;;
    df <- taxonomy_stage (taxonomy_list_json disk) df ;;
    normalize_empty_values df in
  match result with
  | Return df => df
  | Raise _ => None
  end.

End Workflow.

Import Workflow.

(* ================================================================== *)
(** ** Vocabulary of the statements and sample tables *)
(* ================================================================== *)

(** The century rule as the specification words it. *)
Definition four_digit_year (y : Z) : Z :=
  if (y <? 40)%Z then (2000 + y)%Z
  else if (y <? 100)%Z then (1900 + y)%Z
  else y.

(** Every cell of a frame, row after row. *)
Definition all_cells (df : DataFrame) : list Cell :=
  flat_map (map snd) (rows df).

(** The values of one label down the rows. *)
Definition values_of (df : DataFrame) (c : string) : list Cell :=
  map (fun r => cell r c) (rows df).

(** What keep-strings cleaning leaves in a cell that survives: the number
    read from it, or the cell itself when none can be read. *)
Definition coerce_or_keep_with (read : string -> pyfloat) (c : Cell) : Cell :=
  if is_nan (to_numeric_with read c) then c
  else CNum (to_numeric_with read c).

Definition coerce_or_keep (c : Cell) : Cell :=
  coerce_or_keep_with numeric_literal c.

(** What drop-strings cleaning reads in a cell: nothing in a null or a
    placeholder token, else what the parser reads. *)
Definition number_read_with (read : string -> pyfloat) (c : Cell) : pyfloat :=
  if is_invalid c then FNaN else to_numeric_with read c.


(** Whether a column holds numbers only, one of them not NaN: its
    [.str] accessor raises, whatever its dtype. *)
Definition numbers_only (vs : list Cell) : bool :=
  forallb (fun c => match c with CNum _ => true | _ => false end) vs
  && existsb (fun c => match c with
                       | CNum x => negb (is_nan x)
                       | _ => false
                       end) vs.


Module Fixtures.

Definition rng0 : Rng :=
  {| uuid4 := fun n =>
       let d := str_N (N.of_nat n) in
       zeros (8 - String.length d) ++ d ++ "-7d4a-4c6b-9e1f-0123456789ab";
     drawn := 0 |}.

Definition height_entry : TraitEntry :=
  {| label := CStr "Height";
     definition := CStr "Height of the organism";
     unit := CStr "cm";
     type := CStr "http://example.org/trait/height" |}.

Definition traits : TraitDict := [("height", [height_entry])].


(** Two sites, the height of the second one left empty in the file. *)
Definition heights : DataFrame :=
  {| columns := ["site"; "height"];
     rows := [[("site", CStr "A"); ("height", CNum (FDec false 12 0))];
              [("site", CStr "B"); ("height", NaN)]] |}.

Definition ranks : list string := ["genus"; "family"].

Definition wide_taxa : DataFrame :=
  {| columns := ["site"; "genus"; "family"];
     rows := [[("site", CStr "A"); ("genus", CStr "Mytilus");
               ("family", CStr "Mytilidae")];
              [("site", CStr "B"); ("genus", CStr "Ostrea");
               ("family", CStr "Ostreidae")]] |}.


(** [taxonRank] without [acceptedNameUsage]. *)
Definition ranked_without_name : DataFrame :=
  {| columns := ["site"; "taxonRank"];
     rows := [[("site", CStr "A"); ("taxonRank", CStr "Species")]] |}.



Definition comma_coordinates : DataFrame :=
  {| columns := ["decimalLatitude"; "decimalLongitude"];
     rows := [[("decimalLatitude", CStr "40,5");
               ("decimalLongitude", CStr "-3,7")]] |}.

(** The latitude is missing, as [read_csv] leaves an empty field. *)
Definition longitude_only : DataFrame :=
  {| columns := ["decimalLatitude"; "decimalLongitude"];
     rows := [[("decimalLatitude", NaN);
               ("decimalLongitude", CStr "-3,7")]] |}.

(** One complete row, one without latitude, one without longitude, one
    without either. *)
Definition partial_coordinates : DataFrame :=
  {| columns := ["decimalLatitude"; "decimalLongitude"];
     rows := [[("decimalLatitude", CStr "40,5");
               ("decimalLongitude", CStr "-3,7")];
              [("decimalLatitude", NaN);
               ("decimalLongitude", CStr "-3,7")];
              [("decimalLatitude", CStr "40,5");
               ("decimalLongitude", NaN)];
              [("decimalLatitude", NaN);
               ("decimalLongitude", NaN)]] |}.

Definition no_coordinates_at_all : DataFrame :=
  {| columns := ["decimalLatitude"; "decimalLongitude"];
     rows := [[("decimalLatitude", NaN); ("decimalLongitude", NaN)]] |}.


Definition measured : DataFrame :=
  {| columns := ["site"; "measurementValue"];
     rows := [[("site", CStr "A"); ("measurementValue", CStr "12.5")];
              [("site", CStr "B"); ("measurementValue", CStr "none")];
              [("site", CStr "C"); ("measurementValue", CStr "tall")];
              [("site", CStr "D"); ("measurementValue", NaN)]] |}.

End Fixtures.

Import Fixtures.

(** *** Further vocabulary and samples *)

(** Every row carries exactly the labels of the frame, in their order. *)
Definition well_formed (df : DataFrame) : Prop :=
  forall r, In r (rows df) -> map fst r = columns df.



(** The text of a year as [normalize_year] writes it. *)
Definition year_text (y : Z) : string :=
  if (0 <=? y)%Z && (y <? 40)%Z then "20" ++ format_02d y
  else if (40 <=? y)%Z && (y <? 100)%Z then "19" ++ format_02d y
  else format_04d y.

(** The month or day that [replace_missing_month_day_year] starts from:
    the cell of the column, or 1 when the table has no such column. *)
Definition component (df : DataFrame) (col : string) (r : Row) : Cell :=
  if has_column df col then cell r col else CNum (FDec false 1 0).

(** The year it leaves in a row. *)
Definition year_of (df : DataFrame) (r : Row) : Cell :=
  if has_column df "year" then normalize_year (cell r "year") else CNone.

(** What a step of [process_coordinates] keeps: the number of rows, the
    columns that exist, and the values outside the labels [ws]. *)
Definition keeps (ws : list string) (df df' : DataFrame) : Prop :=
  len df' = len df /\
  (forall c, has_column df c = true -> has_column df' c = true) /\
  (forall c, mem c ws = false ->
             map (fun r => cell r c) (rows df')
             = map (fun r => cell r c) (rows df)).

(** What an identifier generator adds to a table that lacks the column
    [c]: the column comes last, holds the 18-character prefixes of the
    next [len df] identifiers drawn, and is free of repetitions when
    those prefixes differ; nothing else changes. *)
Definition ids_added (df : DataFrame) (g : Rng) (c : string)
    (out : DataFrame) (g' : Rng) : Prop :=
  columns out = (columns df ++ [c])%list /\
  len out = len df /\
  uuid4 g' = uuid4 g /\
  drawn g' = drawn g + len df /\
  values_of out c
  = map (fun i => CStr (substring 0 18 (uuid4 g (drawn g + i))))
        (seq 0 (len df)) /\
  (forall d, d <> c -> values_of out d = values_of df d) /\
  ((forall i j, i < j < len df ->
      substring 0 18 (uuid4 g (drawn g + i))
      <> substring 0 18 (uuid4 g (drawn g + j))) ->
   NoDup (values_of out c)).

(** The pairs of a column to melt and an input row, in the order in
    which a melt stacks them. *)
Definition melt_pairs (df : DataFrame) (cs : list string)
  : list (string * Row) :=
  flat_map (fun v => map (fun r => (v, r)) (rows df)) cs.

(** The columns that describe a measurement in the prepared table. *)
Definition property_columns : list string :=
  ["propertyName"; "measurementValue"; "propertyLabel"; "propertyDefinition";
   "measurementUnit"; "propertyUrl"].

(** The labels [measurement_attribute_preparation] writes or uses while
    it reshapes. *)
Definition reserved_columns : list string :=
  ["measurementValue"; "propertyName"; "propertyLabel"; "propertyDefinition";
   "measurementUnit"; "propertyUrl"; "numericValue";
   "measurementValue_cleaned"; "observationId"].

(** The row [trait_rows] builds for one entry. *)
Definition trait_row (name : string) (e : TraitEntry) : Row :=
  [("propertyName", CStr name); ("propertyLabel", label e);
   ("propertyDefinition", definition e); ("measurementUnit", unit e);
   ("propertyUrl", type e)].

(** The renaming of the fallback that keeps a [measurementValue]
    column. *)
Definition measurement_renaming : list (string * string) :=
  [("measurementType", "propertyName"); ("measurementTypeID", "propertyUrl")].

(** What the stripping loop leaves in a column. *)
Definition stripped_column (vs : list Cell) : list Cell :=
  if float_column vs then vs else map strip_cell vs.

(** One turn of the stripping loop. *)
Definition strip_step (d : DataFrame) (col : string) : DataFrame :=
  if float_column (map (fun r => cell r col) (rows d)) then d
  else assign d col (fun r => strip_cell (cell r col)).

(** What a stage of [data_preparation] leaves alone: the number of rows
    and, for every label outside [ws], the presence of the column and
    its values. *)
Definition carried_outside (ws : list string) (df df' : DataFrame) : Prop :=
  len df' = len df /\
  forall c, mem c ws = false ->
            (has_column df c = true -> has_column df' c = true) /\
            values_of df' c = values_of df c.

(** What the stripping loop leaves of a scalar written to every row. *)
Definition stripped_scalar (v : Cell) : Cell :=
  match v with
  | CNum _ => v
  | _ => strip_cell v
  end.

(** The labels that the stages of [data_preparation] write. *)
Definition prepared_columns : list string :=
  ["eventDate"; "date"; "year"; "month"; "day"; "decimalLatitude";
   "decimalLongitude"; "point"; "depth"; "featureOfInterestId"].

Module Samples.

Definition year_month_day : DataFrame :=
  {| columns := ["site"; "year"; "month"; "day"];
     rows := [[("site", CStr "A"); ("year", CNum (FDec false 2021 0));
               ("month", CNum (FDec false 6 0)); ("day", CNum (FDec false 15 0))];
              [("site", CStr "B"); ("year", CNum (FDec false 7 0));
               ("month", NaN); ("day", CNum (FDec false 3 0))];
              [("site", CStr "C"); ("year", NaN);
               ("month", CNum (FDec false 12 0)); ("day", NaN)]] |}.


Definition bad_latitude : DataFrame :=
  {| columns := ["decimalLatitude"; "decimalLongitude"];
     rows := [[("decimalLatitude", CStr "40,5");
               ("decimalLongitude", CStr "-3,7")];
              [("decimalLatitude", CStr "north");
               ("decimalLongitude", CStr "-3,7")]] |}.

Definition longitude_column_only : DataFrame :=
  {| columns := ["site"; "decimalLongitude"];
     rows := [[("site", CStr "A"); ("decimalLongitude", CStr "-3,7")]] |}.

Definition depths : DataFrame :=
  {| columns := ["site"; "depth"];
     rows := [[("site", CStr "A"); ("depth", CNum (FDec false 125 (-1)))];
              [("site", CStr "B"); ("depth", CNum (FDec true 3 0))];
              [("site", CStr "C"); ("depth", CStr "deep")]] |}.

(** A table that is already long: one measurement per row. *)
Definition long_format : DataFrame :=
  {| columns := ["site"; "measurementType"; "measurementTypeID";
                 "measurementValue"];
     rows := [[("site", CStr "A"); ("measurementType", CStr "length");
               ("measurementTypeID", CStr "http://example.org/length");
               ("measurementValue", CStr "none")];
              [("site", CStr "B"); ("measurementType", CStr "mass");
               ("measurementTypeID", NaN);
               ("measurementValue", CNum (FDec false 35 (-1)))]] |}.

(** The attribute table of the mapping; only its first row is read. *)
Definition attributes : DataFrame :=
  {| columns := ["datasetId"; "datasetLabel"];
     rows := [[("datasetId", CStr "ds-01"); ("datasetLabel", CStr " Lagoon survey ")];
              [("datasetId", CStr "ds-02"); ("datasetLabel", CStr "Other")]] |}.

(** The content of a small CSV file as [pd.read_csv] returns it. *)
Definition survey_csv : DataFrame :=
  {| columns := ["site"; "eventDate"; "decimalLatitude"; "decimalLongitude";
                 "height"; "genus"];
     rows := [[("site", CStr " A "); ("eventDate", CStr "15/06/23");
               ("decimalLatitude", CStr "40,5");
               ("decimalLongitude", CStr "-3,7");
               ("height", CNum (FDec false 12 0)); ("genus", CStr "Mytilus")];
              [("site", CStr "B"); ("eventDate", NaN);
               ("decimalLatitude", CStr "41,0");
               ("decimalLongitude", CStr "-3,9");
               ("height", CNum (FDec false 95 (-1))); ("genus", NaN)]] |}.

(** An input directory with one CSV file among other files. *)
Definition survey_disk : Disk :=
  {| listdir := Return ["notes.txt"; "survey.csv"];
     read_csv := fun path =>
       if String.eqb path "./Input_dir/survey.csv" then inl survey_csv
       else inr (Builtin FileNotFoundError);
     trait_dict_json := Loaded traits;
     taxonomy_list_json := Loaded ranks |}.

(** An input directory with two CSV files. *)
Definition two_csv_disk : Disk :=
  {| listdir := Return ["a.csv"; "b.csv"];
     read_csv := fun _ => inl survey_csv;
     trait_dict_json := Loaded traits;
     taxonomy_list_json := Loaded ranks |}.

(** The same directory without [taxonomy_list.json]. *)
Definition no_taxonomy_disk : Disk :=
  {| listdir := Return ["notes.txt"; "survey.csv"];
     read_csv := fun _ => inl survey_csv;
     trait_dict_json := Loaded traits;
     taxonomy_list_json := Missing |}.


End Samples.

Import Samples.

(** Runs a stage on a sample table. *)
Ltac run_stage := vm_compute; repeat split; try reflexivity; try discriminate.

(* ================================================================== *)
(** ** Properties of the Python runtime model *)
(* ================================================================== *)

Section Splitting.

Variable sep : ascii.

Lemma split_no_separator (s : string) :
  contains sep s = false -> split sep s = [s].
Proof.
  induction s as [|a s IH]; simpl; intros H; [reflexivity|].
  apply orb_false_iff in H as [Ha Hs].
  rewrite Ha, (IH Hs). reflexivity.
Qed.

Lemma split_app (s t : string) :
  contains sep s = false ->
  split sep (s ++ String sep t) = s :: split sep t.
Proof.
  induction s as [|a s IH]; simpl; intros H.
  - rewrite Ascii.eqb_refl. reflexivity.
  - apply orb_false_iff in H as [Ha Hs].
    rewrite Ha, (IH Hs). reflexivity.
Qed.

Lemma contains_app (s t : string) :
  contains sep (s ++ t) = contains sep s || contains sep t.
Proof.
  induction s as [|a s IH]; simpl; [reflexivity|].
  rewrite IH. apply orb_assoc.
Qed.

Lemma split_three (a b c : string) :
  contains sep a = false -> contains sep b = false -> contains sep c = false ->
  split sep (a ++ String sep (b ++ String sep c)) = [a; b; c].
Proof.
  intros Ha Hb Hc.
  rewrite (split_app a _ Ha), (split_app b _ Hb), (split_no_separator c Hc).
  reflexivity.
Qed.

End Splitting.

(* ================================================================== *)
(** ** DateNormalizer *)
(* ================================================================== *)

Section DateRepair.

Lemma fix_year_below_100 :
  forallb (fun n => String.eqb (fix_year (Z.of_nat n))
                               (str_int (four_digit_year (Z.of_nat n))))
          (seq 0 100) = true.
Proof. vm_compute. reflexivity. Qed.

Lemma fix_year_four_digit (y : Z) :
  (0 <= y)%Z -> fix_year y = str_int (four_digit_year y).
Proof.
  intros Hy.
  destruct (Z.ltb_spec y 100) as [Hlt|Hge].
  - pose proof fix_year_below_100 as H.
    rewrite forallb_forall in H.
    specialize (H (Z.to_nat y)).
    rewrite Z2Nat.id in H by exact Hy.
    apply String.eqb_eq, H, in_seq. lia.
  - unfold fix_year, four_digit_year.
    destruct (Z.ltb_spec y 40); [lia|].
    destruct (Z.ltb_spec y 100); [lia|reflexivity].
Qed.

(** Whatever the branch, a date of three parts is rebuilt from the year
    read by [int]. *)
Lemma fix_event_date_slash (day month year : string) (y : Z) :
  contains "/"%char day = false ->
  contains "/"%char month = false ->
  contains "/"%char year = false ->
  int_of_str year = Return y ->
  fix_event_date (day ++ "/" ++ month ++ "/" ++ year)
  = Return (fix_year y ++ "-" ++ month ++ "-" ++ day).
Proof.
  intros Hd Hm Hy Hint.
  unfold fix_event_date, fix_event_date_body.
  change (day ++ "/" ++ month ++ "/" ++ year)
    with (day ++ String "/"%char (month ++ String "/"%char year)).
  rewrite contains_app. simpl contains at 2.
  rewrite orb_true_r.
  rewrite (split_three "/"%char day month year Hd Hm Hy).
  cbn [index nth_error bind unpack3].
  unfold finish.
  destruct (String.length year =? 4)%nat; rewrite Hint; reflexivity.
Qed.

Lemma fix_event_date_dash (year month day : string) (y : Z) :
  contains "/"%char (year ++ "-" ++ month ++ "-" ++ day) = false ->
  contains "-"%char year = false ->
  contains "-"%char month = false ->
  contains "-"%char day = false ->
  String.length year <> 4%nat ->
  int_of_str year = Return y ->
  fix_event_date (year ++ "-" ++ month ++ "-" ++ day)
  = Return (fix_year y ++ "-" ++ month ++ "-" ++ day).
Proof.
  intros Hs Hy Hm Hd Hlen Hint.
  unfold fix_event_date, fix_event_date_body.
  rewrite Hs.
  change (year ++ "-" ++ month ++ "-" ++ day)
    with (year ++ String "-"%char (month ++ String "-"%char day)).
  rewrite contains_app. simpl contains at 2.
  rewrite orb_true_r.
  rewrite (split_three "-"%char year month day Hy Hm Hd).
  cbn [index nth_error bind unpack3].
  apply Nat.eqb_neq in Hlen. rewrite Hlen.
  unfold finish. rewrite Hint. reflexivity.
Qed.

Lemma fix_event_date_handles (date : string) :
  match fix_event_date_body date with
  | Return s => fix_event_date date = Return s
  | Raise _ => fix_event_date date = Return "InvalidDate"
  end.
Proof.
  unfold fix_event_date.
  destruct (fix_event_date_body date); reflexivity.
Qed.

(** C5. [fix_event_date] on the four sample dates; a date [d/m/y], or a
    date [y-m-d] whose first part has not four characters, whose year
    [int] reads as [y >= 0] becomes [Y-m-d] with [Y = 2000 + y] for
    [y < 40], [1900 + y] for [40 <= y < 100] and [y] otherwise; the
    function returns for every input, and returns ["InvalidDate"]
    whenever its parsing block raises. *)
Theorem fix_event_date_spec :
  fix_event_date "15/06/23" = Return "2023-06-15" /\
  fix_event_date "15/06/99" = Return "1999-06-15" /\
  fix_event_date "2020-06-15" = Return "2020-06-15" /\
  fix_event_date "not-a-date" = Return "InvalidDate" /\
  (forall (day month year : string) (y : Z),
      contains "/"%char day = false ->
      contains "/"%char month = false ->
      contains "/"%char year = false ->
      int_of_str year = Return y ->
      (0 <= y)%Z ->
      fix_event_date (day ++ "/" ++ month ++ "/" ++ year)
      = Return (str_int (if (y <? 40)%Z then 2000 + y
                         else if (y <? 100)%Z then 1900 + y
                         else y)
                ++ "-" ++ month ++ "-" ++ day)) /\
  (forall (year month day : string) (y : Z),
      contains "/"%char (year ++ "-" ++ month ++ "-" ++ day) = false ->
      contains "-"%char year = false ->
      contains "-"%char month = false ->
      contains "-"%char day = false ->
      String.length year <> 4%nat ->
      int_of_str year = Return y ->
      (0 <= y)%Z ->
      fix_event_date (year ++ "-" ++ month ++ "-" ++ day)
      = Return (str_int (if (y <? 40)%Z then 2000 + y
                         else if (y <? 100)%Z then 1900 + y
                         else y)
                ++ "-" ++ month ++ "-" ++ day)) /\
  (forall date : string, exists s, fix_event_date date = Return s) /\
  (forall (date : string) (e : exn),
      fix_event_date_body date = Raise e ->
      fix_event_date date = Return "InvalidDate").
Proof.
  repeat split; try reflexivity.
  - intros day month year y Hd Hm Hy Hint Hpos.
    rewrite (fix_event_date_slash day month year y Hd Hm Hy Hint).
    rewrite (fix_year_four_digit y Hpos). reflexivity.
  - intros year month day y Hs Hy Hm Hd Hlen Hint Hpos.
    rewrite (fix_event_date_dash year month day y Hs Hy Hm Hd Hlen Hint).
    rewrite (fix_year_four_digit y Hpos). reflexivity.
  - intros date. pose proof (fix_event_date_handles date) as H.
    destruct (fix_event_date_body date); eauto.
  - intros date e He. pose proof (fix_event_date_handles date) as H.
    rewrite He in H. exact H.
Qed.

(** The general rules of C5 at the dates ["7/11/05"] and ["68-11-7"],
    and the sentinel at a date of two parts. *)
Lemma fix_event_date_spec_witness :
  fix_event_date "7/11/05" = Return "2005-11-7" /\
  fix_event_date "68-11-7" = Return "1968-11-7" /\
  fix_event_date "7/11" = Return "InvalidDate".
Proof.
  destruct fix_event_date_spec as (_ & _ & _ & _ & Hslash & Hdash & _ & Hexc).
  split; [|split].
  - apply (Hslash "7" "11" "05" 5%Z); try reflexivity.
    vm_compute. discriminate.
  - apply (Hdash "68" "11" "7" 68%Z); try reflexivity.
    + discriminate.
    + vm_compute. discriminate.
  - apply (Hexc "7/11" IndexError). reflexivity.
Defined.

End DateRepair.

(* ================================================================== *)
(** ** Rows and frames *)
(* ================================================================== *)

Section Frames.

Lemma mem_In (c : string) (cs : list string) : mem c cs = true <-> In c cs.
Proof.
  unfold mem. rewrite existsb_exists. split.
  - intros (x & Hx & He). apply String.eqb_eq in He. now subst.
  - intros H. exists c. split; [exact H | apply String.eqb_refl].
Qed.

Lemma mem_false (c : string) (cs : list string) :
  mem c cs = false <-> ~ In c cs.
Proof.
  rewrite <- mem_In. destruct (mem c cs); split; intros H; congruence.
Qed.

Lemma add_label_present (cs : list string) (c : string) :
  mem c cs = true -> add_label cs c = cs.
Proof. unfold add_label. now intros ->. Qed.

Lemma lookup_set_same (r : Row) (c : string) (v : Cell) :
  lookup (set_cell r c v) c = Some v.
Proof.
  induction r as [|[k w] r IH]; simpl.
  - now rewrite String.eqb_refl.
  - destruct (String.eqb k c) eqn:E; simpl; rewrite E; auto.
Qed.

Lemma lookup_set_other (r : Row) (c d : string) (v : Cell) :
  c <> d -> lookup (set_cell r c v) d = lookup r d.
Proof.
  intros Hcd. induction r as [|[k w] r IH]; simpl.
  - apply String.eqb_neq in Hcd. now rewrite Hcd.
  - destruct (String.eqb k c) eqn:E; simpl.
    + apply String.eqb_eq in E. subst k.
      apply String.eqb_neq in Hcd. now rewrite Hcd.
    + destruct (String.eqb k d); auto.
Qed.

Lemma cell_set_same (r : Row) (c : string) (v : Cell) :
  cell (set_cell r c v) c = v.
Proof. unfold cell. now rewrite lookup_set_same. Qed.

Lemma cell_set_other (r : Row) (c d : string) (v : Cell) :
  c <> d -> cell (set_cell r c v) d = cell r d.
Proof. intros H. unfold cell. now rewrite lookup_set_other. Qed.

Lemma lookup_drop_labels (cs : list string) (r : Row) (d : string) :
  mem d cs = false -> lookup (drop_labels cs r) d = lookup r d.
Proof.
  intros Hd. induction r as [|[k w] r IH]; simpl; [reflexivity|].
  destruct (mem k cs) eqn:Hk; simpl.
  - destruct (String.eqb k d) eqn:E; [|exact IH].
    apply String.eqb_eq in E. congruence.
  - now rewrite IH.
Qed.

Lemma cell_drop_labels (cs : list string) (r : Row) (d : string) :
  mem d cs = false -> cell (drop_labels cs r) d = cell r d.
Proof. intros H. unfold cell. now rewrite lookup_drop_labels. Qed.

Lemma filter_map_swap {A B : Type} (f : A -> B) (p : B -> bool) (l : list A) :
  filter p (map f l) = map f (filter (fun x => p (f x)) l).
Proof.
  induction l as [|x l IH]; simpl; [reflexivity|].
  destruct (p (f x)); simpl; now rewrite IH.
Qed.


Lemma map_const_length {A B C : Type} (k : C) (l : list A) (l' : list B) :
  List.length l = List.length l' ->
  map (fun _ => k) l = map (fun _ => k) l'.
Proof.
  revert l'. induction l as [|x l IH]; intros [|y l'] H; simpl in *;
    try discriminate; [reflexivity|].
  f_equal. apply IH. lia.
Qed.

Lemma mapM_length {A B : Type} (f : A -> outcome B) (xs : list A)
      (ys : list B) :
  mapM f xs = Return ys -> List.length ys = List.length xs.
Proof.
  revert ys. induction xs as [|x xs IH]; simpl; intros ys H.
  - injection H as <-. reflexivity.
  - destruct (f x); simpl in H; [|discriminate].
    destruct (mapM f xs) as [zs|]; simpl in H; [|discriminate].
    injection H as <-. simpl. now rewrite (IH zs).
Qed.

Lemma mapM_total {A B : Type} (f : A -> outcome B) (xs : list A) :
  (forall x, In x xs -> exists y, f x = Return y) ->
  exists ys, mapM f xs = Return ys.
Proof.
  induction xs as [|x xs IH]; simpl; intros H; [eauto|].
  destruct (H x) as [y Hy]; [now left|].
  destruct IH as [ys Hys]; [intros; apply H; now right|].
  rewrite Hy, Hys. simpl. eauto.
Qed.

(** Reading a column after [df[c] = values]. *)
Lemma values_assign_values_same (df : DataFrame) (c : string) (vs : list Cell) :
  List.length vs = len df ->
  values_of (assign_values df c vs) c = vs.
Proof.
  unfold values_of, assign_values, len. simpl.
  generalize (rows df) as rs. intros rs. revert vs.
  induction rs as [|r rs IH]; intros [|v vs] H; simpl in *;
    try discriminate; [reflexivity|].
  rewrite cell_set_same, IH by lia. reflexivity.
Qed.

Lemma values_assign_values_other (df : DataFrame) (c d : string)
      (vs : list Cell) :
  c <> d -> List.length vs = len df ->
  values_of (assign_values df c vs) d = values_of df d.
Proof.
  intros Hcd. unfold values_of, assign_values, len. simpl.
  generalize (rows df) as rs. intros rs. revert vs.
  induction rs as [|r rs IH]; intros [|v vs] H; simpl in *;
    try discriminate; [reflexivity|].
  rewrite cell_set_other, IH by (auto; lia). reflexivity.
Qed.

Lemma len_assign_values (df : DataFrame) (c : string) (vs : list Cell) :
  List.length vs = len df -> len (assign_values df c vs) = len df.
Proof.
  unfold len, assign_values. simpl. intros H.
  rewrite length_map, length_combine. lia.
Qed.

Lemma values_assign_same (df : DataFrame) (c : string) (f : Row -> Cell) :
  values_of (assign df c f) c = map f (rows df).
Proof.
  unfold values_of, assign. simpl. rewrite map_map.
  apply map_ext. intros r. apply cell_set_same.
Qed.

Lemma values_assign_other (df : DataFrame) (c d : string) (f : Row -> Cell) :
  c <> d -> values_of (assign df c f) d = values_of df d.
Proof.
  intros H. unfold values_of, assign. simpl. rewrite map_map.
  apply map_ext. intros r. now apply cell_set_other.
Qed.

Lemma has_column_add_label (cs : list string) (c d : string) :
  mem d (add_label cs c) = mem d cs || String.eqb d c.
Proof.
  unfold add_label. destruct (mem c cs) eqn:Hc.
  - destruct (String.eqb d c) eqn:E; [|now rewrite orb_false_r].
    apply String.eqb_eq in E. subst d. now rewrite Hc.
  - unfold mem. rewrite existsb_app. simpl. now rewrite orb_false_r.
Qed.

Lemma draw_ids_length (g : Rng) (n : nat) :
  List.length (fst (draw_ids g n)) = n.
Proof. unfold draw_ids. simpl. now rewrite length_map, length_seq. Qed.

End Frames.

Create Rewrite HintDb frame.
#[local] Hint Rewrite cell_set_same values_assign_same : frame.

(* ================================================================== *)
(** ** NullNormalizer *)
(* ================================================================== *)

Section NullNormalizer.

Lemma normalize_cell_idempotent (x : Cell) :
  normalize_cell (normalize_cell x) = normalize_cell x.
Proof.
  unfold normalize_cell.
  destruct (isna x || eq_str x "") eqn:E; [reflexivity|].
  now rewrite E.
Qed.

Lemma normalize_cell_canonical (x : Cell) :
  normalize_cell x <> CStr "" /\
  (isna (normalize_cell x) = true -> normalize_cell x = CNA).
Proof.
  unfold normalize_cell.
  destruct (isna x || eq_str x "") eqn:E.
  - split; [discriminate | reflexivity].
  - apply orb_false_iff in E as [Hna Hempty]. split.
    + intros ->. discriminate.
    + congruence.
Qed.


Lemma map_cells_compose (df : DataFrame) (f g : Cell -> Cell) :
  map_cells (map_cells df f) g = map_cells df (fun x => g (f x)).
Proof.
  unfold map_cells. simpl. f_equal.
  rewrite map_map. apply map_ext. intros r.
  rewrite map_map. reflexivity.
Qed.

Lemma map_cells_ext (df : DataFrame) (f g : Cell -> Cell) :
  (forall x, f x = g x) -> map_cells df f = map_cells df g.
Proof.
  intros H. unfold map_cells. f_equal.
  apply map_ext. intros r. apply map_ext. intros [k v]. simpl. now rewrite H.
Qed.

Lemma all_cells_map_cells (df : DataFrame) (f : Cell -> Cell) :
  all_cells (map_cells df f) = map f (all_cells df).
Proof.
  unfold all_cells, map_cells. simpl.
  induction (rows df) as [|r rs IH]; simpl; [reflexivity|].
  rewrite map_app, IH, !map_map. reflexivity.
Qed.

(** C9. [normalize_empty_values] returns on every input, a table or the
    [None] of a failed stage, and applied to its own result it returns
    that result again. *)
Theorem normalize_empty_values_idempotent :
  forall T : option DataFrame,
  exists T' : option DataFrame,
    normalize_empty_values T = Return T' /\
    normalize_empty_values T' = Return T'.
Proof.
  intros [d|].
  - exists (Some (map_cells d normalize_cell)). split; [reflexivity|].
    unfold normalize_empty_values, try_except.
    rewrite map_cells_compose.
    rewrite (map_cells_ext d _ normalize_cell normalize_cell_idempotent).
    reflexivity.
  - exists None. split; reflexivity.
Qed.




End NullNormalizer.

(* ================================================================== *)
(** ** IdGenerator *)
(* ================================================================== *)

Section IdGenerator.



End IdGenerator.

(* ================================================================== *)
(** ** TaxonomyMelter: error handling *)
(* ================================================================== *)

Section TaxonomyErrors.

Lemma has_column_assign_values (df : DataFrame) (c d : string)
      (vs : list Cell) :
  has_column (assign_values df c vs) d = has_column df d || String.eqb d c.
Proof. unfold has_column, assign_values. simpl. apply has_column_add_label. Qed.

Lemma has_column_assign (df : DataFrame) (c d : string) (f : Row -> Cell) :
  has_column (assign df c f) d = has_column df d || String.eqb d c.
Proof. unfold has_column, assign. simpl. apply has_column_add_label. Qed.

Lemma has_column_select (df : DataFrame) (p : Row -> bool) (d : string) :
  has_column (select df p) d = has_column df d.
Proof. reflexivity. Qed.

(** C6, as the code has it. For a table with [taxonRank] and without
    [acceptedNameUsage] the stage lets no exception out and returns
    [None]; when the taxonomy list loads and [taxonRank] is a text column
    the error met inside is the [ValueError] raised for the absent
    column. *)
Theorem taxonomy_missing_accepted_name
    (file : JsonFile (list string)) (df : DataFrame) :
  has_column df "taxonRank" = true ->
  has_column df "acceptedNameUsage" = false ->
  taxonomy_attribution_preparation file df = Return None /\
  (forall taxonomy_list,
      file = Loaded taxonomy_list ->
      float_column (values_of df "taxonRank") = false ->
      taxonomy_attribution_preparation_body file df = Raise ValueError).
Proof.
  intros Hrank Hname.
  assert (Hbody : forall l, file = Loaded l ->
            taxonomy_attribution_preparation_body file df
            = if float_column (values_of df "taxonRank")
              then Raise AttributeError else Raise ValueError).
  { intros l ->. unfold taxonomy_attribution_preparation_body, column.
    rewrite Hrank. cbn [bind]. fold (values_of df "taxonRank").
    destruct (float_column (values_of df "taxonRank")); cbn [bind];
      [reflexivity|].
    rewrite has_column_assign_values, Hname. reflexivity. }
  split.
  - unfold taxonomy_attribution_preparation.
    destruct file as [| |l]; try reflexivity.
    rewrite (Hbody l eq_refl).
    destruct (float_column _); reflexivity.
  - intros l Hl Hf. rewrite (Hbody l Hl), Hf. reflexivity.
Qed.

Lemma taxonomy_missing_accepted_name_witness :
  taxonomy_attribution_preparation (Loaded ranks) ranked_without_name
  = Return None.
Proof.
  apply (taxonomy_missing_accepted_name (Loaded ranks) ranked_without_name);
    reflexivity.
Defined.

(** C6 as worded fails: on such a table the stage returns, it does not
    raise. *)
Lemma taxonomy_error_not_propagated :
  has_column ranked_without_name "taxonRank" = true /\
  has_column ranked_without_name "acceptedNameUsage" = false /\
  taxonomy_attribution_preparation (Loaded ranks) ranked_without_name
  = Return None /\
  (forall e, taxonomy_attribution_preparation (Loaded ranks)
               ranked_without_name <> Raise e).
Proof. run_stage. Qed.

End TaxonomyErrors.

(* ================================================================== *)
(** ** MeasurementMelter: error handling *)
(* ================================================================== *)

Section MeasurementErrors.

(** The three clauses of [measurement_attribute_preparation] catch every
    exception and return the frame bound to [df]. *)
Lemma measurement_handlers_catch (local_df : DataFrame) (g : Rng)
      (r : outcome DataFrame) :
  exists out,
    try_except (out <- r ;; Return (out, g))
      [(ClsFileNotFoundError, fun _ => Return (local_df, g));
       (ClsJSONDecodeError, fun _ => Return (local_df, g));
       (ClsException, fun _ => Return (local_df, g))]
    = Return (out, g) /\
    (forall e, r = Raise e -> out = local_df).
Proof.
  destruct r as [out|e].
  - exists out. split; [reflexivity | discriminate].
  - exists local_df. split; [destruct e; reflexivity | reflexivity].
Qed.




(** Outside the reshape, the handlers return the frame bound to [df] at
    the time of the error: when a [measurementValue] column exists, no
    column is a trait and there is no [measurementType], the label
    lookup fails after identifiers were added. *)
Remark measurement_fallback_returns_rebound_frame :
  exists out g',
    measurement_attribute_preparation (Loaded traits) measured rng0
    = Return (out, g') /\
    columns out = ["site"; "measurementValue"; "observationId"] /\
    snd (measurement_attribute_preparation_body (Loaded traits) measured rng0)
    = Raise KeyError.
Proof. do 2 eexists. vm_compute. repeat split; reflexivity. Qed.

End MeasurementErrors.

(* ================================================================== *)
(** ** ValueCleaner *)
(* ================================================================== *)

Section ValueCleaner.

Lemma Forall2_map_right {A B : Type} (R : A -> B -> Prop) (f : A -> B)
      (l : list A) :
  (forall x, In x l -> R x (f x)) -> Forall2 R l (map f l).
Proof.
  induction l as [|x l IH]; simpl; intros H; constructor.
  - apply H. now left.
  - apply IH. intros y Hy. apply H. now right.
Qed.

Lemma isna_num (x : pyfloat) : isna (CNum x) = is_nan x.
Proof. destruct x; reflexivity. Qed.

Lemma is_invalid_tokens (c : Cell) :
  is_invalid c = true <->
  isna c = true \/
  exists s, In s ["NaN"; "NAN"; "none"; "empty"; "Null"; ""] /\ c = CStr s.
Proof.
  unfold is_invalid. rewrite orb_true_iff, existsb_exists.
  split; (intros [H|H]; [now left | right]).
  - destruct H as (s & Hs & He). exists s. split; [exact Hs|].
    destruct c; try discriminate. simpl in He.
    apply String.eqb_eq in He. now subst.
  - destruct H as (s & Hs & ->). exists s. split; [exact Hs|].
    simpl. apply String.eqb_refl.
Qed.

Lemma is_invalid_false_notna (c : Cell) :
  is_invalid c = false -> isna c = false.
Proof. unfold is_invalid. intros H. now apply orb_false_iff in H as [-> _]. Qed.

(** The three helper assignments of the keep-strings branch on one row,
    whatever the parser reads. *)
Lemma keep_strings_row (read : string -> pyfloat) (r : Row) :
  let r1 := set_cell r "measurementValue"
              (replace_invalid (cell r "measurementValue")) in
  let r2 := set_cell r1 "numericValue"
              (CNum (to_numeric_with read (cell r1 "measurementValue"))) in
  let r3 := set_cell r2 "measurementValue_cleaned"
              (if notna (cell r2 "numericValue")
               then cell r2 "numericValue"
               else cell r2 "measurementValue") in
  cell r3 "measurementValue_cleaned"
  = (if is_invalid (cell r "measurementValue") then CNA
     else coerce_or_keep_with read (cell r "measurementValue")) /\
  (forall c, c <> "measurementValue" -> c <> "numericValue" ->
             c <> "measurementValue_cleaned" -> cell r3 c = cell r c).
Proof.
  intros r1 r2 r3. subst r1 r2 r3. split.
  - autorewrite with frame.
    rewrite (cell_set_other _ "numericValue" "measurementValue")
      by discriminate.
    autorewrite with frame.
    unfold replace_invalid, coerce_or_keep_with, notna.
    destruct (is_invalid (cell r "measurementValue")) eqn:E;
      [reflexivity|].
    rewrite isna_num.
    destruct (is_nan (to_numeric_with read (cell r "measurementValue")));
      reflexivity.
  - intros c H1 H2 H3.
    rewrite !cell_set_other by congruence. reflexivity.
Qed.

(** The keep-strings branch, row by row. *)
Lemma keep_strings_rows (read : string -> pyfloat) (df : DataFrame) :
  has_column df "measurementValue" = true ->
  exists out : DataFrame,
    clean_and_infer_measurement_values_with read df true = Return out /\
    Forall2
      (fun r r' =>
         cell r' "measurementValue"
         = coerce_or_keep_with read (cell r "measurementValue") /\
         (forall c, c <> "measurementValue" -> c <> "numericValue" ->
                    c <> "measurementValue_cleaned" ->
                    cell r' c = cell r c))
      (filter (fun r => negb (is_invalid (cell r "measurementValue")))
              (rows df))
      (rows out).
Proof.
  intros Hcol.
  unfold clean_and_infer_measurement_values_with,
    clean_and_infer_measurement_values_body_with, column.
  rewrite Hcol. cbn [bind negb].
  unfold drop.
  match goal with
  | |- context [forallb (has_column ?d) ?cs] =>
      assert (Hdrop : forallb (has_column d) cs = true)
  end.
  { cbn [forallb].
    repeat (rewrite ?has_column_assign, ?has_column_select).
    cbn [String.eqb Ascii.eqb Bool.eqb].
    rewrite !orb_true_r. reflexivity. }
  rewrite Hdrop. cbn [try_except].
  eexists. split; [reflexivity|].
  cbn [rows drop_ignore assign select].
  rewrite !map_map, filter_map_swap, map_map.
  match goal with
  | |- Forall2 _ (filter ?p _) (map _ (filter ?q _)) =>
      rewrite (filter_ext q p)
  end.
  - apply Forall2_map_right. intros r Hr.
    apply filter_In in Hr as [_ Hr]. apply negb_true_iff in Hr.
    destruct (keep_strings_row read r) as [Hcl Hother].
    cbv zeta in Hcl, Hother.
    rewrite Hr in Hcl. split.
    + rewrite cell_drop_labels by reflexivity.
      rewrite cell_set_same. exact Hcl.
    + intros c H1 H2 H3.
      rewrite cell_drop_labels.
      * rewrite cell_set_other by congruence. now apply Hother.
      * unfold mem. cbn [existsb].
        apply String.eqb_neq in H2, H3. now rewrite H2, H3.
  - intros r. destruct (keep_strings_row read r) as [Hcl _].
    cbv zeta in Hcl.
    rewrite Hcl. unfold notna.
    destruct (is_invalid (cell r "measurementValue")) eqn:E;
      [reflexivity|].
    unfold coerce_or_keep_with.
    destruct (is_nan (to_numeric_with read (cell r "measurementValue")))
      eqn:En.
    + now rewrite (is_invalid_false_notna _ E).
    + now rewrite isna_num, En.
Qed.


(** C8. With the default policy, on a table that has the column
    [measurementValue], and whatever [pd.to_numeric] reads from a text
    ([read]): the rows removed are exactly those whose value is null or
    one of the placeholder tokens; the rows that stay keep their order
    and their other cells, and each holds the number read from its value
    when one is read, its original value otherwise. *)
Theorem keep_strings_cleaning (read : string -> pyfloat) (df : DataFrame) :
  has_column df "measurementValue" = true ->
  exists out : DataFrame,
    clean_and_infer_measurement_values_with read df true = Return out /\
    Forall2
      (fun r r' =>
         cell r' "measurementValue"
         = coerce_or_keep_with read (cell r "measurementValue") /\
         (forall c, c <> "measurementValue" -> c <> "numericValue" ->
                    c <> "measurementValue_cleaned" ->
                    cell r' c = cell r c))
      (filter (fun r => negb (is_invalid (cell r "measurementValue")))
              (rows df))
      (rows out) /\
    (forall c, is_invalid c = true <->
       isna c = true \/
       exists s, In s ["NaN"; "NAN"; "none"; "empty"; "Null"; ""]
                 /\ c = CStr s).
Proof.
  intros Hcol.
  destruct (keep_strings_rows read df Hcol) as (out & Hrun & Hrows).
  exists out. split; [exact Hrun|]. split; [exact Hrows|].
  apply is_invalid_tokens.
Qed.

Lemma keep_strings_cleaning_witness :
  exists out : DataFrame,
    clean_and_infer_measurement_values measured true = Return out /\
    values_of out "measurementValue"
    = [CNum (FDec false 125 (-1)); CStr "tall"].
Proof.
  destruct (keep_strings_cleaning numeric_literal measured eq_refl)
    as (out & Hrun & _).
  exists out. split; [exact Hrun|].
  vm_compute in Hrun. injection Hrun as <-. reflexivity.
Defined.

End ValueCleaner.

(* ================================================================== *)
(** ** CoordinateNormalizer *)
(* ================================================================== *)

Section Coordinates.

Lemma infer_objects_length (fs : list (option pyfloat)) :
  List.length (infer_objects fs) = List.length fs.
Proof. unfold infer_objects. destruct (existsb _ fs); apply length_map. Qed.

Lemma infer_objects_not_text (fs : list (option pyfloat)) (c : Cell) :
  In c (infer_objects fs) -> forall s, c <> CStr s.
Proof.
  unfold infer_objects. intros H s ->.
  destruct (existsb _ fs); apply in_map_iff in H as (v & Hv & _);
    [destruct v|]; discriminate.
Qed.

(** Once both coordinates went through [coerce_column], none of the
    three tests against the empty string can succeed. *)
Lemma create_point_after_coercion (fs1 fs2 : list (option pyfloat))
      (lat lon : Cell) :
  In lat (infer_objects fs1) -> In lon (infer_objects fs2) ->
  create_point lat lon = CStr (str_cell lat ++ ", " ++ str_cell lon).
Proof.
  intros H1 H2.
  pose proof (infer_objects_not_text fs1 lat H1) as N1.
  pose proof (infer_objects_not_text fs2 lon H2) as N2.
  unfold create_point.
  destruct lat as [| | |s]; [| | |now elim (N1 s)];
    (destruct lon as [| | |t]; [| | |now elim (N2 t)]); reflexivity.
Qed.

Lemma values_negate_depth (df : DataFrame) (c : string) :
  c <> "depth" -> values_of (negate_depth df) c = values_of df c.
Proof.
  intros H. unfold negate_depth.
  destruct (has_column df "depth"); [|reflexivity].
  apply values_assign_other. congruence.
Qed.

Lemma coerce_column_returns (df : DataFrame) (c : string) :
  has_column df c = true ->
  (forall r, In r (rows df) ->
             exists v, coerce_coordinate (cell r c) = Return v) ->
  exists fs,
    mapM coerce_coordinate (values_of df c) = Return fs /\
    List.length (infer_objects fs) = len df /\
    coerce_column df c = Return (assign_values df c (infer_objects fs)).
Proof.
  intros Hc Hparse.
  destruct (mapM_total coerce_coordinate (values_of df c)) as [fs Hfs].
  { intros x Hx. apply in_map_iff in Hx as (r & <- & Hr). now apply Hparse. }
  exists fs. split; [exact Hfs|]. split.
  - rewrite infer_objects_length, (mapM_length _ _ _ Hfs).
    unfold values_of, len. apply length_map.
  - unfold coerce_column, column. rewrite Hc. cbn [bind].
    fold (values_of df c). rewrite Hfs. reflexivity.
Qed.

Lemma mem_filter (p : string -> bool) (cs : list string) (d : string) :
  mem d (filter p cs) = mem d cs && p d.
Proof.
  apply Bool.eq_iff_eq_true.
  rewrite andb_true_iff, !mem_In, filter_In. reflexivity.
Qed.

Lemma has_column_drop_ignore (df : DataFrame) (cs : list string) (d : string) :
  has_column (drop_ignore df cs) d = has_column df d && negb (mem d cs).
Proof. unfold has_column, drop_ignore. cbn [columns]. apply mem_filter. Qed.

Lemma values_drop_ignore (df : DataFrame) (cs : list string) (d : string) :
  mem d cs = false -> values_of (drop_ignore df cs) d = values_of df d.
Proof.
  intros H. unfold values_of, drop_ignore. cbn [rows]. rewrite map_map.
  apply map_ext. intros r. now apply cell_drop_labels.
Qed.



End Coordinates.

Section CoordinateSamples.

Lemma mapM_pure {A B : Type} (f : A -> outcome B) (h : A -> B)
      (xs : list A) :
  (forall x, In x xs -> f x = Return (h x)) ->
  mapM f xs = Return (map h xs).
Proof.
  induction xs as [|x xs IH]; simpl; intros H; [reflexivity|].
  rewrite (H x) by now left. cbn [bind].
  rewrite IH by (intros; apply H; now right). reflexivity.
Qed.

Lemma map_two_columns {A B C D : Type} (F : B -> C -> D) (g : A -> B)
      (h : A -> C) (l l' : list A) :
  map g l = map g l' -> map h l = map h l' ->
  map (fun r => F (g r) (h r)) l = map (fun r => F (g r) (h r)) l'.
Proof.
  revert l'. induction l as [|x l IH]; intros [|y l'] Hg Hh;
    simpl in *; try discriminate; [reflexivity|].
  injection Hg as -> Hg. injection Hh as -> Hh.
  f_equal. now apply IH.
Qed.

(** With a latitude column, or with a row, the points are those of the
    rows. *)
Lemma row_points_rows (d : DataFrame) :
  has_column d "decimalLatitude" = true \/ rows d <> [] ->
  row_points d = mapM (row_point d) (rows d).
Proof.
  unfold row_points. intros [H|H]; destruct (rows d) as [|r rs];
    try reflexivity; [now rewrite H | contradiction].
Qed.

Lemma row_points_length (d : DataFrame) (points : list Cell) :
  row_points d = Return points -> List.length points = len d.
Proof.
  unfold row_points, len. destruct (rows d) as [|r rs] eqn:E.
  - destruct (_ || _); [|discriminate]. intros H. now injection H as <-.
  - intros H. now rewrite (mapM_length _ _ _ H).
Qed.

Lemma coerce_column_inv (df out : DataFrame) (c : string) :
  has_column df c = true ->
  coerce_column df c = Return out ->
  exists fs, out = assign_values df c (infer_objects fs) /\
             List.length (infer_objects fs) = len df.
Proof.
  intros Hc. unfold coerce_column, column. rewrite Hc. cbn [bind].
  destruct (mapM coerce_coordinate (map (fun r => cell r c) (rows df)))
    as [fs|] eqn:E; cbn [bind]; [|discriminate].
  intros H. injection H as <-. exists fs. split; [reflexivity|].
  rewrite infer_objects_length, (mapM_length _ _ _ E).
  unfold len. apply length_map.
Qed.

(** On a table with both coordinate columns, whenever
    [process_coordinates] returns, the point of every row is its two
    coordinates printed with [str]: no row gets the null sentinel or one
    of the [NaN] spellings of [no_lat] and [no_long]. *)
Lemma point_is_always_formatted (df out : DataFrame) :
  has_column df "decimalLatitude" = true ->
  has_column df "decimalLongitude" = true ->
  process_coordinates df = Return out ->
  values_of out "point"
  = map (fun r => CStr (str_cell (cell r "decimalLatitude") ++ ", "
                        ++ str_cell (cell r "decimalLongitude")))
        (rows out).
Proof.
  intros Hlat Hlon. unfold process_coordinates. rewrite Hlat.
  destruct (coerce_column df "decimalLatitude") as [df1|] eqn:E1;
    cbn [bind]; [|discriminate].
  destruct (coerce_column_inv df df1 _ Hlat E1) as (fs1 & -> & Hlen1).
  set (df1 := assign_values df "decimalLatitude" (infer_objects fs1)) in *.
  assert (Hlon1 : has_column df1 "decimalLongitude" = true).
  { unfold df1. now rewrite has_column_assign_values, Hlon. }
  rewrite Hlon1.
  destruct (coerce_column df1 "decimalLongitude") as [d|] eqn:E2;
    cbn [bind]; [|discriminate].
  destruct (coerce_column_inv df1 d _ Hlon1 E2) as (fs2 & -> & Hlen2).
  set (d := assign_values df1 "decimalLongitude" (infer_objects fs2)) in *.
  assert (Hlatd : has_column d "decimalLatitude" = true).
  { unfold d, df1. now rewrite !has_column_assign_values, Hlat. }
  assert (Hlond : has_column d "decimalLongitude" = true).
  { unfold d. rewrite has_column_assign_values. apply orb_true_r. }
  assert (Hvlat : values_of d "decimalLatitude" = infer_objects fs1).
  { unfold d. rewrite values_assign_values_other by (discriminate || auto).
    now apply values_assign_values_same. }
  assert (Hvlon : values_of d "decimalLongitude" = infer_objects fs2).
  { now apply values_assign_values_same. }
  clear E2. clearbody d.
  rewrite (row_points_rows d (or_introl Hlatd)).
  rewrite (mapM_pure _ (fun row =>
             create_point (cell row "decimalLatitude")
                          (cell row "decimalLongitude"))).
  2:{ intros row _. unfold row_point, row_get. now rewrite Hlatd, Hlond. }
  cbn [bind]. intros H. injection H as <-.
  set (points := map (fun row => create_point (cell row "decimalLatitude")
                                              (cell row "decimalLongitude"))
                     (rows d)).
  assert (Hlenp : List.length points = len d).
  { unfold points, len. apply length_map. }
  rewrite values_negate_depth by discriminate.
  rewrite (values_assign_values_same d "point" points Hlenp).
  transitivity
    (map (fun r => CStr (str_cell (cell r "decimalLatitude") ++ ", "
                         ++ str_cell (cell r "decimalLongitude")))
         (rows d)).
  - unfold points. apply map_ext_in. intros row Hrow.
    apply (create_point_after_coercion fs1 fs2).
    + rewrite <- Hvlat. unfold values_of.
      now apply (in_map (fun r => cell r "decimalLatitude")).
    + rewrite <- Hvlon. unfold values_of.
      now apply (in_map (fun r => cell r "decimalLongitude")).
  - symmetry.
    apply (map_two_columns
             (fun a b => CStr (str_cell a ++ ", " ++ str_cell b))
             (fun r => cell r "decimalLatitude")
             (fun r => cell r "decimalLongitude")).
    + change (values_of (negate_depth (assign_values d "point" points))
                        "decimalLatitude" = values_of d "decimalLatitude").
      rewrite values_negate_depth by discriminate.
      apply values_assign_values_other; [discriminate | exact Hlenp].
    + change (values_of (negate_depth (assign_values d "point" points))
                        "decimalLongitude" = values_of d "decimalLongitude").
      rewrite values_negate_depth by discriminate.
      apply values_assign_values_other; [discriminate | exact Hlenp].
Qed.



(** C2 on sample tables. The row [("40,5", "-3,7")] gives the numbers
    40.5 and -3.7 and the point ["40.5, -3.7"]. A missing coordinate is
    printed into the point as [None] (no coordinate of the column could
    be read) or [nan], and a row with neither coordinate gets a string,
    not the null sentinel: the three special cases of [create_point] are
    never taken. *)
Theorem point_of_missing_coordinates :
  (exists out, process_coordinates comma_coordinates = Return out /\
     values_of out "decimalLatitude" = [CNum (FDec false 405 (-1))] /\
     values_of out "decimalLongitude" = [CNum (FDec true 37 (-1))] /\
     str_float (FDec false 405 (-1)) = "40.5" /\
     str_float (FDec true 37 (-1)) = "-3.7" /\
     values_of out "point" = [CStr "40.5, -3.7"]) /\
  (exists out, process_coordinates longitude_only = Return out /\
     values_of out "point" = [CStr "None, -3.7"]) /\
  (exists out, process_coordinates partial_coordinates = Return out /\
     values_of out "point"
     = [CStr "40.5, -3.7"; CStr "nan, -3.7"; CStr "40.5, nan";
        CStr "nan, nan"]) /\
  (exists out, process_coordinates no_coordinates_at_all = Return out /\
     values_of out "point" = [CStr "None, None"]).
Proof.
  repeat split; eexists; split; try (vm_compute; reflexivity);
    repeat split; reflexivity.
Qed.

End CoordinateSamples.

(* ================================================================== *)
(** ** The melts and their row counts *)
(* ================================================================== *)

Section Melting.

Lemma lookup_app (r q : Row) (c : string) :
  lookup (r ++ q)%list c
  = match lookup r c with Some v => Some v | None => lookup q c end.
Proof.
  induction r as [|[k v] r IH]; simpl; [reflexivity|].
  destruct (String.eqb k c); [reflexivity | exact IH].
Qed.

Lemma lookup_project_absent (r : Row) (cs : list string) (c : string) :
  mem c cs = false -> lookup (project r cs) c = None.
Proof.
  unfold project. induction cs as [|k cs IH]; simpl; intros H;
    [reflexivity|].
  apply orb_false_iff in H as [Hk Hcs].
  rewrite String.eqb_sym, Hk. now apply IH.
Qed.




Lemma mapM_Forall2 {A B : Type} (f : A -> outcome B) (xs : list A)
      (ys : list B) :
  mapM f xs = Return ys -> Forall2 (fun x y => f x = Return y) xs ys.
Proof.
  revert ys. induction xs as [|x xs IH]; simpl; intros ys H.
  - injection H as <-. constructor.
  - destruct (f x) as [y|] eqn:Hy; simpl in H; [|discriminate].
    destruct (mapM f xs) as [zs|]; simpl in H; [|discriminate].
    injection H as <-. constructor; [exact Hy | now apply IH].
Qed.


Lemma key_eqb_text (k : Cell) (s : string) :
  key_eqb k (CStr s) = eq_str k s.
Proof. destruct k as [| |x|t]; try reflexivity. destruct x; reflexivity. Qed.

(** A key meets at most one row of a frame whose keys are distinct
    names. *)
Lemma unique_partner (k : Cell) (names : list string) (qs : list Row) :
  NoDup names ->
  map (fun q => cell q "propertyName") qs = map CStr names ->
  (List.length
     (filter (fun q => key_eqb k (cell q "propertyName")) qs) <= 1)%nat.
Proof.
  intros Hnd. revert qs.
  induction Hnd as [|n names Hn Hnd IH]; intros [|q qs] H;
    cbn [map] in H; try discriminate; [simpl; lia|].
  injection H as Hq Hqs. cbn [filter]. rewrite Hq, key_eqb_text.
  specialize (IH qs Hqs).
  destruct (eq_str k n) eqn:E; [|exact IH].
  destruct k as [| |x|t]; try discriminate. cbn [eq_str] in E.
  apply String.eqb_eq in E. subst t.
  assert (Hnone : filter (fun q0 => key_eqb (CStr n) (cell q0 "propertyName"))
                         qs = []).
  { clear IH. revert qs Hqs.
    induction names as [|m names IHn]; intros [|q0 qs] Hqs;
      cbn [map] in Hqs; try discriminate; [reflexivity|].
    injection Hqs as Hq0 Hqs. cbn [filter].
    rewrite Hq0. cbn [key_eqb].
    destruct (String.eqb_spec n m) as [->|_].
    - elim Hn. now left.
    - apply IHn; [|now inversion Hnd|exact Hqs].
      intros C. apply Hn. now right. }
  rewrite Hnone. simpl. lia.
Qed.





Lemma mem_app (c : string) (l l' : list string) :
  mem c (l ++ l') = mem c l || mem c l'.
Proof. unfold mem. apply existsb_app. Qed.



Lemma len_drop_ignore (df : DataFrame) (cs : list string) :
  len (drop_ignore df cs) = len df.
Proof. unfold len, drop_ignore. cbn [rows]. apply length_map. Qed.

Lemma len_rename (df : DataFrame) (m : list (string * string)) :
  len (rename df m) = len df.
Proof. unfold len, rename. cbn [rows]. apply length_map. Qed.

Lemma len_assign (df : DataFrame) (c : string) (f : Row -> Cell) :
  len (assign df c f) = len df.
Proof. unfold len, assign. cbn [rows]. apply length_map. Qed.







End Melting.

Section RowCounts.




End RowCounts.

(* ================================================================== *)
(** ** Further properties: dates *)
(* ================================================================== *)

Section DateProperties.

Lemma fix_event_date_iso (year month day : string) :
  contains "/"%char (year ++ "-" ++ month ++ "-" ++ day) = false ->
  contains "-"%char year = false ->
  String.length year = 4%nat ->
  fix_event_date (year ++ "-" ++ month ++ "-" ++ day)
  = Return (year ++ "-" ++ month ++ "-" ++ day).
Proof.
  intros Hs Hy Hlen.
  unfold fix_event_date, fix_event_date_body. rewrite Hs.
  change (year ++ "-" ++ month ++ "-" ++ day)
    with (year ++ String "-"%char (month ++ String "-"%char day)).
  rewrite contains_app. simpl contains at 2. rewrite orb_true_r.
  rewrite (split_app "-"%char year _ Hy).
  cbn [index nth_error bind]. rewrite Hlen. reflexivity.
Qed.

(** What a second pass needs to know about the years below 10000. *)
Lemma fix_year_below_10000 :
  forallb
    (fun n =>
       let Y := fix_year (Z.of_nat n) in
       negb (contains "/"%char Y) && negb (contains "-"%char Y)
       && ((String.length Y =? 4)%nat
           || match int_of_str Y with
              | Return y' => String.eqb (fix_year y') Y
              | Raise _ => false
              end))
    (seq 0 (Z.to_nat 10000)) = true.
Proof. vm_compute. reflexivity. Qed.

Lemma fix_year_shape (y : Z) :
  (0 <= y < 10000)%Z ->
  contains "/"%char (fix_year y) = false /\
  contains "-"%char (fix_year y) = false /\
  (String.length (fix_year y) = 4%nat \/
   (String.length (fix_year y) <> 4%nat /\
    exists y', int_of_str (fix_year y) = Return y' /\
               fix_year y' = fix_year y)).
Proof.
  intros Hy. pose proof fix_year_below_10000 as H.
  rewrite forallb_forall in H. specialize (H (Z.to_nat y)).
  rewrite Z2Nat.id in H by lia.
  assert (Hin : In (Z.to_nat y) (seq 0 (Z.to_nat 10000))) by (apply in_seq; lia).
  specialize (H Hin). cbv zeta in H.
  apply andb_true_iff in H as [H H3]. apply andb_true_iff in H as [H1 H2].
  apply negb_true_iff in H1, H2. split; [exact H1|]. split; [exact H2|].
  destruct (Nat.eqb_spec (String.length (fix_year y)) 4) as [E|E];
    [now left|right]. split; [exact E|].
  cbn [orb] in H3.
  destruct (int_of_str (fix_year y)) as [y'|]; [|discriminate].
  exists y'. split; [reflexivity|]. now apply String.eqb_eq.
Qed.

(** X1. A date [d/m/y] whose parts hold no separator and whose year is
    read as [0 <= y < 10000] is repaired into a date that a second run of
    [fix_event_date] leaves as it is. *)
Theorem fix_event_date_second_pass (day month year : string) (y : Z) :
  contains "/"%char day = false -> contains "-"%char day = false ->
  contains "/"%char month = false -> contains "-"%char month = false ->
  contains "/"%char year = false ->
  int_of_str year = Return y ->
  (0 <= y < 10000)%Z ->
  exists s,
    fix_event_date (day ++ "/" ++ month ++ "/" ++ year) = Return s /\
    fix_event_date s = Return s.
Proof.
  intros Hd Hd' Hm Hm' Hy Hint Hrange.
  exists (fix_year y ++ "-" ++ month ++ "-" ++ day).
  split; [now apply fix_event_date_slash|].
  destruct (fix_year_shape y Hrange) as (Hs & Hdash & Hshape).
  assert (Hnoslash : contains "/"%char
                       (fix_year y ++ "-" ++ month ++ "-" ++ day) = false).
  { change (fix_year y ++ "-" ++ month ++ "-" ++ day)
      with (fix_year y ++ String "-"%char (month ++ String "-"%char day)).
    rewrite contains_app, Hs. cbn [contains orb Ascii.eqb Bool.eqb].
    rewrite contains_app, Hm. cbn [contains orb Ascii.eqb Bool.eqb].
    exact Hd. }
  destruct Hshape as [Hlen | (Hlen & y' & Hint' & Hsame)].
  - now apply fix_event_date_iso.
  - rewrite <- Hsame at 2.
    now apply fix_event_date_dash.
Qed.

Lemma fix_event_date_second_pass_witness :
  exists s, fix_event_date "15/06/23" = Return s /\
            fix_event_date s = Return s.
Proof.
  apply (fix_event_date_second_pass "15" "06" "23" 23%Z);
    try reflexivity. lia.
Defined.

Lemma year_text_below_10000 :
  forallb
    (fun n =>
       let y := Z.of_nat n in
       (String.length (year_text y) =? 4)%nat
       && (if (y <? 100)%Z || (1000 <=? y)%Z
           then String.eqb (year_text y) (fix_year y) else true))
    (seq 0 (Z.to_nat 10000)) = true.
Proof. vm_compute. reflexivity. Qed.

(** X2. Whenever [normalize_year] reads a year [0 <= y < 10000] from a
    value that is not null, it answers a text of exactly four characters;
    for [y < 100] and for [y >= 1000] this is the very text that
    [fix_event_date] writes for the same year. *)
Theorem normalize_year_four_characters (c : Cell) (x : pyfloat) (y : Z) :
  isna c = false ->
  float_of_cell c = Return x ->
  int_of_float x = Some y ->
  (0 <= y < 10000)%Z ->
  exists s,
    normalize_year c = CStr s /\
    String.length s = 4%nat /\
    ((y < 100 \/ 1000 <= y)%Z -> s = fix_year y).
Proof.
  intros Hna Hx Hy Hrange.
  exists (year_text y). split.
  - unfold normalize_year, year_text. rewrite Hna, Hx, Hy.
    destruct ((0 <=? y)%Z && (y <? 40)%Z); [reflexivity|].
    destruct ((40 <=? y)%Z && (y <? 100)%Z); reflexivity.
  - pose proof year_text_below_10000 as H.
    rewrite forallb_forall in H. specialize (H (Z.to_nat y)).
    rewrite Z2Nat.id in H by lia.
    assert (Hin : In (Z.to_nat y) (seq 0 (Z.to_nat 10000))) by (apply in_seq; lia).
    specialize (H Hin). cbv zeta in H.
    apply andb_true_iff in H as [H1 H2].
    split; [now apply Nat.eqb_eq|].
    intros Hcase.
    replace ((y <? 100)%Z || (1000 <=? y)%Z) with true in H2.
    + now apply String.eqb_eq.
    + symmetry. apply orb_true_iff.
      destruct Hcase; [left; now apply Z.ltb_lt | right; now apply Z.leb_le].
Qed.

Lemma normalize_year_four_characters_witness :
  exists s, normalize_year (CStr "7.0") = CStr s /\ String.length s = 4%nat.
Proof.
  destruct (normalize_year_four_characters (CStr "7.0") (FDec false 7 0) 7%Z)
    as (s & Hs & Hlen & _); try reflexivity; [lia|].
  exists s. split; assumption.
Defined.

End DateProperties.

(* ================================================================== *)
(** ** Further properties: the [date] column *)
(* ================================================================== *)

Section DateColumnProperties.

Lemma Forall2_compose {A B C : Type} (R : A -> B -> Prop) (S : B -> C -> Prop)
      (l : list A) (l' : list B) (l'' : list C) :
  Forall2 R l l' -> Forall2 S l' l'' ->
  Forall2 (fun a c => exists b, R a b /\ S b c) l l''.
Proof.
  intros H. revert l''. induction H as [|a b l l' Hab _ IH]; intros l'' H';
    inversion H'; subst; constructor; eauto.
Qed.

Lemma Forall2_weaken {A B : Type} (R S : A -> B -> Prop) (l : list A)
      (l' : list B) :
  (forall a b, In a l -> R a b -> S a b) -> Forall2 R l l' -> Forall2 S l l'.
Proof.
  intros H F. induction F as [|a b l l' Hab _ IH]; constructor.
  - apply H; [now left | exact Hab].
  - apply IH. intros a' b' Ha'. apply H. now right.
Qed.

Lemma Forall2_map_left_in {A B : Type} (f : A -> B) (l : list A) :
  Forall2 (fun a b => b = f a) l (map f l).
Proof. induction l; simpl; constructor; auto. Qed.

(** The rows after [df[c] = values]. *)
Lemma assign_values_rows (df : DataFrame) (c : string) (vs : list Cell)
      (P : Row -> Cell -> Prop) :
  Forall2 P (rows df) vs ->
  Forall2 (fun r r' => P r (cell r' c) /\
                       forall d, c <> d -> cell r' d = cell r d)
          (rows df) (rows (assign_values df c vs)).
Proof.
  unfold assign_values. cbn [rows]. intros H.
  induction H as [|r v rs vs Hrv _ IH]; cbn [combine map]; constructor.
  - cbn [fst snd]. rewrite cell_set_same. split; [exact Hrv|].
    intros d Hd. now apply cell_set_other.
  - exact IH.
Qed.

Lemma assign_rows (df : DataFrame) (c : string) (f : Row -> Cell) :
  Forall2 (fun r r' => cell r' c = f r /\
                       forall d, c <> d -> cell r' d = cell r d)
          (rows df) (rows (assign df c f)).
Proof.
  unfold assign. cbn [rows]. apply Forall2_map_right. intros r _.
  rewrite cell_set_same. split; [reflexivity|].
  intros d Hd. now apply cell_set_other.
Qed.

Lemma drop_ignore_rows (df : DataFrame) (cs : list string) :
  Forall2 (fun r r' => forall d, mem d cs = false -> cell r' d = cell r d)
          (rows df) (rows (drop_ignore df cs)).
Proof.
  unfold drop_ignore. cbn [rows]. apply Forall2_map_right. intros r _ d Hd.
  now apply cell_drop_labels.
Qed.

Lemma set_cell_twice (r : Row) (c : string) (a b : Cell) :
  set_cell (set_cell r c a) c b = set_cell r c b.
Proof.
  induction r as [|[k w] r IH]; simpl.
  - now rewrite String.eqb_refl.
  - destruct (String.eqb k c) eqn:E; simpl; rewrite E; [reflexivity|].
    now rewrite IH.
Qed.

Lemma add_label_twice (cs : list string) (c : string) :
  add_label (add_label cs c) c = add_label cs c.
Proof.
  apply add_label_present. rewrite has_column_add_label.
  rewrite String.eqb_refl. apply orb_true_r.
Qed.

Lemma assign_values_twice (df : DataFrame) (c : string) (us vs : list Cell) :
  List.length us = len df ->
  assign_values (assign_values df c us) c vs = assign_values df c vs.
Proof.
  unfold assign_values, len. cbn [columns rows]. intros H.
  rewrite add_label_twice. f_equal.
  revert us vs H. induction (rows df) as [|r rs IH]; intros us vs H.
  - reflexivity.
  - destruct us as [|u us]; [discriminate|].
    destruct vs as [|v vs]; [reflexivity|].
    cbn [combine map fst snd]. rewrite set_cell_twice. f_equal.
    apply IH. simpl in H. lia.
Qed.

Lemma mapM_map_rows {A : Type} (f : Cell -> outcome A) (b : Row -> Cell)
      (rs : list Row) :
  (forall r, In r rs -> exists v, f (b r) = Return v) ->
  exists vs, mapM f (map b rs) = Return vs /\
             Forall2 (fun r v => f (b r) = Return v) rs vs.
Proof.
  induction rs as [|r rs IH]; intros H.
  - exists []. split; [reflexivity | constructor].
  - destruct (H r) as [v Hv]; [now left|].
    destruct IH as (vs & Hvs & F); [intros; apply H; now right|].
    exists (v :: vs). split; [|now constructor].
    cbn [map mapM]. rewrite Hv. cbn [bind]. rewrite Hvs. reflexivity.
Qed.

(** One turn of the loop over [month] and [day]. *)
Lemma fill_component_returns (df : DataFrame) (col : string) :
  (forall r, In r (rows df) ->
             exists v, two_digits (component df col r) = Return v) ->
  exists out,
    fill_component df col = Return out /\
    columns out = add_label (columns df) col /\
    Forall2 (fun r r' =>
               two_digits (component df col r) = Return (cell r' col) /\
               forall d, col <> d -> cell r' d = cell r d)
            (rows df) (rows out).
Proof.
  intros H. unfold fill_component.
  assert (Hbase : (if has_column df col
                   then map (fun r => cell r col) (rows df)
                   else map (fun _ => CNum (FDec false 1 0)) (rows df))
                  = map (component df col) (rows df)).
  { unfold component. destruct (has_column df col); reflexivity. }
  rewrite Hbase.
  destruct (mapM_map_rows two_digits (component df col) (rows df) H)
    as (vs & Hvs & F).
  rewrite Hvs. cbn [bind].
  rewrite assign_values_twice by (unfold len; apply length_map).
  eexists. split; [reflexivity|]. split; [reflexivity|].
  apply (assign_values_rows df col vs
           (fun r v => two_digits (component df col r) = Return v) F).
Qed.

Lemma Forall2_in_right {A B : Type} (R : A -> B -> Prop) (l : list A)
      (l' : list B) (b : B) :
  Forall2 R l l' -> In b l' -> exists a, In a l /\ R a b.
Proof.
  intros F. induction F as [|a0 b0 l l' H _ IH]; intros Hin; [contradiction|].
  destruct Hin as [<-|Hin].
  - exists a0. split; [now left | exact H].
  - destruct (IH Hin) as (a & Ha & Hab). exists a. split; [now right | exact Hab].
Qed.

Lemma has_column_columns (df df' : DataFrame) (c : string) :
  columns df' = columns df -> has_column df' c = has_column df c.
Proof. unfold has_column. now intros ->. Qed.

Lemma create_date_column_components (df : DataFrame) :
  has_column df "eventDate" = false ->
  (forall r, In r (rows df) ->
     (exists v, two_digits (component df "month" r) = Return v) /\
     (exists v, two_digits (component df "day" r) = Return v)) ->
  exists out,
    create_date_column df = Return out /\
    (forall c, has_column out c
               = (has_column df c || String.eqb c "date")
                 && negb (mem c ["year"; "month"; "day"])) /\
    Forall2
      (fun r r' =>
         (exists mm dd,
             two_digits (component df "month" r) = Return mm /\
             two_digits (component df "day" r) = Return dd /\
             cell r' "date"
             = text_add (text_add (text_add (CStr "") (year_of df r))
                                  (text_add (CStr "-") mm))
                        (text_add (CStr "-") dd)) /\
         (forall d, mem d ["year"; "month"; "day"; "date"] = false ->
                    cell r' d = cell r d))
      (rows df) (rows out).
Proof.
  intros Hev Hparse.
  destruct (fill_component_returns df "month") as (df1 & E1 & C1 & F1).
  { intros r Hr. now apply Hparse. }
  assert (Hday1 : forall r1, In r1 (rows df1) ->
            exists r, In r (rows df) /\
                      component df1 "day" r1 = component df "day" r).
  { intros r1 Hr1.
    destruct (Forall2_in_right _ _ _ _ F1 Hr1) as (r & Hr & _ & Hsame).
    exists r. split; [exact Hr|]. unfold component.
    unfold has_column at 1. rewrite C1, has_column_add_label.
    cbn [String.eqb Ascii.eqb Bool.eqb]. rewrite orb_false_r.
    fold (has_column df "day"). rewrite Hsame by discriminate. reflexivity. }
  destruct (fill_component_returns df1 "day") as (df2 & E2 & C2 & F2).
  { intros r1 Hr1. destruct (Hday1 r1 Hr1) as (r & Hr & ->).
    now apply Hparse. }
  set (yr := fun r2 : Row => if has_column df2 "year"
                             then normalize_year (cell r2 "year") else CNone).
  assert (Hys : (if has_column df2 "year"
                 then map (fun r => normalize_year (cell r "year")) (rows df2)
                 else map (fun _ => CNone) (rows df2)) = map yr (rows df2)).
  { unfold yr. destruct (has_column df2 "year"); reflexivity. }
  pose proof (assign_values_rows df2 "year" (map yr (rows df2))
                (fun r v => v = yr r) (Forall2_map_left_in yr (rows df2)))
    as F3.
  set (df3 := assign_values df2 "year" (map yr (rows df2))) in *.
  set (df4 := assign_scalar df3 "date" (CStr "")).
  set (df5 := assign df4 "date"
                (fun r => text_add (cell r "date") (cell r "year"))).
  set (df6 := assign df5 "date"
                (fun r => text_add (cell r "date")
                            (text_add (CStr "-") (cell r "month")))).
  set (df7 := assign df6 "date"
                (fun r => text_add (cell r "date")
                            (text_add (CStr "-") (cell r "day")))).
  exists (drop_ignore df7 ["year"; "month"; "day"]).
  split; [|split].
  - unfold create_date_column. rewrite Hev.
    unfold replace_missing_month_day_year.
    rewrite E1. cbn [bind]. rewrite E2. cbn [bind]. rewrite Hys.
    reflexivity.
  - intros c. rewrite has_column_drop_ignore.
    unfold df7, df6, df5, df4, assign_scalar. rewrite !has_column_assign.
    unfold df3. rewrite has_column_assign_values.
    unfold has_column at 1. rewrite C2, C1, !has_column_add_label.
    fold (has_column df c).
    change (mem c ["year"; "month"; "day"])
      with (String.eqb c "year"
            || (String.eqb c "month" || (String.eqb c "day" || false))).
    destruct (has_column df c), (String.eqb c "month"), (String.eqb c "day"),
      (String.eqb c "year"), (String.eqb c "date"); reflexivity.
  - pose proof (assign_rows df3 "date" (fun _ => CStr "")) as F4.
    fold (assign_scalar df3 "date" (CStr "")) in F4. fold df4 in F4.
    pose proof (assign_rows df4 "date"
                  (fun r => text_add (cell r "date") (cell r "year"))) as F5.
    fold df5 in F5.
    pose proof (assign_rows df5 "date"
                  (fun r => text_add (cell r "date")
                              (text_add (CStr "-") (cell r "month")))) as F6.
    fold df6 in F6.
    pose proof (assign_rows df6 "date"
                  (fun r => text_add (cell r "date")
                              (text_add (CStr "-") (cell r "day")))) as F7.
    fold df7 in F7.
    pose proof (drop_ignore_rows df7 ["year"; "month"; "day"]) as F8.
    pose proof (Forall2_compose _ _ _ _ _ F1
                 (Forall2_compose _ _ _ _ _ F2
                   (Forall2_compose _ _ _ _ _ F3
                     (Forall2_compose _ _ _ _ _ F4
                       (Forall2_compose _ _ _ _ _ F5
                         (Forall2_compose _ _ _ _ _ F6
                           (Forall2_compose _ _ _ _ _ F7 F8))))))) as F.
    clear F1 F2 F3 F4 F5 F6 F7 F8.
    eapply Forall2_weaken; [|exact F]. clear F.
    intros r r' _ H. cbv beta in H.
    destruct H as (r1 & [M1 S1] & r2 & [D2 S2] & r3 & [Y3 S3] & r4 & [T4 S4]
                   & r5 & [T5 S5] & r6 & [T6 S6] & r7 & [T7 S7] & S8).
    assert (Hcomp : component df1 "day" r1 = component df "day" r).
    { unfold component. unfold has_column at 1.
      rewrite C1, has_column_add_label.
      cbn [String.eqb Ascii.eqb Bool.eqb]. rewrite orb_false_r.
      fold (has_column df "day"). rewrite S1 by discriminate. reflexivity. }
    assert (Hyear : cell r3 "year" = year_of df r).
    { rewrite Y3. unfold yr, year_of. unfold has_column at 1.
      rewrite C2, C1, !has_column_add_label.
      cbn [String.eqb Ascii.eqb Bool.eqb]. rewrite !orb_false_r.
      fold (has_column df "year").
      rewrite S2, S1 by discriminate. reflexivity. }
    split.
    + exists (cell r1 "month"), (cell r2 "day").
      split; [exact M1|]. split; [now rewrite <- Hcomp|].
      rewrite S8 by reflexivity. rewrite T7, T6, T5, T4.
      rewrite (S6 "day"), (S5 "day"), (S4 "day"), (S3 "day") by discriminate.
      rewrite (S5 "month"), (S4 "month"), (S3 "month"), (S2 "month")
        by discriminate.
      rewrite (S4 "year") by discriminate. rewrite Hyear. reflexivity.
    + intros d Hd. unfold mem in Hd. cbn [existsb] in Hd.
      apply orb_false_iff in Hd as [Hy Hd].
      apply orb_false_iff in Hd as [Hm Hd].
      apply orb_false_iff in Hd as [Hdd Hd].
      apply orb_false_iff in Hd as [Hdt _].
      apply String.eqb_neq in Hy, Hm, Hdd, Hdt.
      rewrite S8.
      2:{ unfold mem. cbn [existsb].
          apply String.eqb_neq in Hy, Hm, Hdd. now rewrite Hy, Hm, Hdd. }
      rewrite S7, S6, S5, S4, S3, S2, S1 by congruence. reflexivity.
Qed.


Lemma string_app_assoc (a b c : string) : (a ++ b) ++ c = a ++ (b ++ c).
Proof. induction a as [|x a IH]; simpl; [reflexivity | now rewrite IH]. Qed.

Lemma text_add_date (y mm dd : string) :
  text_add (text_add (text_add (CStr "") (CStr y))
                     (text_add (CStr "-") (CStr mm)))
           (text_add (CStr "-") (CStr dd))
  = CStr (y ++ "-" ++ mm ++ "-" ++ dd).
Proof.
  cbn [text_add]. f_equal.
  change ("" ++ y) with y. rewrite string_app_assoc. reflexivity.
Qed.

Lemma two_digits_text (c v : Cell) :
  two_digits c = Return v -> exists s, v = CStr s.
Proof.
  unfold two_digits. destruct (astype_int _); cbn [bind]; [|discriminate].
  intros H. injection H as <-. eauto.
Qed.

Lemma year_of_cases (df : DataFrame) (r : Row) :
  year_of df r = CNone \/ exists s, year_of df r = CStr s.
Proof.
  unfold year_of, normalize_year.
  destruct (has_column df "year"); [|now left].
  destruct (isna (cell r "year")); [now left|].
  destruct (float_of_cell (cell r "year")) as [x|]; [|now left].
  destruct (int_of_float x) as [y|]; [|now left].
  right. destruct ((0 <=? y)%Z && (y <? 40)%Z); [eauto|].
  destruct ((40 <=? y)%Z && (y <? 100)%Z); eauto.
Qed.

(** X3. Without an [eventDate] column, when every month and day is null or
    convertible to an integer, [create_date_column] returns a table with
    a [date] column and without [year], [month] and [day]; a row whose
    year is readable gets the text year-month-day built from the
    normalised year and the two-digit month and day, and its other cells
    are unchanged. *)
Theorem date_from_components (df : DataFrame) :
  has_column df "eventDate" = false ->
  (forall r, In r (rows df) ->
     (exists v, two_digits (component df "month" r) = Return v) /\
     (exists v, two_digits (component df "day" r) = Return v)) ->
  exists out,
    create_date_column df = Return out /\
    has_column out "date" = true /\
    has_column out "year" = false /\
    has_column out "month" = false /\
    has_column out "day" = false /\
    Forall2
      (fun r r' =>
         (forall y mm dd,
             year_of df r = CStr y ->
             two_digits (component df "month" r) = Return (CStr mm) ->
             two_digits (component df "day" r) = Return (CStr dd) ->
             cell r' "date" = CStr (y ++ "-" ++ mm ++ "-" ++ dd)) /\
         (forall d, mem d ["year"; "month"; "day"; "date"] = false ->
                    cell r' d = cell r d))
      (rows df) (rows out).
Proof.
  intros Hev Hparse.
  destruct (create_date_column_components df Hev Hparse)
    as (out & Hrun & Hcols & F).
  exists out. split; [exact Hrun|].
  repeat (split; [rewrite Hcols; cbn; now rewrite ?orb_true_r, ?andb_false_r|]).
  eapply Forall2_weaken; [|exact F].
  intros r r' _ [(mm & dd & Hm & Hd & Hdate) Hsame]. split; [|exact Hsame].
  intros y mm' dd' Hy Hm' Hd'.
  rewrite Hm in Hm'. injection Hm' as ->.
  rewrite Hd in Hd'. injection Hd' as ->.
  rewrite Hdate, Hy. apply text_add_date.
Qed.

(** X4. In the same mode a row without a usable year (no [year] column,
    a null cell, or a value that [float] or [int] rejects) gets a null
    date, NaN: no text is built around the missing year. *)
Theorem date_without_year (df : DataFrame) :
  has_column df "eventDate" = false ->
  (forall r, In r (rows df) ->
     (exists v, two_digits (component df "month" r) = Return v) /\
     (exists v, two_digits (component df "day" r) = Return v)) ->
  exists out,
    create_date_column df = Return out /\
    Forall2
      (fun r r' =>
         (has_column df "year" = false \/
          isna (cell r "year") = true \/
          (exists e, float_of_cell (cell r "year") = Raise e) \/
          (exists x, float_of_cell (cell r "year") = Return x /\
                     int_of_float x = None)) ->
         cell r' "date" = NaN)
      (rows df) (rows out).
Proof.
  intros Hev Hparse.
  destruct (create_date_column_components df Hev Hparse)
    as (out & Hrun & _ & F).
  exists out. split; [exact Hrun|].
  eapply Forall2_weaken; [|exact F].
  intros r r' _ [(mm & dd & _ & _ & Hdate) _] Hmissing.
  rewrite Hdate.
  replace (year_of df r) with CNone; [reflexivity|].
  unfold year_of, normalize_year.
  destruct Hmissing as [-> | [H | [[e H] | (x & H & Hx)]]]; [reflexivity| | |].
  - destruct (has_column df "year"); [|reflexivity]. now rewrite H.
  - destruct (has_column df "year"); [|reflexivity].
    destruct (isna _); [reflexivity|]. now rewrite H.
  - destruct (has_column df "year"); [|reflexivity].
    destruct (isna _); [reflexivity|]. now rewrite H, Hx.
Qed.

Lemma date_from_components_witness :
  exists out,
    create_date_column year_month_day = Return out /\
    map (fun r => cell r "date") (rows out)
    = [CStr "2021-06-15"; CStr "2007-01-03"; NaN].
Proof.
  destruct (date_from_components year_month_day) as (out & Hrun & _).
  - reflexivity.
  - intros r [<-|[<-|[<-|[]]]]; split; eexists; vm_compute; reflexivity.
  - exists out. split; [exact Hrun|].
    vm_compute in Hrun. injection Hrun as <-. reflexivity.
Defined.

Lemma date_without_year_witness :
  exists out,
    create_date_column year_month_day = Return out /\
    nth_error (map (fun r => cell r "date") (rows out)) 2 = Some NaN.
Proof.
  destruct (date_without_year year_month_day) as (out & Hrun & _).
  - reflexivity.
  - intros r [<-|[<-|[<-|[]]]]; split; eexists; vm_compute; reflexivity.
  - exists out. split; [exact Hrun|].
    vm_compute in Hrun. injection Hrun as <-. reflexivity.
Defined.

Lemma well_formed_lookup (df : DataFrame) (r : Row) (c : string) :
  well_formed df -> In r (rows df) -> has_column df c = false ->
  lookup r c = None.
Proof.
  intros Hwf Hr Hc. specialize (Hwf r Hr).
  unfold has_column in Hc. rewrite <- Hwf in Hc. clear Hwf Hr.
  induction r as [|[k v] r IH]; [reflexivity|].
  cbn [map fst mem existsb] in Hc. unfold mem in Hc. cbn [existsb] in Hc.
  apply orb_false_iff in Hc as [Hk Hc]. cbn [lookup].
  rewrite String.eqb_sym, Hk. now apply IH.
Qed.






End DateColumnProperties.

(* ================================================================== *)
(** ** Further properties: coordinates *)
(* ================================================================== *)

Section CoordinateProperties.

Lemma mapM_raises {A B : Type} (f : A -> outcome B) (E : exn) (xs : list A) :
  (forall x e, f x = Raise e -> e = E) ->
  (exists x, In x xs /\ f x = Raise E) ->
  mapM f xs = Raise E.
Proof.
  intros Honly. induction xs as [|x xs IH]; intros (b & Hin & Hb);
    [contradiction|].
  cbn [mapM]. destruct (f x) as [y|e] eqn:Hx; cbn [bind].
  - destruct Hin as [->|Hin]; [congruence|].
    rewrite IH by eauto. reflexivity.
  - now rewrite (Honly x e Hx).
Qed.

Lemma mapM_raise_only {A B : Type} (f : A -> outcome B) (E : exn)
      (xs : list A) (e : exn) :
  (forall x e, f x = Raise e -> e = E) ->
  mapM f xs = Raise e -> e = E.
Proof.
  intros Honly. induction xs as [|x xs IH]; cbn [mapM]; [discriminate|].
  destruct (f x) as [y|e'] eqn:Hx; cbn [bind].
  - destruct (mapM f xs); cbn [bind]; [discriminate|].
    intros H. injection H as <-. now apply IH.
  - intros H. injection H as <-. now apply (Honly x).
Qed.

Lemma float_of_str_raises (s : string) (e : exn) :
  float_of_str s = Raise e -> e = ValueError.
Proof.
  unfold float_of_str.
  destruct (drop_underscores _ _) as [u|]; [|congruence].
  destruct (match u with
            | String "-"%char t => (true, t)
            | String "+"%char t => (false, t)
            | t => (false, t)
            end) as [neg t].
  destruct (String.eqb (lower t) "nan"); [discriminate|].
  destruct (String.eqb (lower t) "inf" || String.eqb (lower t) "infinity");
    [discriminate|].
  destruct (decimal_of neg t); [discriminate|]. congruence.
Qed.

Lemma coerce_coordinate_raises (c : Cell) (e : exn) :
  coerce_coordinate c = Raise e -> e = ValueError.
Proof.
  unfold coerce_coordinate. destruct (notna c); [|discriminate].
  destruct (float_of_str _) as [x|e'] eqn:E; cbn [bind]; [discriminate|].
  intros H. injection H as <-. now apply (float_of_str_raises _ _ E).
Qed.

Lemma coerce_column_raise_only (df : DataFrame) (c : string) (e : exn) :
  has_column df c = true -> coerce_column df c = Raise e -> e = ValueError.
Proof.
  intros Hc. unfold coerce_column, column. rewrite Hc. cbn [bind].
  destruct (mapM coerce_coordinate _) as [fs|e'] eqn:E; cbn [bind];
    [discriminate|].
  intros H. injection H as <-.
  apply (mapM_raise_only _ _ _ _ coerce_coordinate_raises E).
Qed.

Lemma coerce_column_unreadable (df : DataFrame) (c : string) :
  has_column df c = true ->
  (exists r, In r (rows df) /\ exists e, coerce_coordinate (cell r c) = Raise e) ->
  coerce_column df c = Raise ValueError.
Proof.
  intros Hc (r & Hr & e & He).
  unfold coerce_column, column. rewrite Hc. cbn [bind].
  rewrite (mapM_raises coerce_coordinate ValueError); [reflexivity| |].
  - exact coerce_coordinate_raises.
  - exists (cell r c). split; [now apply (in_map (fun r => cell r c))|].
    now rewrite <- (coerce_coordinate_raises _ _ He).
Qed.

(** X6. A latitude or longitude that is not null and that [float] cannot
    read, after commas are turned into periods, makes
    [process_coordinates] raise [ValueError]: the stage has no handler
    around the conversion. *)
Theorem unreadable_coordinate_raises (df : DataFrame) (c : string) :
  c = "decimalLatitude" \/ c = "decimalLongitude" ->
  has_column df c = true ->
  (exists r, In r (rows df) /\
             exists e, coerce_coordinate (cell r c) = Raise e) ->
  process_coordinates df = Raise ValueError.
Proof.
  intros [-> | ->] Hc Hbad; unfold process_coordinates.
  - rewrite Hc, (coerce_column_unreadable df _ Hc Hbad). reflexivity.
  - destruct (has_column df "decimalLatitude") eqn:Hlat.
    + destruct (coerce_column df "decimalLatitude") as [df1|e] eqn:E1;
        cbn [bind].
      * destruct (coerce_column_inv df df1 _ Hlat E1) as (fs & -> & Hlen).
        rewrite has_column_assign_values, Hc. cbn [orb].
        rewrite coerce_column_unreadable; [reflexivity| |].
        -- now rewrite has_column_assign_values, Hc.
        -- destruct Hbad as (r & Hr & e & He).
           pose proof (values_assign_values_other df "decimalLatitude"
                         "decimalLongitude" (infer_objects fs)
                         ltac:(discriminate) Hlen) as Hv.
           unfold values_of in Hv.
           assert (Hin : In (cell r "decimalLongitude")
                            (map (fun r => cell r "decimalLongitude")
                                 (rows df)))
             by now apply (in_map (fun r => cell r "decimalLongitude")).
           rewrite <- Hv in Hin. apply in_map_iff in Hin as (r1 & Hr1 & Hin1).
           exists r1. split; [exact Hin1|]. exists e. now rewrite Hr1.
      * now rewrite (coerce_column_raise_only df _ e Hlat E1).
    + cbn [bind]. rewrite Hc.
      rewrite (coerce_column_unreadable df _ Hc Hbad). reflexivity.
Qed.

Lemma unreadable_coordinate_raises_witness :
  process_coordinates bad_latitude = Raise ValueError.
Proof.
  apply (unreadable_coordinate_raises bad_latitude "decimalLatitude").
  - now left.
  - reflexivity.
  - eexists. split; [right; left; reflexivity|].
    exists ValueError. vm_compute. reflexivity.
Defined.

(** X7. A table with a [decimalLongitude] column, no [decimalLatitude]
    column and at least one row makes [process_coordinates] raise
    [KeyError]: the row function reads both coordinates. *)
Theorem longitude_without_latitude_raises (df : DataFrame) :
  has_column df "decimalLatitude" = false ->
  has_column df "decimalLongitude" = true ->
  rows df <> [] ->
  (forall r, In r (rows df) ->
     exists v, coerce_coordinate (cell r "decimalLongitude") = Return v) ->
  process_coordinates df = Raise KeyError.
Proof.
  intros Hlat Hlon Hne Hparse. unfold process_coordinates.
  rewrite Hlat. cbn [bind]. rewrite Hlon.
  destruct (coerce_column_returns df "decimalLongitude" Hlon Hparse)
    as (fs & _ & Hlen & ->). cbn [bind].
  set (d := assign_values df "decimalLongitude" (infer_objects fs)).
  assert (Hd : has_column d "decimalLatitude" = false).
  { unfold d. now rewrite has_column_assign_values, Hlat. }
  assert (Hrows : rows d <> []).
  { pose proof (len_assign_values df "decimalLongitude" _ Hlen) as H.
    fold d in H. unfold len in H. intros E. rewrite E in H.
    destruct (rows df); [contradiction | discriminate]. }
  rewrite (row_points_rows d (or_intror Hrows)).
  destruct (rows d) as [|r rs]; [contradiction|].
  cbn [mapM]. unfold row_point, row_get. rewrite Hd. reflexivity.
Qed.

Lemma longitude_without_latitude_raises_witness :
  process_coordinates longitude_column_only = Raise KeyError.
Proof.
  apply (longitude_without_latitude_raises longitude_column_only);
    try reflexivity.
  - discriminate.
  - intros r [<-|[]]. eexists. vm_compute. reflexivity.
Defined.

Lemma keeps_refl ws df : keeps ws df df.
Proof. repeat split; auto. Qed.

Lemma keeps_trans ws a b c : keeps ws a b -> keeps ws b c -> keeps ws a c.
Proof.
  intros (L1 & H1 & V1) (L2 & H2 & V2). repeat split.
  - congruence.
  - auto.
  - intros d Hd. now rewrite V2, V1.
Qed.

Lemma keeps_assign_values ws df c vs :
  mem c ws = true -> List.length vs = len df ->
  keeps ws df (assign_values df c vs).
Proof.
  intros Hc Hlen. repeat split.
  - now apply len_assign_values.
  - intros d Hd. now rewrite has_column_assign_values, Hd.
  - intros d Hd. apply (values_assign_values_other df c d vs); [|exact Hlen].
    intros ->. congruence.
Qed.

Lemma keeps_assign ws df c f :
  mem c ws = true -> keeps ws df (assign df c f).
Proof.
  intros Hc. repeat split.
  - apply len_assign.
  - intros d Hd. now rewrite has_column_assign, Hd.
  - intros d Hd. apply (values_assign_other df c d f). intros ->. congruence.
Qed.

Lemma process_coordinates_before_depth (df out : DataFrame) :
  process_coordinates df = Return out ->
  exists df2,
    out = negate_depth df2 /\
    has_column df2 "point" = true /\
    keeps ["decimalLatitude"; "decimalLongitude"; "point"] df df2.
Proof.
  unfold process_coordinates. intros H.
  set (ws := ["decimalLatitude"; "decimalLongitude"; "point"]).
  assert (H1 : exists df1,
             (if has_column df "decimalLatitude"
              then coerce_column df "decimalLatitude" else Return df)
             = Return df1 /\ keeps ws df df1).
  { destruct (has_column df "decimalLatitude") eqn:Hlat.
    - destruct (coerce_column df "decimalLatitude") as [df1|] eqn:E;
        [|discriminate].
      exists df1. split; [reflexivity|].
      destruct (coerce_column_inv df df1 _ Hlat E) as (fs & -> & Hlen).
      now apply keeps_assign_values.
    - exists df. split; [reflexivity | apply keeps_refl]. }
  destruct H1 as (df1 & E1 & K1). rewrite E1 in H. cbn [bind] in H.
  destruct (has_column df1 "decimalLongitude") eqn:Hlon.
  - destruct (coerce_column df1 "decimalLongitude") as [d|] eqn:E2;
      cbn [bind] in H; [|discriminate].
    destruct (coerce_column_inv df1 d _ Hlon E2) as (fs & -> & Hlen).
    set (d := assign_values df1 "decimalLongitude" (infer_objects fs)) in *.
    destruct (row_points d) as [points|] eqn:E3; cbn [bind] in H;
      [|discriminate].
    injection H as <-. eexists. split; [reflexivity|]. split.
    + rewrite has_column_assign_values. apply orb_true_r.
    + apply (keeps_trans ws df df1 _ K1).
      apply (keeps_trans ws df1 d).
      * now apply keeps_assign_values.
      * apply keeps_assign_values; [reflexivity|].
        apply (row_points_length d points E3).
  - destruct (has_column df1 "locality"); cbn [bind] in H;
      injection H as <-; eexists; (split; [reflexivity|]); split;
      try (unfold assign_scalar; rewrite has_column_assign; apply orb_true_r);
      apply (keeps_trans ws df df1 _ K1); now apply keeps_assign.
Qed.





(** X9. Whenever [process_coordinates] returns, the table has as many
    rows as before, has a [point] column, still has every column it had,
    and its cells outside [decimalLatitude], [decimalLongitude], [point]
    and [depth] are unchanged. *)
Theorem process_coordinates_keeps (df out : DataFrame) :
  process_coordinates df = Return out ->
  len out = len df /\
  has_column out "point" = true /\
  (forall c, has_column df c = true -> has_column out c = true) /\
  (forall c, mem c ["decimalLatitude"; "decimalLongitude"; "point"; "depth"]
             = false ->
             values_of out c = values_of df c).
Proof.
  intros Hrun. unfold values_of.
  destruct (process_coordinates_before_depth df out Hrun)
    as (df2 & -> & Hpoint & Hlen & Hhas & Hval).
  unfold negate_depth.
  destruct (has_column df2 "depth") eqn:Hd.
  - split; [now rewrite len_assign|]. split; [|split].
    + now rewrite has_column_assign, Hpoint.
    + intros c Hc. now rewrite has_column_assign, (Hhas c Hc).
    + intros c Hc. unfold mem in Hc. cbn [existsb] in Hc.
      apply orb_false_iff in Hc as [H1 Hc].
      apply orb_false_iff in Hc as [H2 Hc].
      apply orb_false_iff in Hc as [H3 Hc].
      apply orb_false_iff in Hc as [H4 _].
      fold (values_of (assign df2 "depth"
              (fun r => CNum (neg_abs (to_numeric (cell r "depth"))))) c).
      rewrite values_assign_other.
      * apply Hval. unfold mem. cbn [existsb]. now rewrite H1, H2, H3.
      * apply String.eqb_neq in H4. congruence.
  - split; [exact Hlen|]. split; [exact Hpoint|]. split; [exact Hhas|].
    intros c Hc. apply Hval. unfold mem in *. cbn [existsb] in *.
    apply orb_false_iff in Hc as [H1 Hc].
    apply orb_false_iff in Hc as [H2 Hc].
    apply orb_false_iff in Hc as [H3 _]. now rewrite H1, H2, H3.
Qed.


Lemma process_coordinates_keeps_witness :
  exists out,
    process_coordinates depths = Return out /\
    len out = 3 /\ values_of out "site" = [CStr "A"; CStr "B"; CStr "C"].
Proof.
  eexists. split; [vm_compute; reflexivity|].
  destruct (process_coordinates_keeps depths _ eq_refl)
    as (Hlen & _ & _ & Hval).
  split; [exact Hlen|]. exact (Hval "site" eq_refl).
Defined.

End CoordinateProperties.

(* ================================================================== *)
(** ** Further properties: identifiers and cleaning *)
(* ================================================================== *)

Section IdentifierAndCleaningProperties.

Lemma NoDup_map_on {A B : Type} (f : A -> B) (l : list A) :
  (forall x y, In x l -> In y l -> f x = f y -> x = y) ->
  NoDup l -> NoDup (map f l).
Proof.
  intros Hinj Hnd. induction Hnd as [|x l Hx Hnd IH]; cbn [map];
    constructor.
  - intros Hin. apply in_map_iff in Hin as (y & Hy & Hin).
    apply Hx. rewrite (Hinj x y); auto; [now left | now right].
  - apply IH. intros a b Ha Hb. apply Hinj; now right.
Qed.

Lemma generate_ids_fresh (df : DataFrame) (c : string) (g : Rng) :
  has_column df c = false ->
  exists out g',
    generate_ids df c g = Return (out, g') /\ ids_added df g c out g'.
Proof.
  intros Hc. unfold generate_ids, draw_ids. rewrite Hc.
  do 2 eexists. split; [reflexivity|].
  set (ids := map (fun i => CStr (substring 0 18 (uuid4 g (drawn g + i))))
                  (seq 0 (len df))).
  assert (Hlen : List.length ids = len df).
  { unfold ids. now rewrite length_map, length_seq. }
  assert (Hval : values_of (assign_values df c ids) c = ids)
    by now apply values_assign_values_same.
  unfold ids_added. cbn [uuid4 drawn].
  split; [|split; [|split; [|split; [|split; [|split]]]]];
    try reflexivity.
  - cbn [assign_values columns]. unfold add_label.
    unfold has_column in Hc. now rewrite Hc.
  - now apply len_assign_values.
  - exact Hval.
  - intros d Hd. apply values_assign_values_other; [congruence | exact Hlen].
  - intros Hdistinct. rewrite Hval. unfold ids.
    apply NoDup_map_on; [|apply seq_NoDup].
    intros i j Hi Hj E. apply in_seq in Hi, Hj. injection E as E.
    destruct (Nat.lt_trichotomy i j) as [Hlt|[Heq|Hgt]]; [|exact Heq|].
    + elim (Hdistinct i j); [lia | exact E].
    + elim (Hdistinct j i); [lia | now symmetry].
Qed.

(** X10. On a table without the target column, each generator returns
    the table with the column appended: its values are the first 18
    characters of the next identifiers drawn, one per row, the other
    cells are unchanged, the source has advanced by the number of rows,
    and the identifiers are pairwise distinct whenever the prefixes
    drawn are. *)
Theorem fresh_identifiers (df : DataFrame) (g : Rng) :
  (has_column df "featureOfInterestId" = false ->
   exists out g',
     feature_of_interest_id_generator df g = Return (out, g') /\
     ids_added df g "featureOfInterestId" out g') /\
  (has_column df "observationId" = false ->
   exists out g',
     observation_id_generator df g = Return (out, g') /\
     ids_added df g "observationId" out g').
Proof.
  split; intros Hc.
  - destruct (generate_ids_fresh df _ g Hc) as (out & g' & Hrun & H).
    exists out, g'. split; [|exact H].
    unfold feature_of_interest_id_generator,
      feature_of_interest_id_generator_named,
      feature_of_interest_id_generator_body.
    rewrite Hrun. reflexivity.
  - destruct (generate_ids_fresh df _ g Hc) as (out & g' & Hrun & H).
    exists out, g'. split; [|exact H].
    unfold observation_id_generator. rewrite Hrun. reflexivity.
Qed.

Lemma fresh_identifiers_witness :
  exists out g',
    feature_of_interest_id_generator heights rng0 = Return (out, g') /\
    values_of out "featureOfInterestId"
    = [CStr "00000000-7d4a-4c6b"; CStr "00000001-7d4a-4c6b"] /\
    NoDup (values_of out "featureOfInterestId").
Proof.
  destruct (fresh_identifiers heights rng0) as [Hf _].
  destruct (Hf eq_refl) as (out & g' & Hrun & _ & _ & _ & _ & Hval & _ & Hnd).
  exists out, g'. split; [exact Hrun|]. split; [exact Hval|].
  apply Hnd. intros i j Hij. change (len heights) with 2 in Hij.
  assert (i = 0 /\ j = 1) as [-> ->] by lia. vm_compute. discriminate.
Defined.

Lemma to_numeric_replace_invalid (read : string -> pyfloat) (c : Cell) :
  to_numeric_with read (replace_invalid c) = number_read_with read c.
Proof.
  unfold replace_invalid, number_read_with.
  destruct (is_invalid c); reflexivity.
Qed.

(** X11. With [keep_strings=False], on a table that has the column
    [measurementValue], and whatever [pd.to_numeric] reads from a text
    ([read]): the rows kept are, in order, exactly those whose value is
    neither null nor a placeholder token and reads as a number; each
    holds that number, its other cells and the columns of the table are
    unchanged. *)
Theorem drop_non_numeric_cleaning (read : string -> pyfloat) (df : DataFrame) :
  has_column df "measurementValue" = true ->
  exists out : DataFrame,
    clean_and_infer_measurement_values_with read df false = Return out /\
    columns out = columns df /\
    Forall2
      (fun r r' =>
         cell r' "measurementValue"
         = CNum (number_read_with read (cell r "measurementValue")) /\
         (forall c, c <> "measurementValue" -> cell r' c = cell r c))
      (filter (fun r => negb (is_nan (number_read_with
                                        read (cell r "measurementValue"))))
              (rows df))
      (rows out).
Proof.
  intros Hcol.
  unfold clean_and_infer_measurement_values_with,
    clean_and_infer_measurement_values_body_with, column.
  rewrite Hcol. cbn [bind negb try_except].
  eexists. split; [reflexivity|]. split.
  - cbn [columns assign select]. unfold has_column in Hcol.
    rewrite (add_label_present _ _ Hcol). now apply add_label_present.
  - cbn [rows assign select].
    rewrite filter_map_swap, map_map.
    match goal with
    | |- Forall2 _ (filter ?p _) (map _ (filter ?q _)) =>
        rewrite (filter_ext q p)
    end.
    + apply Forall2_map_right. intros r _.
      rewrite !cell_set_same, to_numeric_replace_invalid.
      split; [reflexivity|]. intros c Hc.
      rewrite !cell_set_other by congruence. reflexivity.
    + intros r. rewrite cell_set_same, to_numeric_replace_invalid.
      unfold notna. now rewrite isna_num.
Qed.

Lemma drop_non_numeric_cleaning_witness :
  exists out : DataFrame,
    clean_and_infer_measurement_values measured false = Return out /\
    values_of out "measurementValue" = [CNum (FDec false 125 (-1))].
Proof.
  destruct (drop_non_numeric_cleaning numeric_literal measured eq_refl)
    as (out & Hrun & _).
  exists out. split; [exact Hrun|].
  vm_compute in Hrun. injection Hrun as <-. reflexivity.
Defined.

Lemma coerce_or_keep_valid (c : Cell) :
  is_invalid c = false -> is_invalid (coerce_or_keep c) = false.
Proof.
  intros H. unfold coerce_or_keep, coerce_or_keep_with.
  destruct (is_nan (to_numeric_with numeric_literal c)) eqn:E; [exact H|].
  unfold is_invalid. rewrite isna_num, E. reflexivity.
Qed.

Lemma coerce_or_keep_twice (c : Cell) :
  coerce_or_keep (coerce_or_keep c) = coerce_or_keep c.
Proof.
  unfold coerce_or_keep, coerce_or_keep_with.
  destruct (is_nan (to_numeric_with numeric_literal c)) eqn:E.
  - now rewrite E.
  - cbn [to_numeric_with]. now rewrite E.
Qed.

Lemma keep_strings_has_column (df out : DataFrame) :
  has_column df "measurementValue" = true ->
  clean_and_infer_measurement_values df true = Return out ->
  has_column out "measurementValue" = true.
Proof.
  intros Hcol.
  unfold clean_and_infer_measurement_values,
    clean_and_infer_measurement_values_with,
    clean_and_infer_measurement_values_body_with, column.
  rewrite Hcol. cbn [bind negb].
  unfold drop.
  match goal with
  | |- context [forallb (has_column ?d) ?cs] =>
      assert (Hdrop : forallb (has_column d) cs = true)
  end.
  { cbn [forallb].
    repeat (rewrite ?has_column_assign, ?has_column_select).
    cbn [String.eqb Ascii.eqb Bool.eqb].
    rewrite !orb_true_r. reflexivity. }
  rewrite Hdrop. cbn [try_except]. intros H. injection H as <-.
  rewrite has_column_drop_ignore.
  repeat (rewrite ?has_column_assign, ?has_column_select).
  rewrite Hcol. reflexivity.
Qed.

Lemma Forall2_values {A : Type} (f g : A -> Cell) (l l' : list A) :
  Forall2 (fun a b => g b = f a) l l' -> map g l' = map f l.
Proof. intros F. induction F; cbn [map]; congruence. Qed.

(** X12. Keep-strings cleaning is stable: cleaning the cleaned table
    again returns, removes no row and changes no value. *)
Theorem keep_strings_cleaning_twice (df : DataFrame) :
  has_column df "measurementValue" = true ->
  exists out out2 : DataFrame,
    clean_and_infer_measurement_values df true = Return out /\
    clean_and_infer_measurement_values out true = Return out2 /\
    len out2 = len out /\
    (forall c, c <> "numericValue" -> c <> "measurementValue_cleaned" ->
               values_of out2 c = values_of out c).
Proof.
  intros Hcol.
  destruct (keep_strings_rows numeric_literal df Hcol) as (out & Hrun & F).
  fold (clean_and_infer_measurement_values df true) in Hrun.
  pose proof (keep_strings_has_column df out Hcol Hrun) as Hcol'.
  destruct (keep_strings_rows numeric_literal out Hcol')
    as (out2 & Hrun2 & F2).
  fold (clean_and_infer_measurement_values out true) in Hrun2.
  fold coerce_or_keep in F, F2.
  exists out, out2. split; [exact Hrun|]. split; [exact Hrun2|].
  assert (Hall : filter (fun r => negb (is_invalid (cell r "measurementValue")))
                        (rows out) = rows out).
  { apply forallb_filter_id, forallb_forall. intros r' Hr'.
    destruct (Forall2_in_right _ _ _ _ F Hr') as (r & Hr & Hmv & _).
    apply filter_In in Hr as [_ Hr]. apply negb_true_iff in Hr.
    rewrite Hmv. apply negb_true_iff. now apply coerce_or_keep_valid. }
  rewrite Hall in F2.
  split; [unfold len; symmetry; exact (Forall2_length F2)|].
  intros c Hc1 Hc2. unfold values_of. apply Forall2_values.
  assert (Hsrc : forall r', In r' (rows out) ->
            coerce_or_keep (cell r' "measurementValue")
            = cell r' "measurementValue").
  { intros r' Hr'.
    destruct (Forall2_in_right _ _ _ _ F Hr') as (r & _ & Hmv & _).
    rewrite Hmv. apply coerce_or_keep_twice. }
  eapply Forall2_weaken; [|exact F2].
  intros r' r'' Hr' [Hmv Hother]. cbv beta.
  destruct (String.eqb_spec c "measurementValue") as [->|Hc].
  - now rewrite Hmv, Hsrc.
  - now apply Hother.
Qed.

Lemma keep_strings_cleaning_twice_witness :
  exists out out2 : DataFrame,
    clean_and_infer_measurement_values measured true = Return out /\
    clean_and_infer_measurement_values out true = Return out2 /\
    values_of out2 "measurementValue"
    = [CNum (FDec false 125 (-1)); CStr "tall"].
Proof.
  destruct (keep_strings_cleaning_twice measured eq_refl)
    as (out & out2 & Hrun & Hrun2 & _ & Hval).
  exists out, out2. split; [exact Hrun|]. split; [exact Hrun2|].
  rewrite (Hval "measurementValue") by discriminate.
  vm_compute in Hrun. injection Hrun as <-. reflexivity.
Defined.

End IdentifierAndCleaningProperties.

(* ================================================================== *)
(** ** Further properties: the two reshapes *)
(* ================================================================== *)

Section ReshapeProperties.

Lemma values_assign_scalar (df : DataFrame) (c d : string) (v : Cell) :
  values_of (assign_scalar df c v) d
  = if String.eqb c d then map (fun _ => v) (rows df) else values_of df d.
Proof.
  unfold assign_scalar. destruct (String.eqb_spec c d) as [->|H].
  - apply values_assign_same.
  - now apply values_assign_other.
Qed.

Lemma rows_assign_scalar_const (df : DataFrame) (c : string) (v w : Cell) :
  map (fun _ => w) (rows (assign_scalar df c v)) = map (fun _ => w) (rows df).
Proof. unfold assign_scalar, assign. cbn [rows]. now rewrite map_map. Qed.

(** What [observation_id_generator] does to the rows, whether it adds
    the column or finds it. *)
Lemma observation_id_generator_rows (df : DataFrame) (g : Rng) :
  exists out g',
    observation_id_generator df g = Return (out, g') /\
    len out = len df /\
    has_column out "observationId" = true /\
    (forall c, has_column df c = true -> has_column out c = true) /\
    Forall2 (fun r r' => (r' = r \/ exists v, r' = set_cell r "observationId" v))
            (rows df) (rows out).
Proof.
  unfold observation_id_generator, generate_ids.
  destruct (has_column df "observationId") eqn:Hc.
  - exists df, g. split; [reflexivity|]. split; [reflexivity|].
    split; [exact Hc|]. split; [auto|].
    induction (rows df); constructor; auto.
  - unfold draw_ids. cbn [try_except]. do 2 eexists.
    split; [reflexivity|].
    set (ids := map _ (seq 0 (len df))).
    assert (Hlen : List.length ids = len df)
      by (unfold ids; now rewrite length_map, length_seq).
    split; [now apply len_assign_values|]. split; [|split].
    + rewrite has_column_assign_values. apply orb_true_r.
    + intros c H. now rewrite has_column_assign_values, H.
    + unfold assign_values, len in *. cbn [rows]. clearbody ids.
      revert ids Hlen. induction (rows df) as [|r rs IH]; intros ids Hlen.
      * constructor.
      * destruct ids as [|v ids]; [discriminate|].
        cbn [combine map fst snd]. constructor; [right; eauto|].
        apply IH. simpl in Hlen. lia.
Qed.

Lemma Forall2_cells (c : string) (l l' : list Row) :
  Forall2 (fun r r' => cell r' c = cell r c) l l' ->
  map (fun r => cell r c) l' = map (fun r => cell r c) l.
Proof. intros F. induction F; cbn [map]; congruence. Qed.

Lemma observation_id_generator_values (df out : DataFrame) (g g' : Rng)
      (c : string) :
  observation_id_generator df g = Return (out, g') ->
  c <> "observationId" -> values_of out c = values_of df c.
Proof.
  intros Hrun Hc.
  destruct (observation_id_generator_rows df g) as (o & g2 & E & _ & _ & _ & F).
  rewrite E in Hrun. injection Hrun as <- <-.
  unfold values_of. apply Forall2_cells.
  eapply Forall2_weaken; [|exact F].
  intros r r' _ [->|[v ->]]; [reflexivity|].
  apply cell_set_other. congruence.
Qed.

(** X13. With no column of the trait dictionary and no
    [measurementValue] column, [measurement_attribute_preparation]
    returns the table with an [observationId] column and as many rows
    as before; [propertyName], [measurementValue], [propertyLabel],
    [propertyDefinition], [measurementUnit] and [propertyUrl] hold
    [pd.NA] in every row and every other column is unchanged. *)
Theorem measurement_fallback_without_values
    (trait_dict : TraitDict) (df : DataFrame) (g : Rng) :
  measurement_columns trait_dict df = [] ->
  has_column df "measurementValue" = false ->
  exists out g',
    measurement_attribute_preparation (Loaded trait_dict) df g
    = Return (out, g') /\
    len out = len df /\
    has_column out "observationId" = true /\
    (forall c, In c property_columns ->
               values_of out c = map (fun _ => CNA) (rows df)) /\
    (forall c, ~ In c property_columns -> c <> "observationId" ->
               values_of out c = values_of df c).
Proof.
  intros Hcols Hmv.
  destruct (observation_id_generator_rows df g)
    as (d & g' & Hid & Hlen & Hhas & _ & _).
  assert (Hconst : map (fun _ : Row => CNA) (rows d)
                   = map (fun _ : Row => CNA) (rows df))
    by (apply map_const_length; exact Hlen).
  eexists. exists g'. split.
  - unfold measurement_attribute_preparation,
      measurement_attribute_preparation_with,
      measurement_attribute_preparation_body_with.
    rewrite Hcols.
    replace (mem "measurementValue" (non_measurement_columns trait_dict df))
      with false.
    + rewrite Hid. reflexivity.
    + symmetry. unfold non_measurement_columns. rewrite mem_filter.
      unfold has_column in Hmv. now rewrite Hmv.
  - split; [|split; [|split]].
    + unfold assign_scalar. now rewrite !len_assign.
    + unfold assign_scalar. rewrite !has_column_assign, Hhas. reflexivity.
    + intros c Hc. cbn [property_columns In] in Hc.
      repeat (destruct Hc as [<-|Hc];
              [repeat (rewrite values_assign_scalar;
                       cbn [String.eqb Ascii.eqb Bool.eqb]);
               rewrite ?rows_assign_scalar_const; exact Hconst|]).
      contradiction.
    + intros c Hc Hoid. cbn [property_columns In] in Hc.
      repeat (rewrite values_assign_scalar;
              match goal with
              | |- context [String.eqb ?a c] =>
                  destruct (String.eqb_spec a c) as [<-|_];
                  [elim Hc; tauto|]
              end).
      now apply (observation_id_generator_values df d g g').
Qed.

Lemma measurement_fallback_without_values_witness :
  exists out g',
    measurement_attribute_preparation (Loaded traits) wide_taxa rng0
    = Return (out, g') /\
    len out = 2 /\
    values_of out "measurementValue" = [CNA; CNA] /\
    values_of out "genus" = [CStr "Mytilus"; CStr "Ostrea"].
Proof.
  destruct (measurement_fallback_without_values traits wide_taxa rng0)
    as (out & g' & Hrun & Hlen & _ & Hna & Hsame); try reflexivity.
  exists out, g'. split; [exact Hrun|]. split; [exact Hlen|]. split.
  - apply Hna. cbn. tauto.
  - apply Hsame; [|discriminate]. cbn. intuition discriminate.
Defined.

(** X14. On a table with no [taxonRank] column and no column of the
    taxonomy list, [taxonomy_attribution_preparation] returns the table
    with [taxonRank] and [taxon] set to [pd.NA] in every row; the number
    of rows, the other columns and their values are unchanged. *)
Theorem taxonomy_without_rank_columns
    (taxonomy_list : list string) (df : DataFrame) :
  has_column df "taxonRank" = false ->
  taxonomy_columns taxonomy_list df = [] ->
  exists out,
    taxonomy_attribution_preparation (Loaded taxonomy_list) df
    = Return (Some out) /\
    len out = len df /\
    values_of out "taxonRank" = map (fun _ => CNA) (rows df) /\
    values_of out "taxon" = map (fun _ => CNA) (rows df) /\
    (forall c, c <> "taxonRank" -> c <> "taxon" ->
               has_column out c = has_column df c /\
               values_of out c = values_of df c).
Proof.
  intros Hrank Hcols.
  eexists. split.
  - unfold taxonomy_attribution_preparation,
      taxonomy_attribution_preparation_body.
    rewrite Hrank, Hcols. reflexivity.
  - split; [unfold assign_scalar; now rewrite !len_assign|].
    split; [|split].
    + rewrite !values_assign_scalar. cbn [String.eqb Ascii.eqb Bool.eqb].
      reflexivity.
    + rewrite values_assign_scalar. cbn [String.eqb Ascii.eqb Bool.eqb].
      apply rows_assign_scalar_const.
    + intros c H1 H2. split.
      * unfold assign_scalar. rewrite !has_column_assign.
        apply String.eqb_neq in H1, H2. now rewrite H1, H2, !orb_false_r.
      * rewrite !values_assign_scalar.
        destruct (String.eqb_spec "taxon" c); [congruence|].
        destruct (String.eqb_spec "taxonRank" c); [congruence|].
        reflexivity.
Qed.

Lemma taxonomy_without_rank_columns_witness :
  exists out,
    taxonomy_attribution_preparation (Loaded ranks) heights
    = Return (Some out) /\
    values_of out "taxon" = [CNA; CNA] /\
    values_of out "site" = [CStr "A"; CStr "B"].
Proof.
  destruct (taxonomy_without_rank_columns ranks heights)
    as (out & Hrun & _ & _ & Htaxon & Hsame); try reflexivity.
  exists out. split; [exact Hrun|]. split; [exact Htaxon|].
  apply Hsame; discriminate.
Defined.

Lemma Forall2_flat_map {A B C : Type} (R : B -> C -> Prop)
      (f : A -> list B) (g : A -> list C) (l : list A) :
  (forall x, In x l -> Forall2 R (f x) (g x)) ->
  Forall2 R (flat_map f l) (flat_map g l).
Proof.
  induction l as [|x l IH]; intros H; cbn [flat_map]; [constructor|].
  apply Forall2_app; [apply H; now left|].
  apply IH. intros y Hy. apply H. now right.
Qed.

Lemma Forall2_map_both {A B C : Type} (R : B -> C -> Prop)
      (f : A -> B) (g : A -> C) (l : list A) :
  (forall x, In x l -> R (f x) (g x)) -> Forall2 R (map f l) (map g l).
Proof.
  induction l as [|x l IH]; intros H; cbn [map]; constructor.
  - apply H. now left.
  - apply IH. intros y Hy. apply H. now right.
Qed.

Lemma lookup_project_present (r : Row) (cs : list string) (c : string) :
  In c cs -> lookup (project r cs) c = Some (cell r c).
Proof.
  unfold project. induction cs as [|k cs IH]; [contradiction|].
  intros Hin. cbn [map lookup].
  destruct (String.eqb_spec k c) as [->|Hk]; [reflexivity|].
  destruct Hin as [->|Hin]; [contradiction|]. now apply IH.
Qed.

(** The rows of a melt, pair by pair. *)
Lemma melt_content (df : DataFrame) (ids vals : list string)
      (var val : string) :
  has_column df val = false -> mem var ids = false -> mem val ids = false ->
  var <> val ->
  exists out,
    melt df ids vals var val = Return out /\
    columns out = (ids ++ [var; val])%list /\
    Forall2
      (fun p r' =>
         cell r' var = CStr (fst p) /\
         cell r' val = cell (snd p) (fst p) /\
         (forall id, In id ids -> cell r' id = cell (snd p) id))
      (melt_pairs df vals) (rows out).
Proof.
  intros Hval Hvar Hvi Hneq. unfold melt. rewrite Hval, Hvar. cbn [orb].
  eexists. split; [reflexivity|]. split; [reflexivity|].
  cbn [rows]. unfold melt_pairs.
  apply Forall2_flat_map. intros v _.
  apply Forall2_map_both. intros r _. cbn [fst snd].
  unfold cell at 1 3 5. rewrite !lookup_app.
  rewrite (lookup_project_absent r ids var Hvar),
    (lookup_project_absent r ids val Hvi).
  cbn [lookup]. rewrite String.eqb_refl.
  apply String.eqb_neq in Hneq. rewrite Hneq, String.eqb_refl.
  split; [reflexivity|]. split; [reflexivity|].
  intros id Hid. unfold cell at 1.
  now rewrite lookup_app, (lookup_project_present r ids id Hid).
Qed.

(** X15. On a table without [taxonRank] and [taxon] that has a column
    of the taxonomy list, the stage returns the melt: the labels are the
    other columns followed by [taxonRank] and [taxon] and, recognised
    column after recognised column and input row after input row, there
    is one output row whose [taxonRank] is the name of the column, whose
    [taxon] is the cell of that column and whose other cells are those
    of the input row. *)
Theorem taxonomy_melt_content (taxonomy_list : list string) (df : DataFrame) :
  has_column df "taxonRank" = false ->
  has_column df "taxon" = false ->
  taxonomy_columns taxonomy_list df <> [] ->
  exists out,
    taxonomy_attribution_preparation (Loaded taxonomy_list) df
    = Return (Some out) /\
    columns out
    = (non_taxonomy_columns taxonomy_list df ++ ["taxonRank"; "taxon"])%list /\
    Forall2
      (fun p r' =>
         cell r' "taxonRank" = CStr (fst p) /\
         cell r' "taxon" = cell (snd p) (fst p) /\
         (forall c, In c (non_taxonomy_columns taxonomy_list df) ->
                    cell r' c = cell (snd p) c))
      (melt_pairs df (taxonomy_columns taxonomy_list df)) (rows out).
Proof.
  intros Hrank Htaxon Hcols.
  assert (Hids : forall c, has_column df c = false ->
                 mem c (non_taxonomy_columns taxonomy_list df) = false).
  { intros c Hc. unfold non_taxonomy_columns.
    rewrite mem_filter. unfold has_column in Hc. now rewrite Hc. }
  destruct (melt_content df (non_taxonomy_columns taxonomy_list df)
              (taxonomy_columns taxonomy_list df) "taxonRank" "taxon")
    as (out & Hmelt & Hc & F);
    [exact Htaxon | now apply Hids | now apply Hids | discriminate |].
  exists out. split; [|split; [exact Hc | exact F]].
  unfold taxonomy_attribution_preparation,
    taxonomy_attribution_preparation_body.
  rewrite Hrank.
  destruct (taxonomy_columns taxonomy_list df) as [|c cs] eqn:E;
    [congruence|].
  rewrite Hmelt. reflexivity.
Qed.

Lemma taxonomy_melt_content_witness :
  exists out,
    taxonomy_attribution_preparation (Loaded ranks) wide_taxa
    = Return (Some out) /\
    columns out = ["site"; "taxonRank"; "taxon"] /\
    values_of out "taxon"
    = [CStr "Mytilus"; CStr "Ostrea"; CStr "Mytilidae"; CStr "Ostreidae"].
Proof.
  destruct (taxonomy_melt_content ranks wide_taxa) as (out & Hrun & Hc & _);
    try reflexivity.
  - vm_compute. discriminate.
  - exists out. split; [exact Hrun|]. split; [exact Hc|].
    vm_compute in Hrun. injection Hrun as <-. reflexivity.
Defined.

Lemma Forall2_filter {A B : Type} (R : A -> B -> Prop) (p : A -> bool)
      (q : B -> bool) (l : list A) (l' : list B) :
  Forall2 R l l' -> (forall a b, R a b -> p a = q b) ->
  Forall2 R (filter p l) (filter q l').
Proof.
  intros F H. induction F as [|a b l l' Hab _ IH]; cbn [filter];
    [constructor|].
  rewrite <- (H a b Hab). destruct (p a); [constructor|]; assumption.
Qed.

Lemma trait_rows_content (trait_dict : TraitDict) :
  Forall (fun kv => snd kv <> []) trait_dict ->
  exists trait_list,
    trait_rows trait_dict = Return trait_list /\
    Forall2 (fun kv q => exists e rest,
                 snd kv = e :: rest /\ q = trait_row (fst kv) e)
            trait_dict trait_list.
Proof.
  unfold trait_rows.
  induction trait_dict as [|[k vs] td IH]; intros H.
  - exists []. split; [reflexivity | constructor].
  - inversion H as [|? ? Hk Htd]; subst. cbn [snd] in Hk.
    destruct (IH Htd) as (tl & Htl & F).
    destruct vs as [|v vs]; [contradiction|].
    cbn [mapM snd fst index nth_error bind]. rewrite Htl. cbn [bind].
    eexists. split; [reflexivity|]. constructor; [|exact F].
    exists v, vs. split; reflexivity.
Qed.

(** A left join when no label is shared and every left row has exactly
    one partner. *)
Lemma merge_left_rows (left right : DataFrame) (key : string) :
  has_column left key = true -> has_column right key = true ->
  (forall c, c <> key -> has_column left c = true ->
             has_column right c = false) ->
  (forall L, In L (rows left) ->
     exists q, filter (fun q => key_eqb (cell L key) (cell q key))
                      (rows right) = [q]) ->
  exists out,
    merge_left left right key = Return out /\
    (forall c, has_column left c = true -> has_column out c = true) /\
    Forall2
      (fun L M =>
         exists q,
           In q (rows right) /\
           key_eqb (cell L key) (cell q key) = true /\
           (forall c, has_column left c = true -> cell M c = cell L c) /\
           (forall c, has_column right c = true -> c <> key ->
                      cell M c = cell q c))
      (rows left) (rows out).
Proof.
  intros Hlk Hrk Hshared Hone.
  unfold merge_left. rewrite Hlk, Hrk. cbn [andb].
  eexists. split; [reflexivity|].
  set (shared := fun c : string =>
         negb (String.eqb c key) && has_column left c && has_column right c).
  assert (Hnone : forall c, shared c = false).
  { intros c. unfold shared.
    destruct (String.eqb_spec c key) as [->|Hc]; [reflexivity|].
    cbn [negb andb].
    destruct (has_column left c) eqn:E; [|reflexivity].
    now rewrite (Hshared c Hc E). }
  set (rcols := filter (fun c => negb (String.eqb c key)) (columns right)).
  assert (Hl : forall L, map (fun c => (if shared c then c ++ "_x" else c,
                                        cell L c)) (columns left)
                         = project L (columns left)).
  { intros L. unfold project. apply map_ext. intros c. now rewrite Hnone. }
  assert (Hr : forall q, map (fun c => (if shared c then c ++ "_y" else c,
                                        cell q c)) rcols
                         = project q rcols).
  { intros q. unfold project. apply map_ext. intros c. now rewrite Hnone. }
  split.
  { intros c Hc. unfold has_column at 1. cbn [columns].
    assert (Hsame : map (fun c => if negb (String.eqb c key)
                                     && has_column left c && has_column right c
                                  then c ++ "_x" else c) (columns left)
                    = columns left).
    { rewrite <- (map_id (columns left)) at 2. apply map_ext.
      intros a. pose proof (Hnone a) as Ha. unfold shared in Ha.
      now rewrite Ha. }
    rewrite Hsame, mem_app. apply orb_true_iff. left. exact Hc. }
  cbn [rows].
  induction (rows left) as [|L ls IH]; [constructor|].
  cbn [flat_map].
  destruct (Hone L (or_introl eq_refl)) as [q Hq].
  fold shared. fold rcols. rewrite Hq. cbn [map app].
  constructor.
  - exists q.
    assert (Hin : In q (filter (fun q => key_eqb (cell L key) (cell q key))
                               (rows right))) by (rewrite Hq; now left).
    apply filter_In in Hin as [Hin Hkey].
    split; [exact Hin|]. split; [exact Hkey|]. rewrite Hl, Hr. split.
    + intros c Hc. unfold cell at 1.
      rewrite lookup_app, lookup_project_present; [reflexivity|].
      now apply mem_In.
    + intros c Hc Hne. unfold cell at 1. rewrite lookup_app.
      rewrite lookup_project_absent.
      * rewrite lookup_project_present; [reflexivity|].
        unfold rcols. apply filter_In. split; [now apply mem_In|].
        apply negb_true_iff. now apply String.eqb_neq.
      * destruct (mem c (columns left)) eqn:E; [|reflexivity].
        fold (has_column left c) in E.
        rewrite (Hshared c Hne E) in Hc. discriminate.
  - apply IH. intros L' HL'. apply Hone. now right.
Qed.

Lemma Forall2_in_left {A B : Type} (R : A -> B -> Prop) (l : list A)
      (l' : list B) (a : A) :
  Forall2 R l l' -> In a l -> exists b, In b l' /\ R a b.
Proof.
  intros F. induction F as [|a0 b0 l l' H _ IH]; intros Hin; [contradiction|].
  destruct Hin as [<-|Hin].
  - exists b0. split; [now left | exact H].
  - destruct (IH Hin) as (b & Hb & Hab). exists b. split; [now right | exact Hab].
Qed.

Lemma in_melt_pairs (df : DataFrame) (cs : list string) (p : string * Row) :
  In p (melt_pairs df cs) -> In (fst p) cs /\ In (snd p) (rows df).
Proof.
  unfold melt_pairs. intros H. apply in_flat_map in H as (v & Hv & H).
  apply in_map_iff in H as (r & <- & Hr). now split.
Qed.

(** X16. The reshape of [measurement_attribute_preparation]. When the
    table has a measurement column and none of the labels the reshape
    writes, and every trait of the dictionary is listed once with a
    description, the stage returns one row for each pair of a
    measurement column and an input row whose value is not missing, in
    that order: [propertyName] is the name of the column,
    [measurementValue] the number read from the cell or else the cell,
    the identifier cells are those of the input row, and
    [propertyLabel], [propertyDefinition], [measurementUnit] and
    [propertyUrl] are the label, definition, unit and type of the first
    description of that trait. This holds whatever [pd.to_numeric] reads
    from a text ([read]). *)
Theorem measurement_melt_content (read : string -> pyfloat)
    (trait_dict : TraitDict) (df : DataFrame) (g : Rng) :
  measurement_columns trait_dict df <> [] ->
  (forall c, In c reserved_columns -> has_column df c = false) ->
  NoDup (map fst trait_dict) ->
  Forall (fun kv => snd kv <> []) trait_dict ->
  exists out g',
    measurement_attribute_preparation_with read (Loaded trait_dict) df g
    = Return (out, g') /\
    Forall2
      (fun p r' =>
         cell r' "propertyName" = CStr (fst p) /\
         cell r' "measurementValue"
         = coerce_or_keep_with read (cell (snd p) (fst p)) /\
         (forall id, In id (non_measurement_columns trait_dict df) ->
                     cell r' id = cell (snd p) id) /\
         exists e rest,
           In (fst p, e :: rest) trait_dict /\
           cell r' "propertyLabel" = label e /\
           cell r' "propertyDefinition" = definition e /\
           cell r' "measurementUnit" = unit e /\
           cell r' "propertyUrl" = type e)
      (filter (fun p => negb (is_invalid (cell (snd p) (fst p))))
              (melt_pairs df (measurement_columns trait_dict df)))
      (rows out).
Proof.
  intros Hcols Hres Hnd Hdesc.
  set (ids := non_measurement_columns trait_dict df).
  set (cols := measurement_columns trait_dict df) in *.
  assert (Hno : forall c, In c reserved_columns -> mem c ids = false).
  { intros c Hc. unfold ids, non_measurement_columns. rewrite mem_filter.
    specialize (Hres c Hc). unfold has_column in Hres. now rewrite Hres. }
  assert (Hidcol : forall c, In c ids -> has_column df c = true).
  { intros c Hc. unfold ids, non_measurement_columns in Hc.
    apply filter_In in Hc as [Hc _]. now apply mem_In. }
  destruct (melt_content df ids cols "propertyName" "measurementValue")
    as (melted & Hmelt & Hmc & F1).
  { apply Hres. cbn. tauto. }
  { apply Hno. cbn. tauto. }
  { apply Hno. cbn. tauto. }
  { discriminate. }
  destruct (trait_rows_content trait_dict Hdesc) as (tl & Htl & FT).
  assert (Hne : trait_dict <> []).
  { intros E. apply Hcols. unfold cols, measurement_columns. rewrite E.
    induction (columns df) as [|c cs IH]; [reflexivity | exact IH]. }
  assert (Htcols : columns (trait_frame tl)
                   = ["propertyName"; "propertyLabel"; "propertyDefinition";
                      "measurementUnit"; "propertyUrl"]).
  { destruct FT as [|kv q td tl' (e & rest & _ & ->) _]; [congruence|].
    reflexivity. }
  assert (Hkeys : map (fun q => cell q "propertyName") tl
                  = map CStr (map fst trait_dict)).
  { rewrite map_map. clear - FT.
    induction FT as [|kv q td tl' (e & rest & _ & ->) _ IH]; cbn [map];
      [reflexivity|]. now rewrite IH. }
  assert (Hmhas : forall c, has_column melted c
                            = mem c ids || (String.eqb c "propertyName"
                               || (String.eqb c "measurementValue" || false))).
  { intros c. unfold has_column. rewrite Hmc, mem_app. reflexivity. }
  destruct (merge_left_rows melted (trait_frame tl) "propertyName")
    as (merged & Hmerge & Hkeep & F2).
  { rewrite Hmhas. cbn. apply orb_true_r. }
  { unfold has_column. now rewrite Htcols. }
  { intros c Hc Hhas. unfold has_column. rewrite Htcols.
    unfold mem. cbn [existsb].
    rewrite Hmhas in Hhas.
    apply String.eqb_neq in Hc. rewrite Hc in *. cbn [orb].
    destruct (mem c ids) eqn:Eid.
    - apply mem_In, Hidcol in Eid.
      repeat match goal with
             | |- context [String.eqb c ?s] =>
                 destruct (String.eqb_spec c s) as [->|_];
                 [rewrite Hres in Eid by (cbn; tauto); discriminate|]
             end.
      reflexivity.
    - cbn [orb] in Hhas. rewrite orb_false_r in Hhas.
      apply String.eqb_eq in Hhas. subst c. reflexivity. }
  { intros L HL.
    destruct (Forall2_in_right _ _ _ _ F1 HL) as (p & Hp & Hpn & _).
    apply in_melt_pairs in Hp as [Hv _].
    unfold cols, measurement_columns in Hv. apply filter_In in Hv as [_ Hv].
    unfold in_dict in Hv. apply existsb_exists in Hv as (kv & Hkv & Hk).
    apply String.eqb_eq in Hk.
    destruct (Forall2_in_left _ _ _ _ FT Hkv) as (q & Hq & e & rest & _ & Hqe).
    pose proof (unique_partner (cell L "propertyName") (map fst trait_dict)
                  tl Hnd Hkeys) as Hle.
    cbn [trait_frame rows].
    assert (Hin : In q (filter (fun q => key_eqb (cell L "propertyName")
                                           (cell q "propertyName")) tl)).
    { apply filter_In. split; [exact Hq|].
      rewrite Hpn, Hqe, Hk. cbn. apply String.eqb_refl. }
    destruct (filter _ tl) as [|q1 [|q2 qs]]; [contradiction| |simpl in Hle; lia].
    eauto. }
  assert (Hmv : has_column merged "measurementValue" = true).
  { apply Hkeep. rewrite Hmhas. cbn. now rewrite !orb_true_r. }
  destruct (keep_strings_rows read merged Hmv) as (clean & Hclean & F3).
  destruct (observation_id_generator_rows clean g)
    as (out & g' & Hid & _ & _ & _ & F4).
  exists out, g'. split.
  - unfold measurement_attribute_preparation_with,
      measurement_attribute_preparation_body_with.
    fold cols. destruct cols as [|c cs] eqn:Ecols; [congruence|].
    unfold melt_measurements_with. fold ids. fold cols. rewrite Ecols.
    rewrite Hmelt. cbn [bind]. rewrite Htl. cbn [bind].
    rewrite Hmerge. cbn [bind]. rewrite Hclean. cbn [bind].
    rewrite Hid. reflexivity.
  - pose proof (Forall2_compose _ _ _ _ _ F1 F2) as F12.
    pose proof (Forall2_filter _
                  (fun p => negb (is_invalid (cell (snd p) (fst p))))
                  (fun r => negb (is_invalid (cell r "measurementValue")))
                  _ _ F12) as F12'.
    assert (Hagree : forall (a : string * Row) (b : Row),
               (exists L, (cell L "propertyName" = CStr (fst a) /\
                           cell L "measurementValue" = cell (snd a) (fst a) /\
                           (forall id, In id ids -> cell L id = cell (snd a) id))
                          /\ (exists q,
                                 In q (rows (trait_frame tl)) /\
                                 key_eqb (cell L "propertyName")
                                         (cell q "propertyName") = true /\
                                 (forall c, has_column melted c = true ->
                                            cell b c = cell L c) /\
                                 (forall c, has_column (trait_frame tl) c = true ->
                                            c <> "propertyName" ->
                                            cell b c = cell q c))) ->
               negb (is_invalid (cell (snd a) (fst a)))
               = negb (is_invalid (cell b "measurementValue"))).
    { intros a b (L & (_ & HLmv & _) & q & _ & _ & HbL & _).
      rewrite (HbL "measurementValue"), HLmv; [reflexivity|].
      rewrite Hmhas. cbn. now rewrite !orb_true_r. }
    specialize (F12' Hagree).
    pose proof (Forall2_compose _ _ _ _ _ F12'
                  (Forall2_compose _ _ _ _ _ F3 F4)) as F.
    eapply Forall2_weaken; [|exact F]. clear F F12 F12' F1 F2 F3 F4 Hagree.
    intros [v r] r' _ (M & (L & (HLpn & HLmv & HLid) & q & Hq & Hkey & HML & HMq)
                       & C & (HCmv & HCother) & HrC).
    cbn [fst snd] in *.
    assert (Hr' : forall c, c <> "observationId" -> cell r' c = cell C c).
    { intros c Hc. destruct HrC as [->|[w ->]]; [reflexivity|].
      apply cell_set_other. congruence. }
    cbn [trait_frame rows] in Hq.
    destruct (Forall2_in_right _ _ _ _ FT Hq) as (kv & Hkv & e & rest & Hsnd & ->).
    rewrite HLpn in Hkey. cbn in Hkey. apply String.eqb_eq in Hkey.
    assert (Hright : forall c, In c ["propertyLabel"; "propertyDefinition";
                                     "measurementUnit"; "propertyUrl"] ->
               cell r' c = cell (trait_row (fst kv) e) c).
    { intros c Hc.
      rewrite Hr', HCother, HMq; try reflexivity;
        cbn [In] in Hc; repeat (destruct Hc as [<-|Hc]; [try discriminate|]);
        try contradiction;
        unfold has_column; rewrite Htcols; reflexivity. }
    split; [|split; [|split]].
    + rewrite Hr', HCother, HML, HLpn by
        (try discriminate; rewrite Hmhas; cbn; now rewrite !orb_true_r).
      reflexivity.
    + rewrite Hr', HCmv, HML, HLmv by
        (try discriminate; rewrite Hmhas; cbn; now rewrite !orb_true_r).
      reflexivity.
    + intros id Hid'.
      assert (Hidn : forall c, In c reserved_columns -> id <> c).
      { intros c Hc E. subst c. pose proof (Hno id Hc) as Hf.
        apply mem_In in Hid'. congruence. }
      rewrite Hr', HCother, HML, HLid;
        try reflexivity; try exact Hid';
        try (apply Hidn; cbn; tauto).
      rewrite Hmhas. apply mem_In in Hid'. now rewrite Hid'.
    + exists e, rest. split.
      * rewrite Hkey, <- Hsnd. now destruct kv.
      * repeat split; (rewrite Hright by (cbn; tauto)); reflexivity.
Qed.

Lemma measurement_melt_content_witness :
  exists out g',
    measurement_attribute_preparation (Loaded traits) heights rng0
    = Return (out, g') /\
    values_of out "propertyName" = [CStr "height"] /\
    values_of out "propertyLabel" = [CStr "Height"] /\
    values_of out "site" = [CStr "A"].
Proof.
  destruct (measurement_melt_content numeric_literal traits heights rng0)
    as (out & g' & Hrun & _).
  - vm_compute. discriminate.
  - intros c Hc. cbn [reserved_columns In] in Hc.
    repeat (destruct Hc as [<-|Hc]; [reflexivity|]). contradiction.
  - repeat constructor; simpl; tauto.
  - repeat constructor; discriminate.
  - exists out, g'. split; [exact Hrun|].
    vm_compute in Hrun. injection Hrun as <- _. repeat split.
Defined.

Lemma filter_nil_false {A : Type} (p : A -> bool) (l : list A) (x : A) :
  filter p l = [] -> In x l -> p x = false.
Proof.
  induction l as [|a l IH]; [contradiction|]. cbn [filter].
  destruct (p a) eqn:E; [discriminate|].
  intros H [->|Hin]; [exact E | now apply IH].
Qed.

(** Reading a row after the two renamings of the fallback. *)
Lemma lookup_measurement_rename (r : Row) (x : string) :
  lookup r "propertyName" = None -> lookup r "propertyUrl" = None ->
  lookup (map (fun kv => (rename_label
                            [("measurementType", "propertyName");
                             ("measurementTypeID", "propertyUrl")] (fst kv),
                          snd kv)) r) x
  = if String.eqb x "propertyName" then lookup r "measurementType"
    else if String.eqb x "propertyUrl" then lookup r "measurementTypeID"
    else if String.eqb x "measurementType" || String.eqb x "measurementTypeID"
         then None
         else lookup r x.
Proof.
  intros Hn Hu. induction r as [|[k v] r IH].
  - cbn. destruct (String.eqb x "propertyName"), (String.eqb x "propertyUrl"),
      (String.eqb x "measurementType" || String.eqb x "measurementTypeID");
      reflexivity.
  - cbn [lookup] in Hn, Hu.
    destruct (String.eqb_spec k "propertyName") as [|Hkn]; [discriminate|].
    destruct (String.eqb_spec k "propertyUrl") as [|Hku]; [discriminate|].
    specialize (IH Hn Hu).
    change (lookup (map (fun kv => (rename_label
                            [("measurementType", "propertyName");
                             ("measurementTypeID", "propertyUrl")] (fst kv),
                          snd kv)) ((k, v) :: r)) x)
      with (if String.eqb
                 (if String.eqb "measurementType" k then "propertyName"
                  else if String.eqb "measurementTypeID" k then "propertyUrl"
                       else k) x
            then Some v
            else lookup (map (fun kv => (rename_label
                            [("measurementType", "propertyName");
                             ("measurementTypeID", "propertyUrl")] (fst kv),
                          snd kv)) r) x).
    rewrite IH. cbn [lookup]. clear IH.
    destruct (String.eqb_spec "measurementType" k); subst.
    2: destruct (String.eqb_spec "measurementTypeID" k); subst.
    all: repeat match goal with
                | |- context [String.eqb ?a ?b] =>
                    destruct (String.eqb_spec a b); subst;
                    try contradiction; try congruence; try discriminate
                end; cbn [orb]; try reflexivity; try congruence.
Qed.

(** Reading the columns of a frame after the two renamings. *)
Lemma values_measurement_rename (d : DataFrame) :
  (forall r, In r (rows d) ->
             lookup r "propertyName" = None /\ lookup r "propertyUrl" = None) ->
  values_of (rename d measurement_renaming) "propertyName"
  = values_of d "measurementType" /\
  values_of (rename d measurement_renaming) "propertyUrl"
  = values_of d "measurementTypeID" /\
  (forall x, ~ In x ["propertyName"; "propertyUrl"; "measurementType";
                     "measurementTypeID"] ->
             values_of (rename d measurement_renaming) x = values_of d x).
Proof.
  intros H. unfold values_of, rename, measurement_renaming. cbn [rows].
  rewrite !map_map. repeat split.
  - apply map_ext_in. intros r Hr. destruct (H r Hr) as [Hn Hu].
    unfold cell. now rewrite lookup_measurement_rename.
  - apply map_ext_in. intros r Hr. destruct (H r Hr) as [Hn Hu].
    unfold cell. now rewrite lookup_measurement_rename.
  - intros x Hx. rewrite map_map. apply map_ext_in. intros r Hr.
    destruct (H r Hr) as [Hn Hu].
    unfold cell. rewrite lookup_measurement_rename by assumption.
    cbn [In] in Hx.
    destruct (String.eqb_spec x "propertyName"); [subst; elim Hx; auto 10|].
    destruct (String.eqb_spec x "propertyUrl"); [subst; elim Hx; auto 10|].
    destruct (String.eqb_spec x "measurementType"); [subst; elim Hx; auto 10|].
    destruct (String.eqb_spec x "measurementTypeID"); [subst; elim Hx; auto 10|].
    reflexivity.
Qed.

(** X17. With no column of the trait dictionary but a
    [measurementValue] and a [measurementType] column, the stage returns
    as many rows as it was given: [propertyName] and [propertyLabel]
    both hold the values of [measurementType], [propertyUrl] those of
    [measurementTypeID] when that column exists, [propertyDefinition] is
    [pd.NA], and [measurementValue] is handed on as it is, placeholder
    words included. *)
Theorem measurement_fallback_with_values
    (trait_dict : TraitDict) (df : DataFrame) (g : Rng) :
  measurement_columns trait_dict df = [] ->
  has_column df "measurementValue" = true ->
  has_column df "measurementType" = true ->
  has_column df "propertyName" = false ->
  has_column df "propertyUrl" = false ->
  well_formed df ->
  exists out g',
    measurement_attribute_preparation (Loaded trait_dict) df g
    = Return (out, g') /\
    len out = len df /\
    values_of out "propertyName" = values_of df "measurementType" /\
    values_of out "propertyLabel" = values_of df "measurementType" /\
    values_of out "propertyDefinition" = map (fun _ => CNA) (rows df) /\
    values_of out "measurementValue" = values_of df "measurementValue" /\
    (has_column df "measurementTypeID" = true ->
     values_of out "propertyUrl" = values_of df "measurementTypeID").
Proof.
  intros Hcols Hmv Hmt Hpn Hpu Hwf.
  destruct (observation_id_generator_rows df g)
    as (d & g' & Hid & Hlen & Hhas & Hkeep & F).
  assert (Hrows : forall r, In r (rows d) ->
            lookup r "propertyName" = None /\ lookup r "propertyUrl" = None).
  { intros r' Hr'.
    destruct (Forall2_in_right _ _ _ _ F Hr') as (r & Hr & [->|[v ->]]).
    - split; now apply (well_formed_lookup df).
    - rewrite !lookup_set_other by discriminate.
      split; now apply (well_formed_lookup df). }
  destruct (values_measurement_rename d Hrows) as (Vn & Vu & Vo).
  fold measurement_renaming.
  set (d2 := rename d measurement_renaming) in *.
  assert (Hlen2 : len d2 = len df).
  { unfold d2, rename, len. cbn [rows]. rewrite length_map. exact Hlen. }
  assert (Hhas2 : has_column d2 "propertyName" = true).
  { unfold has_column, d2, rename. cbn [columns]. apply mem_In.
    change "propertyName"
      with (rename_label measurement_renaming "measurementType").
    apply in_map. apply mem_In. apply Hkeep. exact Hmt. }
  set (names := map (fun r => cell r "propertyName") (rows d2)).
  assert (Hnames : List.length names = len d2)
    by (unfold names, len; now rewrite length_map).
  assert (Hnv : names = values_of df "measurementType").
  { change names with (values_of d2 "propertyName"). rewrite Vn.
    apply (observation_id_generator_values df d g g' _ Hid). discriminate. }
  exists (assign_scalar (assign_values d2 "propertyLabel" names)
                        "propertyDefinition" CNA), g'.
  split.
  - unfold measurement_attribute_preparation,
      measurement_attribute_preparation_with,
      measurement_attribute_preparation_body_with.
    rewrite Hcols.
    replace (mem "measurementValue" (non_measurement_columns trait_dict df))
      with true.
    + rewrite Hid. fold measurement_renaming. fold d2.
      unfold column. rewrite Hhas2. reflexivity.
    + symmetry. unfold non_measurement_columns. rewrite mem_filter.
      unfold has_column in Hmv. rewrite Hmv.
      unfold measurement_columns in Hcols.
      rewrite (filter_nil_false _ _ "measurementValue" Hcols);
        [reflexivity|]. now apply mem_In.
  - repeat split.
    + unfold assign_scalar. rewrite len_assign, len_assign_values; auto.
    + rewrite values_assign_scalar. cbn [String.eqb Ascii.eqb Bool.eqb].
      rewrite values_assign_values_other by (auto; discriminate).
      rewrite Vn.
      apply (observation_id_generator_values df d g g' _ Hid). discriminate.
    + rewrite values_assign_scalar. cbn [String.eqb Ascii.eqb Bool.eqb].
      rewrite values_assign_values_same by exact Hnames. exact Hnv.
    + rewrite values_assign_scalar. rewrite String.eqb_refl.
      apply map_const_length.
      change (len (assign_values d2 "propertyLabel" names) = len df).
      rewrite len_assign_values by exact Hnames. exact Hlen2.
    + rewrite values_assign_scalar. cbn [String.eqb Ascii.eqb Bool.eqb].
      rewrite values_assign_values_other by (auto; discriminate).
      rewrite Vo by (cbn [In]; intuition discriminate).
      apply (observation_id_generator_values df d g g' _ Hid). discriminate.
    + intros _. rewrite values_assign_scalar.
      cbn [String.eqb Ascii.eqb Bool.eqb].
      rewrite values_assign_values_other by (auto; discriminate).
      rewrite Vu.
      apply (observation_id_generator_values df d g g' _ Hid). discriminate.
Qed.

Lemma measurement_fallback_with_values_witness :
  exists out g',
    measurement_attribute_preparation (Loaded traits) long_format rng0
    = Return (out, g') /\
    values_of out "propertyLabel" = [CStr "length"; CStr "mass"] /\
    values_of out "measurementValue"
    = [CStr "none"; CNum (FDec false 35 (-1))].
Proof.
  destruct (measurement_fallback_with_values traits long_format rng0)
    as (out & g' & Hrun & _ & _ & Hlabel & _ & Hvalue & _);
    try reflexivity.
  - intros r [<-|[<-|[]]]; reflexivity.
  - exists out, g'. split; [exact Hrun|]. split; assumption.
Defined.










End ReshapeProperties.

(* ================================================================== *)
(** ** Further properties: preparation and the workflow *)
(* ================================================================== *)

Section WorkflowProperties.

(** The three clauses of a stage that returns nothing on an error. *)
Lemma measurement_stage_returns (file : JsonFile TraitDict)
      (df : option DataFrame) (g : Rng) :
  exists out g', measurement_stage file df g = Return (out, g') /\
                 (df = None -> out = None).
Proof.
  destruct df as [d|]; cbn [measurement_stage].
  - unfold measurement_attribute_preparation,
      measurement_attribute_preparation_with.
    destruct (measurement_attribute_preparation_body_with _ file d g)
      as [[local_df g1] r].
    destruct (measurement_handlers_catch local_df g1 r) as (out & -> & _).
    cbn [bind]. exists (Some out), g1. split; [reflexivity | discriminate].
  - exists None, g. split; reflexivity.
Qed.

(** X18. Unless the input directory can be listed and holds exactly one
    file whose name ends in [.csv], [data_preparation] returns [None]
    without drawing an identifier, and the workflow returns [None]. *)
Theorem workflow_needs_one_csv (disk : Disk) (attribute_df : DataFrame)
    (g : Rng) :
  (forall names, listdir disk = Return names ->
     List.length (filter (fun file => endswith file ".csv") names) <> 1) ->
  data_preparation disk attribute_df g = (None, g) /\
  run_dataset_transformation_mapping_workflow disk attribute_df g = None.
Proof.
  intros H.
  assert (Hprep : data_preparation disk attribute_df g = (None, g)).
  { unfold data_preparation, data_preparation_body.
    destruct (listdir disk) as [names|e]; cbn [lift and_then];
      [|reflexivity].
    specialize (H names eq_refl).
    destruct (filter _ names) as [|file [|file' rest]];
      [reflexivity | now elim H | reflexivity]. }
  split; [exact Hprep|].
  unfold run_dataset_transformation_mapping_workflow. rewrite Hprep.
  destruct (measurement_stage_returns (trait_dict_json disk) None g)
    as (out & g' & -> & Hnone).
  rewrite (Hnone eq_refl). reflexivity.
Qed.

Lemma workflow_needs_one_csv_witness :
  run_dataset_transformation_mapping_workflow two_csv_disk attributes rng0
  = None.
Proof.
  apply (workflow_needs_one_csv two_csv_disk attributes rng0).
  intros names H. injection H as <-. vm_compute. discriminate.
Defined.

(** X19. When [taxonomy_list.json] is missing or malformed the workflow
    returns [None], whatever the input directory, the trait dictionary
    and the data are. *)
Theorem workflow_needs_taxonomy_list (disk : Disk) (attribute_df : DataFrame)
    (g : Rng) :
  taxonomy_list_json disk = Missing \/ taxonomy_list_json disk = Malformed ->
  run_dataset_transformation_mapping_workflow disk attribute_df g = None.
Proof.
  intros H. unfold run_dataset_transformation_mapping_workflow.
  destruct (data_preparation disk attribute_df g) as [df g1].
  destruct (measurement_stage_returns (trait_dict_json disk) df g1)
    as (out & g' & -> & _).
  cbn [bind].
  assert (Htax : taxonomy_stage (taxonomy_list_json disk) out = Return None).
  { destruct out as [d|]; [|reflexivity].
    destruct H as [-> | ->]; reflexivity. }
  rewrite Htax. reflexivity.
Qed.

Lemma workflow_needs_taxonomy_list_witness :
  run_dataset_transformation_mapping_workflow no_taxonomy_disk attributes rng0
  = None.
Proof.
  apply (workflow_needs_taxonomy_list no_taxonomy_disk attributes rng0).
  left. reflexivity.
Defined.

(** X20. Whenever the workflow returns a table, no cell of it is an
    empty string and every null cell of it is the sentinel [pd.NA]. *)
Theorem workflow_output_normalised (disk : Disk) (attribute_df : DataFrame)
    (g : Rng) (out : DataFrame) :
  run_dataset_transformation_mapping_workflow disk attribute_df g = Some out ->
  forall x, In x (all_cells out) ->
            x <> CStr "" /\ (isna x = true -> x = CNA).
Proof.
  unfold run_dataset_transformation_mapping_workflow.
  destruct (data_preparation disk attribute_df g) as [df g1].
  destruct (measurement_stage_returns (trait_dict_json disk) df g1)
    as (measured & g' & -> & _).
  cbn [bind].
  destruct (taxonomy_stage (taxonomy_list_json disk) measured)
    as [[d|]|e]; cbn [bind]; try discriminate.
  intros H. injection H as <-. intros x Hx.
  rewrite all_cells_map_cells in Hx.
  apply in_map_iff in Hx as (y & <- & _).
  apply normalize_cell_canonical.
Qed.

Lemma workflow_output_normalised_witness :
  exists out,
    run_dataset_transformation_mapping_workflow survey_disk attributes rng0
    = Some out /\
    len out = 2 /\
    forall x, In x (all_cells out) ->
              x <> CStr "" /\ (isna x = true -> x = CNA).
Proof.
  eexists. split; [vm_compute; reflexivity|]. split; [reflexivity|].
  apply (workflow_output_normalised survey_disk attributes rng0).
  vm_compute. reflexivity.
Defined.

Lemma rstrip_idempotent (s : string) : rstrip (rstrip s) = rstrip s.
Proof.
  induction s as [|a s IH]; [reflexivity|]. cbn [rstrip].
  destruct (rstrip s) as [|b t] eqn:E.
  - destruct (is_space a) eqn:Ha; [reflexivity|].
    cbn [rstrip]. now rewrite Ha.
  - change (rstrip (String a (String b t)))
      with (match rstrip (String b t) with
            | EmptyString =>
                if is_space a then EmptyString else String a EmptyString
            | u => String a u
            end).
    rewrite IH. reflexivity.
Qed.

Lemma lstrip_fixed (s : string) :
  match s with
  | EmptyString => True
  | String a _ => is_space a = false
  end -> lstrip s = s.
Proof. destruct s as [|a s]; [reflexivity|]. cbn [lstrip]. now intros ->. Qed.

Lemma lstrip_head (s : string) :
  match lstrip s with
  | EmptyString => True
  | String a _ => is_space a = false
  end.
Proof.
  induction s as [|a s IH]; [exact I|]. cbn [lstrip].
  destruct (is_space a) eqn:Ha; [exact IH | exact Ha].
Qed.

Lemma rstrip_head (s : string) :
  match s with
  | EmptyString => True
  | String a _ => is_space a = false
  end ->
  match rstrip s with
  | EmptyString => True
  | String a _ => is_space a = false
  end.
Proof.
  destruct s as [|a s]; [intros _; exact I|]. intros Ha. cbn [rstrip].
  destruct (rstrip s); [rewrite Ha|]; exact Ha.
Qed.

Lemma strip_idempotent (s : string) : strip (strip s) = strip s.
Proof.
  unfold strip.
  rewrite (lstrip_fixed (rstrip (lstrip s)))
    by (apply rstrip_head, lstrip_head).
  apply rstrip_idempotent.
Qed.

Lemma strip_cell_idempotent (c : Cell) :
  strip_cell (strip_cell c) = strip_cell c.
Proof.
  destruct c; try reflexivity. cbn [strip_cell]. now rewrite strip_idempotent.
Qed.

Lemma stripped_column_idempotent (vs : list Cell) :
  stripped_column (stripped_column vs) = stripped_column vs.
Proof.
  unfold stripped_column. destruct (float_column vs) eqn:E.
  - now rewrite E.
  - destruct (float_column (map strip_cell vs)); [reflexivity|].
    rewrite map_map. apply map_ext. apply strip_cell_idempotent.
Qed.

Lemma values_strip_step (d : DataFrame) (col c : string) :
  values_of (strip_step d col) c
  = if String.eqb c col then stripped_column (values_of d c)
    else values_of d c.
Proof.
  unfold strip_step, stripped_column.
  destruct (String.eqb_spec c col) as [->|Hc].
  - fold (values_of d col).
    destruct (float_column (values_of d col)); [reflexivity|].
    rewrite values_assign_same. unfold values_of. now rewrite map_map.
  - destruct (float_column _); [reflexivity|].
    apply values_assign_other. congruence.
Qed.

Lemma strip_step_frame (d : DataFrame) (col : string) :
  has_column d col = true ->
  len (strip_step d col) = len d /\ columns (strip_step d col) = columns d.
Proof.
  intros H. unfold strip_step. destruct (float_column _); [auto|].
  split; [apply len_assign|]. cbn [assign columns].
  now apply add_label_present.
Qed.

Lemma strip_fold (l : list string) (d : DataFrame) :
  (forall x, In x l -> has_column d x = true) ->
  len (fold_left strip_step l d) = len d /\
  columns (fold_left strip_step l d) = columns d /\
  forall c, values_of (fold_left strip_step l d) c
            = if mem c l then stripped_column (values_of d c)
              else values_of d c.
Proof.
  revert d. induction l as [|a l IH]; intros d H.
  - repeat split.
  - cbn [fold_left].
    destruct (strip_step_frame d a) as [Hlen Hcols]; [apply H; now left|].
    destruct (IH (strip_step d a)) as (L & C & V).
    { intros x Hx. unfold has_column. rewrite Hcols. apply H. now right. }
    split; [congruence|]. split; [congruence|].
    intros c. rewrite V, values_strip_step.
    unfold mem. cbn [existsb]. fold (mem c l).
    destruct (String.eqb c a), (mem c l); cbn [orb]; try reflexivity.
    apply stripped_column_idempotent.
Qed.

(** X21. The stripping loop of [data_preparation] keeps the rows and
    the labels. A column that holds only floats is left as it is; in any
    other column of the table every text is stripped of leading and
    trailing white space and every cell that is not a text becomes
    NaN. *)
Theorem strip_columns_values (df : DataFrame) (c : string) :
  len (strip_columns df) = len df /\
  columns (strip_columns df) = columns df /\
  values_of (strip_columns df) c
  = if has_column df c && negb (float_column (values_of df c))
    then map strip_cell (values_of df c)
    else values_of df c.
Proof.
  destruct (strip_fold (columns df) df) as (L & C & V).
  { intros x Hx. now apply mem_In. }
  change (strip_columns df) with (fold_left strip_step (columns df) df).
  split; [exact L|]. split; [exact C|].
  rewrite V. unfold has_column, stripped_column.
  destruct (mem c (columns df)), (float_column (values_of df c)); reflexivity.
Qed.

Lemma carried_refl ws df : carried_outside ws df df.
Proof. split; auto. Qed.

Lemma carried_trans ws a b c :
  carried_outside ws a b -> carried_outside ws b c -> carried_outside ws a c.
Proof.
  intros (L1 & H1) (L2 & H2). split; [congruence|].
  intros d Hd. destruct (H1 d Hd) as [P1 V1]. destruct (H2 d Hd) as [P2 V2].
  split; [auto | congruence].
Qed.

Lemma carried_mono ws ws' a b :
  (forall c, mem c ws' = false -> mem c ws = false) ->
  carried_outside ws a b -> carried_outside ws' a b.
Proof. intros Hsub (L & H). split; [exact L|]. intros c Hc. auto. Qed.

Lemma keeps_carried ws a b : keeps ws a b -> carried_outside ws a b.
Proof.
  intros (L & P & V). split; [exact L|]. intros c Hc. split; [auto|].
  now apply V.
Qed.

Lemma mem_sub (ws ws' : list string) :
  forallb (fun c => mem c ws') ws = true ->
  forall c, mem c ws' = false -> mem c ws = false.
Proof.
  intros H c Hc. apply mem_false. intros Hin.
  rewrite forallb_forall in H. specialize (H c Hin). congruence.
Qed.

Lemma rename_label_other (m : list (string * string)) (k c : string) :
  (forall old new, In (old, new) m -> c <> old /\ c <> new) ->
  String.eqb (rename_label m k) c = String.eqb k c.
Proof.
  induction m as [|[old new] m IH]; intros H; [reflexivity|].
  cbn [rename_label].
  destruct (H old new) as [Ho Hn]; [now left|].
  destruct (String.eqb_spec old k) as [->|Hk].
  - apply String.eqb_neq in Ho, Hn.
    rewrite (String.eqb_sym new c), (String.eqb_sym k c). congruence.
  - apply IH. intros o n Hin. apply H. now right.
Qed.

Lemma lookup_rename_other (m : list (string * string)) (r : Row)
      (c : string) :
  (forall old new, In (old, new) m -> c <> old /\ c <> new) ->
  lookup (map (fun kv => (rename_label m (fst kv), snd kv)) r) c
  = lookup r c.
Proof.
  intros H. induction r as [|[k v] r IH]; [reflexivity|].
  cbn [map lookup fst snd].
  rewrite rename_label_other by exact H. now rewrite IH.
Qed.

Lemma carried_rename (df : DataFrame) (m : list (string * string))
      (ws : list string) :
  (forall old new, In (old, new) m -> mem old ws = true /\ mem new ws = true) ->
  carried_outside ws df (rename df m).
Proof.
  intros Hm. split; [apply len_rename|]. intros c Hc.
  assert (Hother : forall old new, In (old, new) m -> c <> old /\ c <> new).
  { intros old new Hin. destruct (Hm old new Hin) as [Ho Hn].
    split; intros ->; congruence. }
  split.
  - unfold has_column, rename. cbn [columns]. rewrite !mem_In.
    intros Hin. apply in_map_iff. exists c. split; [|exact Hin].
    apply String.eqb_eq. rewrite rename_label_other by exact Hother.
    apply String.eqb_refl.
  - unfold values_of, rename. cbn [rows]. rewrite map_map.
    apply map_ext. intros r. unfold cell.
    now rewrite lookup_rename_other.
Qed.

Lemma carried_drop_ignore (df : DataFrame) (cs ws : list string) :
  (forall c, mem c ws = false -> mem c cs = false) ->
  carried_outside ws df (drop_ignore df cs).
Proof.
  intros Hsub. split; [apply len_drop_ignore|]. intros c Hc. split.
  - intros H. now rewrite has_column_drop_ignore, H, (Hsub c Hc).
  - apply values_drop_ignore. auto.
Qed.

Lemma fill_component_keeps (df out : DataFrame) (col : string)
      (ws : list string) :
  mem col ws = true -> fill_component df col = Return out -> keeps ws df out.
Proof.
  intros Hcol. unfold fill_component.
  set (base := if has_column df col then _ else _).
  assert (Hbase : List.length base = len df).
  { unfold base, len. destruct (has_column df col); apply length_map. }
  destruct (mapM two_digits base) as [vs|] eqn:E; cbn [bind]; [|discriminate].
  intros H. injection H as <-.
  apply (keeps_trans ws df (assign_values df col base)).
  - now apply keeps_assign_values.
  - apply keeps_assign_values; [exact Hcol|].
    rewrite (mapM_length _ _ _ E), len_assign_values; auto.
Qed.

(** What [create_date_column] leaves alone whenever it returns. *)
Lemma create_date_column_carried (df out : DataFrame) :
  create_date_column df = Return out ->
  has_column out "date" = true /\
  carried_outside ["eventDate"; "date"; "year"; "month"; "day"] df out.
Proof.
  set (ws := ["eventDate"; "date"; "year"; "month"; "day"]).
  unfold create_date_column.
  destruct (has_column df "eventDate") eqn:Hev.
  - destruct (mapM _ _) as [dates|] eqn:E; cbn [bind]; [|discriminate].
    intros H. injection H as <-.
    assert (Hlen : List.length dates = len df).
    { rewrite (mapM_length _ _ _ E). apply length_map. }
    split.
    + unfold has_column, rename. cbn [columns assign_values].
      apply mem_In.
      change "date" with (rename_label [("eventDate", "date")] "eventDate").
      apply in_map. apply mem_In. rewrite has_column_add_label.
      apply orb_true_r.
    + apply (carried_trans ws df (assign_values df "eventDate" dates)).
      * apply keeps_carried. now apply keeps_assign_values.
      * apply carried_rename. intros old new [H|[]]. injection H as <- <-.
        split; reflexivity.
  - unfold replace_missing_month_day_year.
    destruct (fill_component df "month") as [d1|] eqn:E1; cbn [bind];
      [|discriminate].
    destruct (fill_component d1 "day") as [d2|] eqn:E2; cbn [bind];
      [|discriminate].
    intros H. injection H as <-.
    split.
    + rewrite has_column_drop_ignore. unfold assign_scalar.
      rewrite !has_column_assign. cbn [String.eqb Ascii.eqb Bool.eqb].
      rewrite !orb_true_r. reflexivity.
    + eapply carried_trans; [|apply carried_drop_ignore].
      * apply keeps_carried.
        apply (keeps_trans ws df d1);
          [now apply (fill_component_keeps df d1 "month")|].
        apply (keeps_trans ws d1 d2);
          [now apply (fill_component_keeps d1 d2 "day")|].
        set (ys := if has_column d2 "year" then _ else _).
        assert (Hys : List.length ys = len d2).
        { unfold ys, len. destruct (has_column d2 "year"); apply length_map. }
        unfold assign_scalar.
        do 4 (eapply keeps_trans; [|apply keeps_assign; reflexivity]).
        now apply keeps_assign_values.
      * apply mem_sub. reflexivity.
Qed.

Lemma process_coordinates_carried (df out : DataFrame) :
  process_coordinates df = Return out ->
  has_column out "point" = true /\
  carried_outside ["decimalLatitude"; "decimalLongitude"; "point"; "depth"]
                  df out.
Proof.
  intros Hrun.
  destruct (process_coordinates_before_depth df out Hrun)
    as (df2 & -> & Hpoint & K).
  assert (Kd : keeps ["decimalLatitude"; "decimalLongitude"; "point"; "depth"]
                     df2 (negate_depth df2)).
  { unfold negate_depth. destruct (has_column df2 "depth").
    - now apply keeps_assign.
    - apply keeps_refl. }
  split.
  - destruct Kd as (_ & P & _). now apply P.
  - eapply carried_trans; [|apply keeps_carried, Kd].
    eapply carried_mono; [|apply keeps_carried, K].
    apply mem_sub. reflexivity.
Qed.

Lemma id_generator_keeps (df out : DataFrame) (c : string) (g g' : Rng) :
  try_except (generate_ids df c g) (id_handlers df g) = Return (out, g') ->
  has_column out c = true /\ keeps [c] df out.
Proof.
  unfold generate_ids, draw_ids.
  destruct (has_column df c) eqn:Hc; cbn [try_except].
  - cbn. intros H. injection H as <- _. split; [exact Hc | apply keeps_refl].
  - intros H. injection H as <- _. split.
    + rewrite has_column_assign_values, String.eqb_refl. apply orb_true_r.
    + apply keeps_assign_values.
      * unfold mem. cbn [existsb]. now rewrite String.eqb_refl.
      * now rewrite length_map, length_seq.
Qed.

Lemma stripped_column_const (v : Cell) (rs : list Row) :
  stripped_column (map (fun _ => v) rs)
  = map (fun _ => stripped_scalar v) rs.
Proof.
  destruct rs as [|r rs]; [reflexivity|].
  unfold stripped_column, float_column.
  destruct v as [| |x|s]; cbn [map forallb andb stripped_scalar];
    try (rewrite map_map; reflexivity).
  replace (forallb _ (map (fun _ : Row => CNum x) rs)) with true;
    [reflexivity|].
  induction rs; [reflexivity | assumption].
Qed.

(** X22. Whenever [data_preparation] returns a table, the directory
    held exactly one [.csv] file, which was read, and the attribute
    table gave a [datasetId] and a [datasetLabel]; the table has as many
    rows as the file, has the columns [datasetId], [datasetLabel],
    [date], [point] and [featureOfInterestId], carries in every row the
    first [datasetId] and [datasetLabel] of the attribute table
    (stripped when they are texts), and every column of the file that
    the later stages do not write reaches it stripped as by the
    loop. *)
Theorem data_preparation_returns (disk : Disk) (attribute_df : DataFrame)
    (g g' : Rng) (out : DataFrame) :
  data_preparation disk attribute_df g = (Some out, g') ->
  exists names file df id label,
    listdir disk = Return names /\
    filter (fun file => endswith file ".csv") names = [file] /\
    read_csv disk ("./Input_dir/" ++ file) = inl df /\
    iloc0 attribute_df "datasetId" = Return id /\
    iloc0 attribute_df "datasetLabel" = Return label /\
    len out = len df /\
    (forall c, In c ["datasetId"; "datasetLabel"; "date"; "point";
                     "featureOfInterestId"] -> has_column out c = true) /\
    values_of out "datasetId" = map (fun _ => stripped_scalar id) (rows df) /\
    values_of out "datasetLabel"
    = map (fun _ => stripped_scalar label) (rows df) /\
    (forall c, mem c prepared_columns = false ->
               c <> "datasetId" -> c <> "datasetLabel" ->
               (has_column df c = true -> has_column out c = true) /\
               values_of out c
               = if has_column df c && negb (float_column (values_of df c))
                 then map strip_cell (values_of df c)
                 else values_of df c).
Proof.
  unfold data_preparation.
  destruct (data_preparation_body disk attribute_df g) as [[d gd]|e] eqn:E;
    [|discriminate].
  intros H. injection H as -> ->.
  unfold data_preparation_body in E.
  destruct (listdir disk) as [names|] eqn:Hnames; cbn [lift and_then] in E;
    [|discriminate].
  destruct (filter _ names) as [|file [|file' rest]] eqn:Hfiles;
    try discriminate.
  destruct (read_csv disk ("./Input_dir/" ++ file)) as [df|] eqn:Hread;
    cbn [and_then] in E; [|discriminate].
  destruct (iloc0 attribute_df "datasetId") as [id|] eqn:Hid;
    cbn [lift and_then] in E; [|discriminate].
  destruct (iloc0 attribute_df "datasetLabel") as [label|] eqn:Hlabel;
    cbn [lift and_then] in E; [|discriminate].
  set (d0 := assign_scalar (assign_scalar df "datasetId" id)
                           "datasetLabel" label) in *.
  destruct (create_date_column (strip_columns d0)) as [d2|] eqn:E2;
    cbn [lift and_then] in E; [|discriminate].
  destruct (process_coordinates d2) as [d3|] eqn:E3;
    cbn [lift and_then] in E; [|discriminate].
  destruct (feature_of_interest_id_generator d3 g) as [[o go]|] eqn:E4;
    cbn [lift] in E; [|discriminate].
  injection E as -> ->.
  exists names, file, df, id, label.
  do 5 (split; [first [assumption | reflexivity]|]).
  (* the table after the two scalars *)
  assert (L0 : len d0 = len df)
    by (unfold d0, assign_scalar; now rewrite !len_assign).
  assert (H0 : forall c, has_column d0 c
                         = has_column df c || String.eqb c "datasetId"
                           || String.eqb c "datasetLabel").
  { intros c. unfold d0, assign_scalar. now rewrite !has_column_assign. }
  assert (V0 : forall c, values_of d0 c
                 = if String.eqb "datasetLabel" c
                   then map (fun _ => label) (rows df)
                   else if String.eqb "datasetId" c
                        then map (fun _ => id) (rows df)
                        else values_of df c).
  { intros c. unfold d0. rewrite values_assign_scalar.
    rewrite rows_assign_scalar_const. rewrite values_assign_scalar.
    reflexivity. }
  (* the stripping loop *)
  destruct (strip_fold (columns d0) d0) as (L1 & C1 & V1).
  { intros x Hx. now apply mem_In. }
  change (fold_left strip_step (columns d0) d0) with (strip_columns d0)
    in L1, C1, V1.
  assert (V1' : forall c, values_of (strip_columns d0) c
                  = if has_column d0 c then stripped_column (values_of d0 c)
                    else values_of d0 c) by exact V1.
  clear V1.
  (* the three later stages *)
  destruct (create_date_column_carried _ _ E2) as [Hdate K2].
  destruct (process_coordinates_carried _ _ E3) as [Hpoint K3].
  destruct (id_generator_keeps d3 out "featureOfInterestId" g g' E4)
    as [Hfeature K4].
  assert (K : carried_outside prepared_columns (strip_columns d0) out).
  { apply (carried_trans _ _ d2);
      [eapply carried_mono; [|exact K2]; apply mem_sub; reflexivity|].
    apply (carried_trans _ _ d3);
      [eapply carried_mono; [|exact K3]; apply mem_sub; reflexivity|].
    eapply carried_mono; [|apply keeps_carried, K4].
    apply mem_sub. reflexivity. }
  destruct K as [L K].
  split; [congruence|]. split; [|split; [|split]].
  - intros c Hc. cbn [In] in Hc.
    destruct Hc as [<-|[<-|[<-|[<-|[<-|[]]]]]].
    + apply (K "datasetId" eq_refl). unfold has_column. rewrite C1.
      fold (has_column d0 "datasetId"). rewrite H0.
      cbn [String.eqb Ascii.eqb Bool.eqb]. now rewrite orb_true_r.
    + apply (K "datasetLabel" eq_refl). unfold has_column. rewrite C1.
      fold (has_column d0 "datasetLabel"). rewrite H0.
      cbn [String.eqb Ascii.eqb Bool.eqb]. now rewrite orb_true_r.
    + destruct K4 as (_ & P4 & _). apply P4.
      destruct K3 as [_ K3]. now apply (K3 "date" eq_refl).
    + destruct K4 as (_ & P4 & _). now apply P4.
    + exact Hfeature.
  - rewrite (proj2 (K "datasetId" eq_refl)), V1', H0, V0.
    cbn [String.eqb Ascii.eqb Bool.eqb]. rewrite orb_true_r.
    apply stripped_column_const.
  - rewrite (proj2 (K "datasetLabel" eq_refl)), V1', H0, V0.
    cbn [String.eqb Ascii.eqb Bool.eqb]. rewrite orb_true_r.
    apply stripped_column_const.
  - intros c Hc Hn1 Hn2. destruct (K c Hc) as [P V]. split.
    + intros Hdf. apply P. unfold has_column. rewrite C1.
      fold (has_column d0 c). rewrite H0, Hdf. reflexivity.
    + rewrite V, V1', H0, V0.
      apply String.eqb_neq in Hn1, Hn2.
      rewrite (String.eqb_sym "datasetLabel" c), Hn2.
      rewrite (String.eqb_sym "datasetId" c), Hn1.
      rewrite !orb_false_r. unfold stripped_column.
      destruct (has_column df c), (float_column (values_of df c));
        reflexivity.
Qed.

Lemma data_preparation_returns_witness :
  exists out,
    fst (data_preparation survey_disk attributes rng0) = Some out /\
    len out = 2 /\
    values_of out "datasetLabel"
    = [CStr "Lagoon survey"; CStr "Lagoon survey"] /\
    values_of out "site" = [CStr "A"; CStr "B"].
Proof.
  destruct (data_preparation survey_disk attributes rng0) as [[out|] g']
    eqn:E; [|vm_compute in E; discriminate].
  exists out. split; [reflexivity|].
  destruct (data_preparation_returns _ _ _ _ _ E)
    as (names & file & df & id & label & Hn & Hf & Hr & _ & Hl & Hlen & _
        & _ & Hlabel & Hrest).
  injection Hn as <-. vm_compute in Hf. injection Hf as <-.
  vm_compute in Hr. injection Hr as <-.
  vm_compute in Hl. injection Hl as <-.
  split; [exact Hlen|]. split; [exact Hlabel|].
  destruct (Hrest "site") as [_ Hsite];
    [reflexivity | discriminate | discriminate|].
  exact Hsite.
Defined.

End WorkflowProperties.
